(** * JokesBot: the ask and feedback endpoints of [app.py]

    A shallow embedding of the request handlers of [app.py] and of the
    logging methods of [analytics.py], with the properties the
    specification states about them.

    Text is a string of bytes, the UTF-8 form of a Python [str]:
    equality, [in], [split(',')], [endswith('?')] and concatenation are
    the same on the bytes as on the characters.  [str.strip] removes the
    characters [str.isspace] accepts, all of them.  What depends on the
    Unicode tables of the interpreter ([str.lower], [str.isdigit],
    [int], the class [\w]) is computed here on ASCII text and is an input
    on any other text.  The semantic index, the completion service, the
    clock, the random generator and those tables are inputs of a request
    (record [Env]); the analytics file and the sequence of outgoing calls
    are the state a request threads ([World]).  Writing the analytics file
    is taken to succeed, and what the handlers print is left out. *)

From Stdlib Require Import String Ascii List ZArith Lia Bool Arith.
From Stdlib Require Import DecimalString DecimalNat.
Import ListNotations.
Open Scope string_scope.
Open Scope nat_scope.

(** ** Python string operations *)

Module PyStr.

(** The empty text and the characters a literal cannot hold. *)
Definition empty : string := EmptyString.
Definition dquote : string := String (ascii_of_nat 34) EmptyString.
Definition nl : string := String (ascii_of_nat 10) EmptyString.

Definition is_empty (s : string) : bool :=
  match s with EmptyString => true | String _ _ => false end.

Definition is_upper (c : ascii) : bool :=
  let n := nat_of_ascii c in (65 <=? n) && (n <=? 90).

Definition is_alpha_lower (c : ascii) : bool :=
  let n := nat_of_ascii c in (97 <=? n) && (n <=? 122).

Definition is_digit (c : ascii) : bool :=
  let n := nat_of_ascii c in (48 <=? n) && (n <=? 57).

(** The text has ASCII characters only. *)
Fixpoint is_ascii (s : string) : bool :=
  match s with
  | EmptyString => true
  | String c r => (nat_of_ascii c <? 128) && is_ascii r
  end.

(** [str.isspace] on ASCII: tab to carriage return, the four
    separators 28..31 and the blank. *)
Definition is_space (c : ascii) : bool :=
  let n := nat_of_ascii c in
  ((9 <=? n) && (n <=? 13)) || ((28 <=? n) && (n <=? 31)) || (n =? 32).

(** The class [\w] on ASCII. *)
Definition is_word (c : ascii) : bool :=
  is_upper c || is_alpha_lower c || is_digit c || (nat_of_ascii c =? 95).

Definition lower_char (c : ascii) : ascii :=
  if is_upper c then ascii_of_nat (nat_of_ascii c + 32) else c.

(** [str.isspace] on the characters of two bytes: U+0085 and U+00A0. *)
Definition is_space2 (c1 c2 : ascii) : bool :=
  (nat_of_ascii c1 =? 194) &&
  ((nat_of_ascii c2 =? 133) || (nat_of_ascii c2 =? 160)).

(** [str.isspace] on the characters of three bytes: U+1680, U+2000 to
    U+200A, U+2028, U+2029, U+202F, U+205F and U+3000. *)
Definition is_space3 (c1 c2 c3 : ascii) : bool :=
  let n1 := nat_of_ascii c1 in
  let n2 := nat_of_ascii c2 in
  let n3 := nat_of_ascii c3 in
  ((n1 =? 225) && (n2 =? 154) && (n3 =? 128)) ||
  ((n1 =? 226) && (n2 =? 128) &&
   (((128 <=? n3) && (n3 <=? 138)) || (n3 =? 168) || (n3 =? 169) || (n3 =? 175))) ||
  ((n1 =? 226) && (n2 =? 129) && (n3 =? 159)) ||
  ((n1 =? 227) && (n2 =? 128) && (n3 =? 128)).

(** [s.lower()] on the letters A to Z, which is [s.lower()] on ASCII
    text.  On any text it answers the tests the handlers make with fixed
    ASCII words ([keyword in s.lower()], [s.lower() == 'none']) as
    [s.lower()] does: no character outside ASCII lowers to a letter of
    those words in a place where it could complete one.  Where the
    lowered text itself is kept (the topic of a count, the texts it is
    looked up in) the handlers use [str_lower] below. *)
Fixpoint lower (s : string) : string :=
  match s with
  | EmptyString => EmptyString
  | String c r => String (lower_char c) (lower r)
  end.

(** [s.lstrip()]: the characters [str.isspace] accepts are dropped
    from the head, whatever their length in bytes. *)
Fixpoint lstrip (s : string) : string :=
  match s with
  | EmptyString => EmptyString
  | String c1 r1 =>
      if is_space c1 then lstrip r1
      else
        match r1 with
        | EmptyString => s
        | String c2 r2 =>
            if is_space2 c1 c2 then lstrip r2
            else
              match r2 with
              | EmptyString => s
              | String c3 r3 => if is_space3 c1 c2 c3 then lstrip r3 else s
              end
        end
  end.

Fixpoint reverse_onto (acc s : string) : string :=
  match s with
  | EmptyString => acc
  | String c r => reverse_onto (String c acc) r
  end.

Definition reverse (s : string) : string := reverse_onto EmptyString s.

(** The same from the end, on the reversed text: the last byte of a
    character comes first. *)
Fixpoint lstrip_reversed (s : string) : string :=
  match s with
  | EmptyString => EmptyString
  | String c1 r1 =>
      if is_space c1 then lstrip_reversed r1
      else
        match r1 with
        | EmptyString => s
        | String c2 r2 =>
            if is_space2 c2 c1 then lstrip_reversed r2
            else
              match r2 with
              | EmptyString => s
              | String c3 r3 => if is_space3 c3 c2 c1 then lstrip_reversed r3 else s
              end
        end
  end.

(** [s.rstrip()] *)
Definition rstrip (s : string) : string := reverse (lstrip_reversed (reverse s)).

(** [s.strip()] *)
Definition strip (s : string) : string := rstrip (lstrip s).

(** [sub in s] *)
Fixpoint contains (sub s : string) : bool :=
  prefix sub s ||
  match s with
  | EmptyString => false
  | String _ r => contains sub r
  end.

(** [s.endswith(suf)] *)
Fixpoint endswith (s suf : string) : bool :=
  String.eqb s suf ||
  match s with
  | EmptyString => false
  | String _ r => endswith r suf
  end.

(** [s.split(sep)] for a separator of one character. *)
Fixpoint split (sep : ascii) (s : string) : list string :=
  match s with
  | EmptyString => [EmptyString]
  | String c r =>
      if Ascii.eqb c sep then EmptyString :: split sep r
      else match split sep r with
           | [] => [String c EmptyString]
           | h :: t => String c h :: t
           end
  end.

Fixpoint all_digits (s : string) : bool :=
  match s with
  | EmptyString => true
  | String c r => is_digit c && all_digits r
  end.

(** [s.isdigit()] on ASCII text: at least one character, all of them
    digits. *)
Definition isdigit (s : string) : bool := negb (is_empty s) && all_digits s.

Fixpoint int_acc (acc : Z) (s : string) : Z :=
  match s with
  | EmptyString => acc
  | String c r => int_acc (10 * acc + Z.of_nat (nat_of_ascii c - 48)) r
  end.

(** The value [int(s)] gives for a string of ASCII digits. *)
Definition int (s : string) : Z := int_acc 0 s.

(** [str(n)] for a count. *)
Definition str_nat (n : nat) : string := NilZero.string_of_uint (Nat.to_uint n).

(** [sep.join(l)] *)
Fixpoint join (sep : string) (l : list string) : string :=
  match l with
  | [] => EmptyString
  | [x] => x
  | x :: r => x ++ sep ++ join sep r
  end.

Fixpoint drop_prefix (p s : string) : option string :=
  match p, s with
  | EmptyString, _ => Some s
  | String a p', String b s' => if Ascii.eqb a b then drop_prefix p' s' else None
  | String _ _, EmptyString => None
  end.

(** The longest match of [\w*] at the head of ASCII text. *)
Fixpoint word_run (s : string) : string :=
  match s with
  | EmptyString => EmptyString
  | String c r => if is_word c then String c (word_run r) else EmptyString
  end.

(** One attempt of the pattern [how many (\w+)] at the head of ASCII
    text: the group is the longest run of word characters, and has at
    least one. *)
Definition how_many_here (s : string) : option string :=
  match drop_prefix "how many " s with
  | Some rest =>
      match word_run rest with
      | EmptyString => None
      | w => Some w
      end
  | None => None
  end.

(** [re.search(r'how many (\w+)', s)] on ASCII text, giving
    [match.group(1)]: the leftmost position where the pattern matches. *)
Fixpoint re_search_how_many (s : string) : option string :=
  match how_many_here s with
  | Some w => Some w
  | None =>
      match s with
      | EmptyString => None
      | String _ r => re_search_how_many r
      end
  end.

(** The same on any text, given the longest match of [\w*] at the head
    of a text as [run]. *)
Definition how_many_with (run : string -> string) (s : string) : option string :=
  match drop_prefix "how many " s with
  | Some rest =>
      match run rest with
      | EmptyString => None
      | w => Some w
      end
  | None => None
  end.

Fixpoint re_search_with (run : string -> string) (s : string) : option string :=
  match how_many_with run s with
  | Some w => Some w
  | None =>
      match s with
      | EmptyString => None
      | String _ r => re_search_with run r
      end
  end.

End PyStr.

(** ** Data model *)

(** JSON values, as [request.json] and [json.load] give them.  Numbers
    are the integers; a clock reading is taken in whole milliseconds. *)
#[local] Set Warnings "-register-all".
Inductive JVal : Type :=
| JNull
| JBool (b : bool)
| JNum (n : Z)
| JStr (s : string)
| JArr (l : list JVal)
| JObj (kv : list (string * JVal)).

(** A Python [dict] with string keys, in insertion order. *)
Definition Dict := list (string * JVal).

(** [d.get(k)], [None] when the key is absent. *)
Fixpoint dict_lookup (d : Dict) (k : string) : option JVal :=
  match d with
  | [] => None
  | (k', v) :: r => if String.eqb k' k then Some v else dict_lookup r k
  end.

(** [d.get(k, default)] *)
Definition dict_get (d : Dict) (k : string) (default : JVal) : JVal :=
  match dict_lookup d k with
  | Some v => v
  | None => default
  end.

(** [d\[k\] = v]: an existing key keeps its place. *)
Fixpoint dict_set (d : Dict) (k : string) (v : JVal) : Dict :=
  match d with
  | [] => [(k, v)]
  | (k', v') :: r => if String.eqb k' k then (k', v) :: r else (k', v') :: dict_set r k v
  end.

(** [{**d, **more}] *)
Definition dict_update (d more : Dict) : Dict :=
  fold_left (fun acc kv => dict_set acc (fst kv) (snd kv)) more d.

(** Python truth value of a JSON value: [not v] is its negation. *)
Definition truthy (v : JVal) : bool :=
  match v with
  | JNull => false
  | JBool b => b
  | JNum n => negb (Z.eqb n 0)
  | JStr s => negb (PyStr.is_empty s)
  | JArr l => match l with [] => false | _ => true end
  | JObj kv => match kv with [] => false | _ => true end
  end.

Definition type_name (v : JVal) : string :=
  match v with
  | JNull => "NoneType"
  | JBool _ => "bool"
  | JNum _ => "int"
  | JStr _ => "str"
  | JArr _ => "list"
  | JObj _ => "dict"
  end.

(** A record of [jokes.json].  The handlers read the keys [type],
    [joke], [setup], [delivery] and [category]; a key that is absent is
    [None].  [py_str] is the text [str(joke)] gives for the whole object,
    which depends on every key of it, read or not. *)
Record Joke : Type := mkJoke {
  id : option Z;
  category : option string;
  type : option string;
  joke : option string;
  setup : option string;
  delivery : option string;
  py_str : string
}.

(** [joke.get(key, '')] for a text field. *)
Definition get_or_empty (field : option string) : string :=
  match field with
  | Some s => s
  | None => EmptyString
  end.

Definition type_is (j : Joke) (t : string) : bool :=
  match type j with
  | Some t' => String.eqb t' t
  | None => false
  end.

(** A Python exception, as the text [str(e)] of it. *)
Definition Exn := string.

(** What [collection.query] gives: the list [results\['documents'\]\[0\]],
    or an exception. *)
Inductive SearchResult : Type :=
| SearchOk (documents : list string)
| SearchRaise (e : Exn).

(** What [chat.completions.create] gives: the [message.content] of each
    of [response.choices] ([None] when the service sent no content), or an
    exception, a timeout among them. *)
Inductive ChatResult : Type :=
| ChatOk (choices : list (option string))
| ChatRaise (e : Exn).

(** What [int(s)] gives: a number, or a [ValueError] with its text. *)
Inductive IntResult : Type :=
| IntOk (n : Z)
| IntRaise (e : Exn).

(** The inputs of one request besides its body.  A request never calls
    the index or the model twice with the same arguments, so a function of
    the arguments stands for each service.  The last four fields are the
    interpreter's: what its Unicode tables give on text that is not
    ASCII, and what [int] gives on such text or on more digits than every
    setting of the interpreter converts. *)
Record Env : Type := mkEnv {
  jokes_file : option (list Joke);
  collection_query : string -> nat -> SearchResult;
  chat_completions_create : string -> ChatResult;
  randbelow : nat -> nat;
  elapsed_ms : Z;
  now_isoformat : nat -> string;
  unicode_lower : string -> string;
  unicode_word_run : string -> string;
  unicode_isdigit : string -> bool;
  python_int : string -> IntResult
}.

(** [s.lower()]: the letters A to Z lowered on ASCII text, what the
    interpreter's tables give on any other text. *)
Definition str_lower (env : Env) (s : string) : string :=
  if PyStr.is_ascii s then PyStr.lower s else unicode_lower env s.

(** The longest match of [\w*] at the head of [s]: letters, digits and
    the underscore on ASCII text, what the interpreter's tables give on
    any other text. *)
Definition re_word_run (env : Env) (s : string) : string :=
  if PyStr.is_ascii s then PyStr.word_run s else unicode_word_run env s.

(** [s.isdigit()]: outside ASCII the interpreter's tables accept more
    digits than [int] converts, the superscripts among them. *)
Definition str_isdigit (env : Env) (s : string) : bool :=
  if PyStr.is_ascii s then PyStr.isdigit s else unicode_isdigit env s.

(** [sys.int_info.str_digits_check_threshold]: the limit on the number
    of digits [int] converts, 4300 unless it is set, cannot be set below
    it. *)
Definition str_digits_check_threshold : nat := 640.

(** [int(s)] for a string [s.isdigit()] accepts: its value for ASCII
    digits no limit refuses, and otherwise what the interpreter gives, a
    value or a [ValueError]. *)
Definition int_of_str (env : Env) (s : string) : IntResult :=
  if PyStr.is_ascii s && (String.length s <=? str_digits_check_threshold)
  then IntOk (PyStr.int s)
  else python_int env s.

(** An outgoing call. *)
Inductive Call : Type :=
| CallQuery (query_text : string) (n_results : nat)
| CallChat (prompt : string).

(** The state a handler threads: the entries of [analytics.json] and the
    calls made so far, oldest first. *)
Record World : Type := mkWorld {
  logs : list Dict;
  calls : list Call
}.

(** The body of a reply and, with it, the status code. *)
Inductive Body : Type :=
| ErrorBody (error : string)
| AnswerBody (response : string) (jokes : list Joke)
| FeedbackBody (success : bool) (message : string).

Definition Response : Type := Body * nat.

Definition jsonify (b : Body) : Response := (b, 200).

(** ** Handlers as state transformers that may raise *)

Inductive Res (A : Type) : Type :=
| Ok (a : A)
| Raised (e : Exn).
Arguments Ok {A} a.
Arguments Raised {A} e.

Definition M (A : Type) : Type := World -> Res A * World.

Definition ret {A} (a : A) : M A := fun w => (Ok a, w).

Definition raise {A} (e : Exn) : M A := fun w => (Raised e, w).

Definition bind {A B} (m : M A) (k : A -> M B) : M B :=
  fun w =>
    match m w with
    | (Ok a, w') => k a w'
    | (Raised e, w') => (Raised e, w')
    end.

(** [try: m  except Exception as e: h e]; what [m] did before it raised
    stays done. *)
Definition try_except {A} (m : M A) (h : Exn -> M A) : M A :=
  fun w =>
    match m w with
    | (Ok a, w') => (Ok a, w')
    | (Raised e, w') => h e w'
    end.

Declare Scope py_scope.
Delimit Scope py_scope with py.
Notation "x <- m ;; k" := (bind m (fun x => k))
  (at level 61, m at next level, right associativity) : py_scope.
Notation "m ;; k" := (bind m (fun _ => k))
  (at level 61, right associativity) : py_scope.
Open Scope py_scope.

(** ** analytics.py *)

Module Analytics.

(** [log_interaction]: read the file, append one entry made of the
    time stamp, the event type and the fields of [data], write the file
    back. *)
Definition log_interaction (env : Env) (event_type : string) (data : Dict) : M unit :=
  fun w =>
    let event :=
      dict_update [("timestamp", JStr (now_isoformat env (length (logs w))));
                   ("event_type", JStr event_type)] data in
    (Ok tt, mkWorld (logs w ++ [event]) (calls w)).

Definition opt_str (o : option string) : JVal :=
  match o with
  | Some s => JStr s
  | None => JNull
  end.

Definition log_query (env : Env) (user_message : string) (response_type : string)
    (jokes_returned : nat) (response_time_ms : Z) (error : option string) : M unit :=
  log_interaction env "query"
    [("user_message", JStr user_message);
     ("response_type", JStr response_type);
     ("jokes_count", JNum (Z.of_nat jokes_returned));
     ("response_time_ms", JNum response_time_ms);
     ("error", opt_str error)].

Definition log_feedback (env : Env) (query_id rating comment : JVal) : M unit :=
  log_interaction env "feedback"
    [("query_id", query_id);
     ("rating", rating);
     ("comment", comment)].

Definition log_llm_failure (env : Env) (error_type error_message fallback_used : string) : M unit :=
  log_interaction env "llm_failure"
    [("error_type", JStr error_type);
     ("error_message", JStr error_message);
     ("fallback_used", JStr fallback_used)].

Definition log_chromadb_failure (env : Env) (error_message : string) : M unit :=
  log_interaction env "chromadb_failure"
    [("error_message", JStr error_message)].

(** The entries the three methods write, key by key. *)
Definition query_entry (timestamp user_message response_type : string)
    (jokes_count : nat) (response_time_ms : Z) (error : option string) : Dict :=
  [("timestamp", JStr timestamp);
   ("event_type", JStr "query");
   ("user_message", JStr user_message);
   ("response_type", JStr response_type);
   ("jokes_count", JNum (Z.of_nat jokes_count));
   ("response_time_ms", JNum response_time_ms);
   ("error", opt_str error)].

Definition llm_failure_entry (timestamp error_type error_message fallback_used : string) : Dict :=
  [("timestamp", JStr timestamp);
   ("event_type", JStr "llm_failure");
   ("error_type", JStr error_type);
   ("error_message", JStr error_message);
   ("fallback_used", JStr fallback_used)].

Definition feedback_entry (timestamp : string) (query_id rating comment : JVal) : Dict :=
  [("timestamp", JStr timestamp);
   ("event_type", JStr "feedback");
   ("query_id", query_id);
   ("rating", rating);
   ("comment", comment)].

(** Readers of the log, for the statements below. *)
Definition event_type_is (t : string) (event : Dict) : bool :=
  match dict_lookup event "event_type" with
  | Some (JStr t') => String.eqb t' t
  | _ => false
  end.

Definition is_query_event : Dict -> bool := event_type_is "query".

Definition count_query_events (l : list Dict) : nat :=
  length (filter is_query_event l).

End Analytics.

(** ** app.py *)

(** [load_jokes]: the content of [jokes.json], the empty list when the
    file does not exist.  The file of a request is missing or parses;
    [load_jokes_from] below has the file that does not parse as well. *)
Definition load_jokes (env : Env) : list Joke :=
  match jokes_file env with
  | Some l => l
  | None => []
  end.

Definition format_joke (j : Joke) : string :=
  if type_is j "single" then get_or_empty (joke j)
  else if type_is j "twopart" then get_or_empty (setup j) ++ " " ++ get_or_empty (delivery j)
  else py_str j.

(** [search_jokes_by_query]; the callers read [\['documents'\]\[0\]] of
    the result at once, which is what this gives. *)
Definition search_jokes_by_query (env : Env) (query : string) (n_results : nat) : M (list string) :=
  fun w =>
    let w' := mkWorld (logs w) (calls w ++ [CallQuery query n_results]) in
    match collection_query env query n_results with
    | SearchOk documents => (Ok documents, w')
    | SearchRaise e => (Raised e, w')
    end.

(** [chat_client.chat.completions.create(model=..., messages=\[the
    prompt\], timeout=10)] *)
Definition chat_create (env : Env) (prompt : string) : M (list (option string)) :=
  fun w =>
    let w' := mkWorld (logs w) (calls w ++ [CallChat prompt]) in
    match chat_completions_create env prompt with
    | ChatOk choices => (Ok choices, w')
    | ChatRaise e => (Raised e, w')
    end.

(** The check both prompts are followed by:
    [if not response.choices or not response.choices\[0\].message.content:
     raise ValueError(...)], then the content. *)
Definition checked_content (choices : list (option string)) : M string :=
  match choices with
  | Some content :: _ =>
      if PyStr.is_empty content then raise "Empty response from AI model"
      else ret content
  | _ => raise "Empty response from AI model"
  end.

(** [random.choice(seq)] is [seq\[randbelow(len(seq))\]]. *)
Definition random_choice (env : Env) (seq : list Joke) : M Joke :=
  match nth_error seq (randbelow env (length seq)) with
  | Some j => ret j
  | None => raise "list index out of range"
  end.

(** The loop
    [for joke in all_jokes: if format_joke(joke) == doc: found.append(joke); break] *)
Fixpoint append_first_match (doc : string) (all_jokes found : list Joke) : list Joke :=
  match all_jokes with
  | [] => found
  | j :: rest =>
      if String.eqb (format_joke j) doc then found ++ [j]
      else append_first_match doc rest found
  end.

(** [for doc in documents: <the loop above>] *)
Fixpoint match_documents (documents : list string) (all_jokes found : list Joke) : list Joke :=
  match documents with
  | [] => found
  | doc :: rest => match_documents rest all_jokes (append_first_match doc all_jokes found)
  end.

Definition nsfw_keywords : list string :=
  ["nsfw"; "inappropriate"; "explicit"; "adult"; "dirty"; "sexual"].

Definition existence_words : list string :=
  ["are there"; "do you have"; "is there"; "any"].

(** [any(word in text for word in words)] *)
Definition any_in (words : list string) (text : string) : bool :=
  existsb (fun word => PyStr.contains word text) words.

Definition nsfw_response : string :=
  "I cannot provide NSFW or inappropriate content. All jokes in my collection are filtered to exclude such content.".

(** *** The counting branch *)

Definition prompt_count (user_message : string) : string :=
  "Analyze this question: " ++ PyStr.dquote ++ user_message ++ PyStr.dquote ++ PyStr.nl ++
  PyStr.nl ++
  "The user is asking about the count of jokes in a specific category or topic." ++ PyStr.nl ++
  "Based on the question, what category or topic are they asking about?" ++ PyStr.nl ++
  "Return ONLY the category/topic name (e.g., " ++ PyStr.dquote ++ "physics" ++ PyStr.dquote ++
  ", " ++ PyStr.dquote ++ "programming" ++ PyStr.dquote ++
  ", " ++ PyStr.dquote ++ "christmas" ++ PyStr.dquote ++
  ", " ++ PyStr.dquote ++ "misc" ++ PyStr.dquote ++ ")." ++ PyStr.nl ++
  "If unclear, return " ++ PyStr.dquote ++ "unknown" ++ PyStr.dquote ++ ".".

(** The [except] of the topic extraction: the word after "how many". *)
Definition fallback_topic (env : Env) (user_message : string) : string :=
  match PyStr.re_search_with (re_word_run env) (str_lower env user_message) with
  | Some word => word
  | None => "unknown"
  end.

(** The [try]/[except] that assigns [topic]. *)
Definition extract_topic (env : Env) (user_message : string) (all_jokes : list Joke) : M string :=
  try_except
    (_ <- search_jokes_by_query env user_message (length all_jokes) ;;
     choices <- chat_create env (prompt_count user_message) ;;
     content <- checked_content choices ;;
     ret (str_lower env (PyStr.strip content)))
    (fun llm_error => ret (fallback_topic env user_message)).

(** The test of the counting loop on one record. *)
Definition topic_in_joke (env : Env) (topic : string) (j : Joke) : bool :=
  let joke_category := str_lower env (get_or_empty (category j)) in
  let joke_text := str_lower env (format_joke j) in
  PyStr.contains topic joke_category || PyStr.contains topic joke_text.

(** The counting loop, with its two variables. *)
Fixpoint count_loop (env : Env) (topic : string) (all_jokes : list Joke)
    (count : nat) (matching_jokes : list Joke) : nat * list Joke :=
  match all_jokes with
  | [] => (count, matching_jokes)
  | j :: rest =>
      if topic_in_joke env topic j
      then count_loop env topic rest (count + 1) (matching_jokes ++ [j])
      else count_loop env topic rest count matching_jokes
  end.

Definition plural_s (n : nat) : string :=
  if negb (n =? 1) then "s" else EmptyString.

Definition counting_branch (env : Env) (user_message : string) (all_jokes : list Joke) : M Response :=
  topic <- extract_topic env user_message all_jokes ;;
  let (count, matching_jokes) := count_loop env topic all_jokes 0 [] in
  if 0 <? count then
    Analytics.log_query env user_message "success" (length (firstn 3 matching_jokes))
      (elapsed_ms env) None ;;
    ret (jsonify (AnswerBody
      ("I have " ++ PyStr.str_nat count ++ " " ++ topic ++ " joke" ++ plural_s count ++
       " in my collection.")
      (firstn 3 matching_jokes)))
  else
    Analytics.log_query env user_message "no_results" 0 (elapsed_ms env) None ;;
    ret (jsonify (AnswerBody ("I have 0 " ++ topic ++ " jokes in my collection.") [])).

(** *** The existence branch *)

Definition existence_branch (env : Env) (user_message : string) (all_jokes : list Joke) : M Response :=
  let no_match :=
    jsonify (AnswerBody
      "No, I don't have any jokes matching that description in my collection." []) in
  try_except
    (documents <- search_jokes_by_query env user_message 10 ;;
     match documents with
     | [] => ret no_match
     | _ =>
         let matching_jokes := match_documents (firstn 5 documents) all_jokes [] in
         match matching_jokes with
         | [] => ret no_match
         | _ =>
             ret (jsonify (AnswerBody
               ("Yes, I found " ++ PyStr.str_nat (length matching_jokes) ++ " joke" ++
                plural_s (length matching_jokes) ++ " matching your query. Here are some examples:")
               (firstn 3 matching_jokes)))
         end
     end)
    (fun search_error =>
       ret (jsonify (AnswerBody
         "I'm having trouble searching the joke collection. Please try again." []))).

(** *** The recommendation branch *)

(** [f"Joke {i+1}: {doc}" for i, doc in enumerate(documents)], from
    index [i]. *)
Fixpoint numbered_jokes (i : nat) (documents : list string) : list string :=
  match documents with
  | [] => []
  | doc :: rest => ("Joke " ++ PyStr.str_nat (i + 1) ++ ": " ++ doc) :: numbered_jokes (i + 1) rest
  end.

Definition prompt_select (user_message relevant_jokes_text : string) : string :=
  "You are a helpful assistant that recommends jokes based on user requests." ++ PyStr.nl ++
  PyStr.nl ++
  "User request: " ++ user_message ++ PyStr.nl ++
  PyStr.nl ++
  "Here are some relevant jokes from the collection:" ++ PyStr.nl ++
  relevant_jokes_text ++ PyStr.nl ++
  PyStr.nl ++
  "Based on the user's request, select the joke number(s) that best match what they're asking for." ++ PyStr.nl ++
  "Return ONLY the joke number(s) separated by commas (e.g., " ++ PyStr.dquote ++ "1" ++ PyStr.dquote ++
  " or " ++ PyStr.dquote ++ "1,3,5" ++ PyStr.dquote ++ ")." ++ PyStr.nl ++
  "If none match well, return " ++ PyStr.dquote ++ "none" ++ PyStr.dquote ++ ".".

(** [\[int(num.strip()) - 1 for num in nums if num.strip().isdigit()\]]:
    the first [int] that raises ends the comprehension. *)
Fixpoint indices_of (env : Env) (nums : list string) : Res (list Z) :=
  match nums with
  | [] => Ok []
  | num :: rest =>
      if str_isdigit env (PyStr.strip num) then
        match int_of_str env (PyStr.strip num) with
        | IntOk n =>
            match indices_of env rest with
            | Ok indices => Ok ((n - 1)%Z :: indices)
            | Raised e => Raised e
            end
        | IntRaise e => Raised e
        end
      else indices_of env rest
  end.

(** [\[int(num.strip()) - 1 for num in selected.split(',') if num.strip().isdigit()\]] *)
Definition joke_indices (env : Env) (selected : string) : Res (list Z) :=
  indices_of env (PyStr.split "," selected).

(** [for idx in joke_indices: if 0 <= idx < len(documents): <look the
    document up and append the first record with that text>] *)
Fixpoint select_jokes (indices : list Z) (documents : list string)
    (all_jokes selected_jokes : list Joke) : list Joke :=
  match indices with
  | [] => selected_jokes
  | idx :: rest =>
      if ((0 <=? idx)%Z && (idx <? Z.of_nat (length documents))%Z)%bool then
        match nth_error documents (Z.to_nat idx) with
        | Some joke_text =>
            select_jokes rest documents all_jokes
              (append_first_match joke_text all_jokes selected_jokes)
        | None => select_jokes rest documents all_jokes selected_jokes
        end
      else select_jokes rest documents all_jokes selected_jokes
  end.

Definition found_response : string := "Here's what I found for you:".

(** The body of the [try] of the recommendation branch. *)
Definition recommend_try (env : Env) (user_message : string) (all_jokes : list Joke) : M Response :=
  documents <- search_jokes_by_query env user_message 5 ;;
  match documents with
  | [] =>
      Analytics.log_query env user_message "no_results" 0 (elapsed_ms env) None ;;
      ret (jsonify (AnswerBody "I couldn't find any jokes matching your request." []))
  | first_doc :: _ =>
      let relevant_jokes_text := PyStr.join (PyStr.nl ++ PyStr.nl) (numbered_jokes 0 documents) in
      choices <- chat_create env (prompt_select user_message relevant_jokes_text) ;;
      content <- checked_content choices ;;
      let selected := PyStr.strip content in
      if String.eqb (PyStr.lower selected) "none" then
        Analytics.log_query env user_message "no_results" 0 (elapsed_ms env) None ;;
        ret (jsonify (AnswerBody
          "I couldn't find a joke that matches your request perfectly. Would you like a random joke instead?"
          []))
      else
        match joke_indices env selected with
        | Raised e => raise e
        | Ok indices =>
            let selected_jokes := select_jokes indices documents all_jokes [] in
            let selected_jokes :=
              match selected_jokes with
              | [] => append_first_match first_doc all_jokes selected_jokes
              | _ => selected_jokes
              end in
            Analytics.log_query env user_message "success" (length selected_jokes)
              (elapsed_ms env) None ;;
            ret (jsonify (AnswerBody found_response selected_jokes))
        end
  end.

Definition random_joke_response : string :=
  "I'm having trouble processing your request. Here's a random joke instead:".

(** [\[random.choice(all_jokes)\] if all_jokes else \[\]] *)
Definition random_joke_list (env : Env) (all_jokes : list Joke) : M (list Joke) :=
  match all_jokes with
  | [] => ret []
  | _ => j <- random_choice env all_jokes ;; ret [j]
  end.

(** The [except Exception as llm_error] of the recommendation branch,
    with its own [try]/[except]. *)
Definition recommend_except (env : Env) (user_message : string) (all_jokes : list Joke)
    (llm_error : Exn) : M Response :=
  Analytics.log_llm_failure env "llm_selection_error" llm_error "chromadb_direct" ;;
  try_except
    (documents <- search_jokes_by_query env user_message 3 ;;
     let fallback_jokes := match_documents documents all_jokes [] in
     Analytics.log_query env user_message "success" (length fallback_jokes)
       (elapsed_ms env) None ;;
     ret (jsonify (AnswerBody found_response fallback_jokes)))
    (fun fallback_error =>
       Analytics.log_query env user_message "error" 0 (elapsed_ms env) (Some fallback_error) ;;
       chosen <- random_joke_list env all_jokes ;;
       ret (jsonify (AnswerBody random_joke_response chosen))).

Definition recommendation_branch (env : Env) (user_message : string) (all_jokes : list Joke) : M Response :=
  try_except (recommend_try env user_message all_jokes)
             (recommend_except env user_message all_jokes).

(** *** The ask endpoint *)

Definition is_counting (user_message : string) : bool :=
  PyStr.contains "how many" (PyStr.lower user_message) ||
  PyStr.contains "count" (PyStr.lower user_message).

Definition is_existence (user_message : string) : bool :=
  PyStr.endswith (PyStr.strip user_message) "?" &&
  any_in existence_words (PyStr.lower user_message).

(** The body of the outermost [try] of [ask_ai]. *)
Definition ask_ai_try (env : Env) (message : JVal) : M Response :=
  match message with
  | JStr user_message =>
      if any_in nsfw_keywords (PyStr.lower user_message) then
        Analytics.log_query env user_message "nsfw_blocked" 0 (elapsed_ms env) None ;;
        ret (jsonify (AnswerBody nsfw_response []))
      else
        let all_jokes := load_jokes env in
        match all_jokes with
        | [] => ret (ErrorBody "No jokes available in the collection", 500)
        | _ =>
            if is_counting user_message then counting_branch env user_message all_jokes
            else if is_existence user_message then existence_branch env user_message all_jokes
            else recommendation_branch env user_message all_jokes
        end
  | other =>
      raise ("'" ++ type_name other ++ "' object has no attribute 'lower'")
  end.

(** [POST /api/ask], on the JSON object of the request. *)
Definition ask_ai (env : Env) (data : Dict) : M Response :=
  let user_message := dict_get data "message" (JStr EmptyString) in
  if negb (truthy user_message) then ret (ErrorBody "No message provided", 400)
  else
    try_except (ask_ai_try env user_message)
      (fun e => ret (ErrorBody "An unexpected error occurred. Please try again.", 500)).

(** *** The feedback endpoint *)

(** [POST /api/feedback], on the JSON object of the request. *)
Definition submit_feedback (env : Env) (data : Dict) : M Response :=
  let query_id := dict_get data "query_id" JNull in
  let rating := dict_get data "rating" JNull in
  let comment := dict_get data "comment" (JStr EmptyString) in
  if negb (truthy rating) then ret (ErrorBody "Rating is required", 400)
  else
    Analytics.log_feedback env query_id rating comment ;;
    ret (jsonify (FeedbackBody true "Thank you for your feedback!")).

(** *** The body of a request

    [data = request.json] is any JSON value, and both handlers look
    [data.get] up before any [try]: only an object has it.  Of two
    members of an object with the same name the last one counts. *)
Definition request_json (body : JVal) : Res Dict :=
  match body with
  | JObj kv => Ok (dict_update [] kv)
  | other => Raised ("'" ++ type_name other ++ "' object has no attribute 'get'")
  end.

(** [POST /api/ask], on the JSON value of the request. *)
Definition ask_ai_request (env : Env) (body : JVal) : M Response :=
  match request_json body with
  | Ok data => ask_ai env data
  | Raised e => raise e
  end.

(** [POST /api/feedback], on the JSON value of the request. *)
Definition submit_feedback_request (env : Env) (body : JVal) : M Response :=
  match request_json body with
  | Ok data => submit_feedback env data
  | Raised e => raise e
  end.

(** ** The specification's vocabulary *)

(** The Result Reconciler: the first record of the corpus whose derived
    text is the document, [None] when there is none.  The handlers inline
    it as the loop [append_first_match]. *)
Definition reconcile (doc : string) (corpus : list Joke) : option Joke :=
  find (fun j => String.eqb (format_joke j) doc) corpus.

Definition found_list (o : option Joke) : list Joke :=
  match o with
  | Some j => [j]
  | None => []
  end.

(** Every document reconciled, those without a record dropped. *)
Definition reconcile_all (documents : list string) (corpus : list Joke) : list Joke :=
  flat_map (fun doc => found_list (reconcile doc corpus)) documents.

(** Reconciliation in the words of the existence branch: go through the
    candidates in order, skip one that does not reconcile, stop once
    [limit] are reconciled or no candidate is left. *)
Fixpoint reconcile_up_to (candidates : list string) (limit : nat) (corpus : list Joke) : list Joke :=
  match candidates with
  | [] => []
  | doc :: rest =>
      match limit with
      | 0 => []
      | S limit' =>
          match reconcile doc corpus with
          | Some j => j :: reconcile_up_to rest limit' corpus
          | None => reconcile_up_to rest limit corpus
          end
      end
  end.

(** A text [lower] leaves as it is. *)
Definition lower_fixed (s : string) : Prop := PyStr.lower s = s.

(** [term] occurs in [text], letter case ignored. *)
Definition contains_ci (term text : string) : bool :=
  PyStr.contains (PyStr.lower term) (PyStr.lower text).

(** [text], its letter case folded by [str.lower], contains [term]. *)
Definition contains_folded (env : Env) (term text : string) : bool :=
  PyStr.contains term (str_lower env text).

(** The records a topic counts: the category or the derived text, letter
    case folded, contains it. *)
Definition about_topic (env : Env) (topic : string) (j : Joke) : bool :=
  contains_folded env topic (get_or_empty (category j)) ||
  contains_folded env topic (format_joke j).

(** Where the topic of a count comes from: the model's answer, stripped
    and lower-cased, or what the fallback reads in the lower-cased
    message.  Taken from ASCII text, it has no capital letter. *)
Definition extracted_from (env : Env) (user_message topic : string) : Prop :=
  (exists content,
     topic = str_lower env (PyStr.strip content) /\
     (PyStr.is_ascii (PyStr.strip content) = true -> lower_fixed topic)) \/
  (topic = fallback_topic env user_message /\
   (PyStr.is_ascii user_message = true -> lower_fixed topic)).

(** "joke" for one, "jokes" otherwise. *)
Definition joke_word (n : nat) : string :=
  if n =? 1 then " joke" else " jokes".

(** The status code of the reply a handler run ends with. *)
Definition reply_status (run : Res Response * World) : option nat :=
  match fst run with
  | Ok (_, code) => Some code
  | Raised _ => None
  end.

(** The message holds a term of the denylist, letter case ignored. *)
Definition denylisted (user_message : string) : Prop :=
  exists term, In term nsfw_keywords /\ contains_ci term user_message = true.

(** The request carries the text [user_message], which is not empty. *)
Definition has_message (data : Dict) (user_message : string) : Prop :=
  dict_lookup data "message" = Some (JStr user_message) /\ user_message <> EmptyString.

(** The conditions under which [ask_ai] reaches its three branches. *)
Definition reaches_branches (env : Env) (data : Dict) (user_message : string) : Prop :=
  has_message data user_message /\
  ~ denylisted user_message /\
  load_jokes env <> [].

(** ** Sample records, services and requests *)

Module Sample.

Definition single (n : Z) (cat text : string) : Joke :=
  mkJoke (Some n) (Some cat) (Some "single") (Some text) None None "{...}".

Definition twopart (n : Z) (cat s d : string) : Joke :=
  mkJoke (Some n) (Some cat) (Some "twopart") None (Some s) (Some d) "{...}".

Definition bug : Joke := single 1 "Programming" "A SQL query walks into a bar.".
Definition cat : Joke := twopart 2 "Pun" "Why was the cat afraid of the tree?" "Because of its bark.".
Definition atom : Joke := single 3 "Misc" "Never trust an atom, they make up everything.".
Definition cat_again : Joke := single 4 "Misc" "Why was the cat afraid of the tree? Because of its bark.".

Definition corpus : list Joke := [bug; cat; atom; cat_again].

Definition index_ok (documents : list string) : string -> nat -> SearchResult :=
  fun _ _ => SearchOk documents.

Definition index_down : string -> nat -> SearchResult :=
  fun _ _ => SearchRaise "connection refused".

(** An index that answers the first query of the recommendation branch
    and fails the second. *)
Definition index_then_down (documents : list string) : string -> nat -> SearchResult :=
  fun _ n => if n =? 5 then SearchOk documents else SearchRaise "connection refused".

Definition model_says (content : string) : string -> ChatResult :=
  fun _ => ChatOk [Some content].

Definition model_timeout : string -> ChatResult :=
  fun _ => ChatRaise "Request timed out.".

Definition mk (file : option (list Joke)) (index : string -> nat -> SearchResult)
    (model : string -> ChatResult) : Env :=
  mkEnv file index model (fun _ => 2) 12 (fun _ => "2024-01-01T00:00:00")
    (fun s => s) (fun _ => EmptyString) (fun _ => false)
    (fun _ => IntRaise "invalid literal for int() with base 10").

Definition request (text : string) : Dict := [("message", JStr text)].

Definition fresh : World := mkWorld [] [].

End Sample.

Arguments PyStr.lower : simpl never.
Arguments PyStr.strip : simpl never.
Arguments PyStr.contains : simpl never.
Arguments PyStr.endswith : simpl never.
Arguments PyStr.split : simpl never.
Arguments PyStr.str_nat : simpl never.
Arguments PyStr.re_search_how_many : simpl never.
Arguments PyStr.join : simpl never.
Arguments any_in : simpl never.
Arguments format_joke : simpl never.

(** ** analytics.py: the readers *)

(** [v == s] for a value [dict.get] gave and a text. *)
Definition is_str (v : option JVal) (s : string) : bool :=
  match v with
  | Some (JStr s') => String.eqb s' s
  | _ => false
  end.

(** [l\[start:\]], with Python's reading of a negative or too large
    start. *)
Definition slice_from {A : Type} (start : Z) (l : list A) : list A :=
  let len := Z.of_nat (length l) in
  let start := if (start <? 0)%Z then Z.max 0 (start + len) else Z.min start len in
  skipn (Z.to_nat start) l.

(** A boolean counts as 0 or 1 where Python compares or hashes it with an
    integer. *)
Definition as_number (v : JVal) : option Z :=
  match v with
  | JBool b => Some (if b then 1%Z else 0%Z)
  | JNum n => Some n
  | _ => None
  end.

(** [v <= threshold] for an integer threshold; a [TypeError] for a value
    that is not a number. *)
Definition le_int (v : JVal) (threshold : Z) : Res bool :=
  match as_number v with
  | Some n => Ok (n <=? threshold)%Z
  | None =>
      Raised ("'<=' not supported between instances of '" ++ type_name v ++ "' and 'int'")
  end.

Module AnalyticsReports.

(** The counters and lists [get_stats] fills while it goes through the
    entries. *)
Record Stats : Type := mkStats {
  total_queries : nat;
  successful_queries : nat;
  failed_queries : nat;
  no_results_queries : nat;
  nsfw_blocked : nat;
  llm_failures : nat;
  chromadb_failures : nat;
  feedback_count : nat;
  response_times : list JVal;
  jokes_counts : list JVal;
  ratings : list JVal;
  common_failures : list (JVal * nat)
}.

Definition initial_stats : Stats := mkStats 0 0 0 0 0 0 0 0 [] [] [] [].

(** A list or an object cannot be the key of a [dict]. *)
Definition hashable (v : JVal) : bool :=
  match v with
  | JArr _ | JObj _ => false
  | _ => true
  end.

(** Equality of two keys. *)
Definition key_eqb (a b : JVal) : bool :=
  match a, b with
  | JNull, JNull => true
  | JStr x, JStr y => String.eqb x y
  | _, _ =>
      match as_number a, as_number b with
      | Some x, Some y => Z.eqb x y
      | _, _ => false
      end
  end.

(** [counts\[key\] += 1] on a [defaultdict(int)]. *)
Fixpoint bump (counts : list (JVal * nat)) (key : JVal) : list (JVal * nat) :=
  match counts with
  | [] => [(key, 1)]
  | (k, n) :: rest =>
      if key_eqb k key then (k, n + 1) :: rest else (k, n) :: bump rest key
  end.

(** The part of the loop body for a query entry. *)
Definition count_query (s : Stats) (log : Dict) : Stats :=
  let response_type := dict_lookup log "response_type" in
  let success := is_str response_type "success" in
  let error := negb success && is_str response_type "error" in
  let no_results := negb success && negb error && is_str response_type "no_results" in
  let nsfw := negb success && negb error && negb no_results &&
              is_str response_type "nsfw_blocked" in
  mkStats (total_queries s + 1)
    (if success then successful_queries s + 1 else successful_queries s)
    (if error then failed_queries s + 1 else failed_queries s)
    (if no_results then no_results_queries s + 1 else no_results_queries s)
    (if nsfw then nsfw_blocked s + 1 else nsfw_blocked s)
    (llm_failures s) (chromadb_failures s) (feedback_count s)
    (if truthy (dict_get log "response_time_ms" JNull)
     then response_times s ++ [dict_get log "response_time_ms" JNull] else response_times s)
    (if truthy (dict_get log "jokes_count" JNull)
     then jokes_counts s ++ [dict_get log "jokes_count" JNull] else jokes_counts s)
    (ratings s) (common_failures s).

(** The part of the loop body for a feedback entry. *)
Definition count_feedback (s : Stats) (log : Dict) : Stats :=
  mkStats (total_queries s) (successful_queries s) (failed_queries s)
    (no_results_queries s) (nsfw_blocked s) (llm_failures s) (chromadb_failures s)
    (feedback_count s + 1) (response_times s) (jokes_counts s)
    (if truthy (dict_get log "rating" JNull)
     then ratings s ++ [dict_get log "rating" JNull] else ratings s)
    (common_failures s).

(** The part of the loop body for an [llm_failure] entry; the key of
    [common_failures] has to be hashable. *)
Definition count_llm_failure (s : Stats) (log : Dict) : Res Stats :=
  let error_type := dict_get log "error_type" (JStr "unknown") in
  if hashable error_type then
    Ok (mkStats (total_queries s) (successful_queries s) (failed_queries s)
          (no_results_queries s) (nsfw_blocked s) (llm_failures s + 1) (chromadb_failures s)
          (feedback_count s) (response_times s) (jokes_counts s) (ratings s)
          (bump (common_failures s) error_type))
  else Raised ("unhashable type: '" ++ type_name error_type ++ "'").

Definition count_chromadb_failure (s : Stats) : Stats :=
  mkStats (total_queries s) (successful_queries s) (failed_queries s)
    (no_results_queries s) (nsfw_blocked s) (llm_failures s) (chromadb_failures s + 1)
    (feedback_count s) (response_times s) (jokes_counts s) (ratings s) (common_failures s).

(** The body of [for log in logs] in [get_stats]. *)
Definition stats_step (s : Stats) (log : Dict) : Res Stats :=
  let event_type := dict_lookup log "event_type" in
  if is_str event_type "query" then Ok (count_query s log)
  else if is_str event_type "feedback" then Ok (count_feedback s log)
  else if is_str event_type "llm_failure" then count_llm_failure s log
  else if is_str event_type "chromadb_failure" then Ok (count_chromadb_failure s)
  else Ok s.

(** The loop of [get_stats] from a given state. *)
Fixpoint stats_loop (logs : list Dict) (s : Stats) : Res Stats :=
  match logs with
  | [] => Ok s
  | log :: rest =>
      match stats_step s log with
      | Ok s' => stats_loop rest s'
      | Raised e => Raised e
      end
  end.

Definition get_stats_loop (logs : list Dict) : Res Stats := stats_loop logs initial_stats.

(** An entry of the statistics that is a quotient: the [0] it starts
    with, or [total / count] for two integers.  Python rounds the
    quotient to a float; the two integers are kept here. *)
Inductive Average : Type :=
| NoAverage
| Quotient (total : Z) (count : nat).

(** [sum(l)] from [acc]: the items are added from the left, and one that
    is not a number raises a [TypeError]. *)
Fixpoint sum_from (acc : Z) (l : list JVal) : Res Z :=
  match l with
  | [] => Ok acc
  | v :: rest =>
      match as_number v with
      | Some n => sum_from (acc + n) rest
      | None =>
          Raised ("unsupported operand type(s) for +: 'int' and '" ++ type_name v ++ "'")
      end
  end.

(** The least absolute value that rounds to no float. *)
Definition float_limit : Z := (2 ^ 1024 - 2 ^ 970)%Z.

(** [total / count] for two integers, [count] positive: an
    [OverflowError] when the quotient rounds to no float. *)
Definition true_divide (total : Z) (count : nat) : Res Average :=
  if (float_limit * Z.of_nat count <=? Z.abs total)%Z
  then Raised "integer division result too large for a float"
  else Ok (Quotient total count).

(** [if l: stats\[key\] = sum(l) / len(l)] *)
Definition average (l : list JVal) : Res Average :=
  match l with
  | [] => Ok NoAverage
  | _ =>
      match sum_from 0 l with
      | Ok total => true_divide total (length l)
      | Raised e => Raised e
      end
  end.

(** What [get_stats] returns: the counters, with the lists they were
    averaged from, the three averages and the success rate, which is the
    quotient kept here times 100.  [popular_categories] stays empty. *)
Record Report : Type := mkReport {
  counters : Stats;
  avg_response_time_ms : Average;
  avg_jokes_per_query : Average;
  avg_rating : Average;
  success_rate : Average
}.

(** The code of [get_stats] after the loop. *)
Definition finish_stats (s : Stats) : Res Report :=
  match average (response_times s) with
  | Raised e => Raised e
  | Ok times =>
      match average (jokes_counts s) with
      | Raised e => Raised e
      | Ok jokes =>
          match average (ratings s) with
          | Raised e => Raised e
          | Ok rating =>
              match (if 0 <? total_queries s
                     then true_divide (Z.of_nat (successful_queries s)) (total_queries s)
                     else Ok NoAverage) with
              | Raised e => Raised e
              | Ok rate => Ok (mkReport s times jokes rating rate)
              end
          end
      end
  end.

(** [get_stats]; [None] is a log file that cannot be read, and the
    empty object it is answered with. *)
Definition get_stats (file : option (list Dict)) : Res (option Report) :=
  match file with
  | None => Ok None
  | Some logs =>
      match get_stats_loop logs with
      | Raised e => Raised e
      | Ok s =>
          match finish_stats s with
          | Ok report => Ok (Some report)
          | Raised e => Raised e
          end
      end
  end.

(** The test of the comprehension of [get_failed_queries]. *)
Definition is_failed_query (log : Dict) : bool :=
  is_str (dict_lookup log "event_type") "query" &&
  (is_str (dict_lookup log "response_type") "error" ||
   is_str (dict_lookup log "response_type") "no_results").

(** [get_failed_queries(limit)]; [None] is a log file that cannot be
    read. *)
Definition get_failed_queries (file : option (list Dict)) (limit : Z) : list Dict :=
  match file with
  | None => []
  | Some logs => slice_from (- limit) (filter is_failed_query logs)
  end.

(** The comprehension of [get_low_satisfaction_queries]: the rating is
    compared for feedback entries only, and the first comparison that
    raises ends it. *)
Fixpoint low_rated (logs : list Dict) (threshold : Z) : Res (list Dict) :=
  match logs with
  | [] => Ok []
  | log :: rest =>
      if is_str (dict_lookup log "event_type") "feedback" then
        match le_int (dict_get log "rating" (JNum 5)) threshold with
        | Ok keep =>
            match low_rated rest threshold with
            | Ok found => Ok (if keep then log :: found else found)
            | Raised e => Raised e
            end
        | Raised e => Raised e
        end
      else low_rated rest threshold
  end.

(** [get_low_satisfaction_queries(threshold, limit)] *)
Definition get_low_satisfaction_queries (file : option (list Dict)) (threshold limit : Z)
    : Res (list Dict) :=
  match file with
  | None => Ok []
  | Some logs =>
      match low_rated logs threshold with
      | Ok found => Ok (slice_from (- limit) found)
      | Raised e => Raised e
      end
  end.

End AnalyticsReports.

(** [GET /api/analytics/failed-queries] *)
Definition get_failed_queries (w : World) : list Dict :=
  AnalyticsReports.get_failed_queries (Some (logs w)) 20.

(** [GET /api/analytics/low-satisfaction]; an exception is not caught
    here. *)
Definition get_low_satisfaction (w : World) : Res (list Dict) :=
  AnalyticsReports.get_low_satisfaction_queries (Some (logs w)) 2 20.

(** The outcomes [ask_ai] logs. *)
Definition response_types : list string :=
  ["success"; "no_results"; "error"; "nsfw_blocked"].

(** The entries the two endpoints write. *)
Inductive app_entry : Dict -> Prop :=
| app_query (ts m t : string) (n : nat) (ms : Z) (err : option string) :
    In t response_types -> app_entry (Analytics.query_entry ts m t n ms err)
| app_llm_failure (ts e : string) :
    app_entry (Analytics.llm_failure_entry ts "llm_selection_error" e "chromadb_direct")
| app_feedback (ts : string) (query_id rating comment : JVal) :
    truthy rating = true -> app_entry (Analytics.feedback_entry ts query_id rating comment).

(** How many entries of a log are query entries with a given outcome. *)
Definition count_outcome (t : string) (l : list Dict) : nat :=
  length (filter (fun log => Analytics.is_query_event log &&
                             is_str (dict_lookup log "response_type") t) l).

(** ** app.py: the other endpoints *)

(** The reply of [GET /api/joke]. *)
Inductive JokeReply : Type :=
| NoJoke (error : string) (status : nat)
| OneJoke (j : Joke).

(** The states [load_jokes] can find [jokes.json] in: missing, holding
    text that is not JSON, on which [json.load] raises [decode_error],
    or holding a list of records. *)
Inductive JokesFile : Type :=
| NoFile
| Unparsable (decode_error : Exn)
| Parsed (jokes : list Joke).

(** The file of a request, which is missing or parses. *)
Definition file_of (env : Env) : JokesFile :=
  match jokes_file env with
  | Some l => Parsed l
  | None => NoFile
  end.

(** [load_jokes] on any state of the file: only [FileNotFoundError] is
    caught. *)
Definition load_jokes_from (file : JokesFile) : M (list Joke) :=
  match file with
  | NoFile => ret []
  | Unparsable decode_error => raise decode_error
  | Parsed jokes => ret jokes
  end.

(** [GET /api/joke] *)
Definition get_random_joke (env : Env) (file : JokesFile) : M JokeReply :=
  jokes <- load_jokes_from file ;;
  match jokes with
  | [] => ret (NoJoke "No jokes available" 404)
  | _ => j <- random_choice env jokes ;; ret (OneJoke j)
  end.

(** [GET /api/jokes]: the records and their count. *)
Definition get_all_jokes (file : JokesFile) : M (list Joke * nat) :=
  jokes <- load_jokes_from file ;;
  ret (jokes, length jokes).

(** ** The index: initialize_chroma and init_chroma.py *)

(** [str(n)] for an integer. *)
Definition str_int (z : Z) : string := NilZero.string_of_int (Z.to_int z).

(** One entry of the collection. *)
Record IndexEntry : Type := mkIndexEntry {
  entry_id : string;
  document : string;
  metadata : Dict
}.

(** The metadata both scripts attach to the record at index [i]. *)
Definition joke_metadata (i : nat) (j : Joke) : Dict :=
  [("category", JStr (match category j with Some c => c | None => "Unknown" end));
   ("type", JStr (match type j with Some t => t | None => "unknown" end));
   ("id", JStr (match id j with Some n => str_int n | None => PyStr.str_nat i end))].

(** The loop of [initialize_chroma], from index [i]: the three lists it
    builds, entry by entry. *)
Fixpoint chroma_entries (i : nat) (jokes : list Joke) : list IndexEntry :=
  match jokes with
  | [] => []
  | j :: rest =>
      mkIndexEntry ("joke_" ++ PyStr.str_nat i) (format_joke j) (joke_metadata i j)
      :: chroma_entries (i + 1) rest
  end.

(** [initialize_chroma], on the collection as the list of its entries:
    [collection.add] appends, and is reached only when the collection is
    empty and there are jokes. *)
Definition initialize_chroma (env : Env) (collection : list IndexEntry) : list IndexEntry :=
  let jokes := load_jokes env in
  match collection, jokes with
  | [], _ :: _ => (collection ++ chroma_entries 0 jokes)%list
  | _, _ => collection
  end.

(** The text [init_chroma.py] derives: anything that is not of type
    single is read as setup and delivery. *)
Definition script_text (j : Joke) : string :=
  if type_is j "single" then get_or_empty (joke j)
  else get_or_empty (setup j) ++ " " ++ get_or_empty (delivery j).

(** The loop of [init_chroma.py], from index [i]. *)
Fixpoint script_entries (i : nat) (jokes : list Joke) : list IndexEntry :=
  match jokes with
  | [] => []
  | j :: rest =>
      mkIndexEntry ("joke_" ++ PyStr.str_nat i) (script_text j) (joke_metadata i j)
      :: script_entries (i + 1) rest
  end.

(** ** fetch_jokes.py *)

Module FetchJokes.

(** The state of [jokes.json] as [save_jokes] finds it. *)
Inductive JsonFile : Type :=
| Missing
| Corrupt
| Holds (existing : list Joke).

(** [j.get('id') == joke_id]: two absent ids are equal. *)
Definition same_id (a b : option Z) : bool :=
  match a, b with
  | Some x, Some y => Z.eqb x y
  | None, None => true
  | _, _ => false
  end.

Definition is_duplicate (j : Joke) (existing_jokes : list Joke) : bool :=
  existsb (fun e => same_id (id e) (id j)) existing_jokes.

(** [joke\['fetched_at'\] = datetime.now().isoformat()]: the keys the
    handlers read stay, the text of the whole object changes to what
    [rendering] gives. *)
Definition set_fetched_at (rendering : Joke -> string) (j : Joke) : Joke :=
  mkJoke (id j) (category j) (type j) (joke j) (setup j) (delivery j) (rendering j).

(** The loop of [save_jokes], with its two variables. *)
Fixpoint save_loop (rendering : Joke -> string) (jokes_data existing_jokes : list Joke)
    (new_count : nat) : list Joke * nat :=
  match jokes_data with
  | [] => (existing_jokes, new_count)
  | j :: rest =>
      if is_duplicate j existing_jokes
      then save_loop rendering rest existing_jokes new_count
      else save_loop rendering rest (existing_jokes ++ [set_fetched_at rendering j])%list
             (new_count + 1)
  end.

(** [save_jokes]: the count it returns and the file it leaves.  A file
    that does not parse raises inside the outer [try], which answers 0. *)
Definition save_jokes (rendering : Joke -> string) (jokes_data : list Joke) (file : JsonFile)
    : nat * JsonFile :=
  match jokes_data with
  | [] => (0, file)
  | _ =>
      match file with
      | Corrupt => (0, Corrupt)
      | Missing =>
          let (existing_jokes, new_count) := save_loop rendering jokes_data [] 0 in
          (new_count, Holds existing_jokes)
      | Holds existing =>
          let (existing_jokes, new_count) := save_loop rendering jokes_data existing 0 in
          (new_count, Holds existing_jokes)
      end
  end.

(** The records the file holds, none when it is missing or does not
    parse. *)
Definition content (file : JsonFile) : list Joke :=
  match file with
  | Holds l => l
  | _ => []
  end.

End FetchJokes.

(** ** More vocabulary for the statements *)

(** The shapes the calls of one request take. *)
Definition call_shapes (user_message : string) (corpus_size : nat) (new : list Call) : Prop :=
  new = [] \/
  new = [CallQuery user_message corpus_size] \/
  (exists prompt, new = [CallQuery user_message corpus_size; CallChat prompt]) \/
  new = [CallQuery user_message 10] \/
  new = [CallQuery user_message 5] \/
  (exists prompt, new = [CallQuery user_message 5; CallChat prompt]) \/
  new = [CallQuery user_message 5; CallQuery user_message 3] \/
  (exists prompt,
     new = [CallQuery user_message 5; CallChat prompt; CallQuery user_message 3]).

(** The jokes a reply carries. *)
Definition reply_jokes (run : Res Response * World) : list Joke :=
  match fst run with
  | Ok (AnswerBody _ jokes, _) => jokes
  | _ => []
  end.

(** The index of a document of the selection is usable: it is the number
    of one of the documents, counted from 1. *)
Definition usable_index (documents : list string) (idx : Z) : bool :=
  ((0 <=? idx)%Z && (idx <? Z.of_nat (length documents))%Z)%bool.

(** The text of the message of a request, empty when there is none. *)
Definition message_text (data : Dict) : string :=
  match dict_get data "message" (JStr EmptyString) with
  | JStr s => s
  | _ => EmptyString
  end.

(** What a run of a handler leaves behind: it only appends to the log
    and to the calls, the new entries are at most two entries of the
    application with at most one query entry among them, the new calls
    have one of the shapes above, and every joke of the reply is a record
    of the corpus. *)
Definition tidy_world (user_message : string) (corpus : list Joke) (w : World)
    (run : Res Response * World) : Prop :=
  exists new_log new_calls,
    logs (snd run) = (logs w ++ new_log)%list /\
    calls (snd run) = (calls w ++ new_calls)%list /\
    Forall app_entry new_log /\
    length new_log <= 2 /\
    Analytics.count_query_events new_log <= 1 /\
    call_shapes user_message (length corpus) new_calls /\
    Forall (fun j => In j corpus) (reply_jokes run).

(** A branch ends with an answer of status 200 or with an exception. *)
Definition answer_or_raise (run : Res Response * World) : Prop :=
  match fst run with
  | Ok (AnswerBody _ _, status) => status = 200
  | Ok _ => False
  | Raised _ => True
  end.

(** How many entries of a log have a given event type. *)
Definition count_events (t : string) (l : list Dict) : nat :=
  length (filter (Analytics.event_type_is t) l).

(** The table [common_failures] after [n] failures of the one kind the
    application logs. *)
Definition failures_table (n : nat) : list (JVal * nat) :=
  match n with
  | 0 => []
  | _ => [(JStr "llm_selection_error", n)]
  end.

(** The counts of the query entries of a log that are not zero, in
    order: what [get_stats] averages the jokes per query over. *)
Definition nonzero_counts (l : list Dict) : list JVal :=
  flat_map (fun log =>
              match dict_lookup log "jokes_count" with
              | Some (JNum n) =>
                  if Analytics.is_query_event log && negb (Z.eqb n 0) then [JNum n] else []
              | _ => []
              end) l.

(** The response times of the query entries of a log that have a true
    truth value, in order. *)
Definition logged_times (l : list Dict) : list JVal :=
  flat_map (fun log =>
              if Analytics.is_query_event log &&
                 truthy (dict_get log "response_time_ms" JNull)
              then [dict_get log "response_time_ms" JNull] else []) l.

(** The ratings of the feedback entries of a log that have a true truth
    value, in order. *)
Definition logged_ratings (l : list Dict) : list JVal :=
  flat_map (fun log =>
              if Analytics.event_type_is "feedback" log &&
                 truthy (dict_get log "rating" JNull)
              then [dict_get log "rating" JNull] else []) l.

(** The value is a number that rounds to a float. *)
Definition fits_float (v : JVal) : bool :=
  match as_number v with
  | Some n => (Z.abs n <? AnalyticsReports.float_limit)%Z
  | None => false
  end.

(** The values [get_stats] averages over a log are such numbers. *)
Definition averages_fit (l : list Dict) : bool :=
  forallb fits_float (logged_times l) &&
  forallb fits_float (nonzero_counts l) &&
  forallb fits_float (logged_ratings l).

(** The average of a list of numbers of sum [total]. *)
Definition average_of (total : Z) (l : list JVal) : AnalyticsReports.Average :=
  match l with
  | [] => AnalyticsReports.NoAverage
  | _ => AnalyticsReports.Quotient total (length l)
  end.

(** Every character of an ASCII text is a letter, a digit or the
    underscore. *)
Fixpoint all_word (s : string) : bool :=
  match s with
  | EmptyString => true
  | String c r => PyStr.is_word c && all_word r
  end.

(** The text is empty or starts with a character that is none of
    those. *)
Definition no_word_ahead (s : string) : bool :=
  match s with
  | EmptyString => true
  | String c _ => negb (PyStr.is_word c)
  end.

Module MoreSamples.

Definition no_results_entry : Dict :=
  Analytics.query_entry "t1" "tell me a joke" "no_results" 0 7 None.

Definition text_feedback : Dict :=
  Analytics.feedback_entry "t2" (JStr "q1") (JStr "up") (JStr PyStr.empty).

Definition stars (n : Z) : Dict :=
  Analytics.feedback_entry "t3" (JStr "q2") (JNum n) (JStr PyStr.empty).

Definition keep_text (j : Joke) : string := py_str j.

(** Text outside ASCII, in UTF-8: the no-break space U+00A0, the
    ideographic space U+3000, the letter U+00E0, whose last byte is the
    last byte of the no-break space, the superscript two U+00B2, and a
    word with U+00C9 and its lower case with U+00E9. *)
Definition utf8 (bytes : list nat) : string :=
  fold_right (fun n s => String (ascii_of_nat n) s) EmptyString bytes.

Definition nbsp : string := utf8 [194; 160].
Definition ideographic_space : string := utf8 [227; 128; 128].
Definition a_grave : string := utf8 [195; 160].
Definition superscript_two : string := utf8 [194; 178].
Definition cafe_capital : string := "CAF" ++ utf8 [195; 137].
Definition cafe : string := "caf" ++ utf8 [195; 169].

(** Services with an interpreter that knows these characters. *)
Definition interpreter (file : option (list Joke)) (index : string -> nat -> SearchResult)
    (model : string -> ChatResult) : Env :=
  mkEnv file index model (fun _ => 2) 12 (fun _ => "2024-01-01T00:00:00")
    (fun s =>
       if String.eqb s ("How many " ++ cafe_capital ++ " jokes?")
       then "how many " ++ cafe ++ " jokes?"
       else if String.eqb s cafe_capital then cafe else s)
    (fun s => if prefix cafe s then cafe else EmptyString)
    (fun s => String.eqb s superscript_two)
    (fun s => IntRaise ("invalid literal for int() with base 10: '" ++ s ++ "'")).

Definition cafe_joke : Joke :=
  mkJoke (Some 9%Z) (Some cafe_capital) (Some "single") (Some "An espresso walks into a bar.")
    None None "{}".

End MoreSamples.

(** ** Runs on sample requests *)

Example ex_lower : PyStr.lower "How MANY Cat jokes?" = "how many cat jokes?".
Proof. reflexivity. Qed.
Example ex_strip : PyStr.strip "  1, 3 " = "1, 3".
Proof. reflexivity. Qed.
Example ex_split : PyStr.split "," "1,3,,x" = ["1"; "3"; PyStr.empty; "x"].
Proof. reflexivity. Qed.
Example ex_re : PyStr.re_search_how_many "so how many  x, how many cat_1 jokes" = Some "cat_1".
Proof. reflexivity. Qed.
Example ex_int : PyStr.int "042" = 42%Z.
Proof. reflexivity. Qed.
Example ex_str : PyStr.str_nat 0 = "0" /\ PyStr.str_nat 120 = "120".
Proof. split; reflexivity. Qed.
Example ex_contains : PyStr.contains "adult" "for adults" = true /\ PyStr.contains PyStr.empty "x" = true.
Proof. split; reflexivity. Qed.
Example ex_endswith : PyStr.endswith "any cats?" "?" = true /\ PyStr.endswith "any cats" "?" = false.
Proof. split; reflexivity. Qed.
Example ex_recommend :
  let env := Sample.mk (Some Sample.corpus)
               (Sample.index_ok [format_joke Sample.cat; "no such joke"]) (Sample.model_says "1, 2") in
  let r := ask_ai env (Sample.request "tell me a cat joke") Sample.fresh in
  fst r = Ok (AnswerBody found_response [Sample.cat], 200) /\
  Analytics.count_query_events (logs (snd r)) = 1.
Proof. split; reflexivity. Qed.

Example ex_counting_fallback_topic :
  let env := Sample.mk (Some Sample.corpus) (Sample.index_ok []) Sample.model_timeout in
  fst (ask_ai env (Sample.request "How many Cat jokes do you have") Sample.fresh)
  = Ok (AnswerBody "I have 2 cat jokes in my collection." [Sample.cat; Sample.cat_again], 200).
Proof. reflexivity. Qed.

Example ex_not_a_string :
  let env := Sample.mk (Some Sample.corpus) (Sample.index_ok []) Sample.model_timeout in
  ask_ai env [("message", JNum 5)] Sample.fresh
  = (Ok (ErrorBody "An unexpected error occurred. Please try again.", 500), Sample.fresh).
Proof. reflexivity. Qed.

Example ex_strip_unicode :
  PyStr.strip (MoreSamples.nbsp ++ " 2" ++ MoreSamples.ideographic_space) = "2" /\
  PyStr.strip ("d" ++ MoreSamples.a_grave) = "d" ++ MoreSamples.a_grave.
Proof. split; reflexivity. Qed.

Example ex_existence_no_break_space :
  is_existence ("Any cat jokes?" ++ MoreSamples.nbsp) = true.
Proof. reflexivity. Qed.

Example ex_indices :
  let env := Sample.mk None Sample.index_down Sample.model_timeout in
  joke_indices env " 3, x, 7,0 ,3" = Ok [2; 6; -1; 2]%Z /\
  joke_indices env ("1," ++ MoreSamples.nbsp ++ "2") = Ok [0; 1]%Z /\
  joke_indices (MoreSamples.interpreter None Sample.index_down Sample.model_timeout)
    ("1," ++ MoreSamples.superscript_two) =
  Raised ("invalid literal for int() with base 10: '" ++ MoreSamples.superscript_two ++ "'").
Proof. repeat split; reflexivity. Qed.

Example ex_int_raises :
  let env := MoreSamples.interpreter (Some Sample.corpus)
               (Sample.index_ok [format_joke Sample.atom])
               (Sample.model_says MoreSamples.superscript_two) in
  let r := ask_ai env (Sample.request "tell me a joke") Sample.fresh in
  fst r = Ok (AnswerBody found_response [Sample.atom], 200) /\
  logs (snd r) =
  [Analytics.llm_failure_entry "2024-01-01T00:00:00" "llm_selection_error"
     ("invalid literal for int() with base 10: '" ++ MoreSamples.superscript_two ++ "'")
     "chromadb_direct";
   Analytics.query_entry "2024-01-01T00:00:00" "tell me a joke" "success" 1 12 None].
Proof. split; reflexivity. Qed.

Example ex_counting_outside_ascii :
  let env := MoreSamples.interpreter (Some [Sample.cat; MoreSamples.cafe_joke])
               Sample.index_down Sample.model_timeout in
  let message := "How many " ++ MoreSamples.cafe_capital ++ " jokes?" in
  fallback_topic env message = MoreSamples.cafe /\
  fst (ask_ai env (Sample.request message) Sample.fresh) =
  Ok (AnswerBody ("I have 1 " ++ MoreSamples.cafe ++ " joke in my collection.")
        [MoreSamples.cafe_joke], 200).
Proof. split; reflexivity. Qed.

Example ex_request_bodies :
  let env := Sample.mk (Some Sample.corpus) (Sample.index_ok []) Sample.model_timeout in
  ask_ai_request env (JArr []) Sample.fresh =
    (Raised "'list' object has no attribute 'get'", Sample.fresh) /\
  ask_ai_request env JNull Sample.fresh =
    (Raised "'NoneType' object has no attribute 'get'", Sample.fresh) /\
  fst (ask_ai_request env (JObj [("message", JStr "x"); ("message", JStr PyStr.empty)])
         Sample.fresh) = Ok (ErrorBody "No message provided", 400).
Proof. repeat split; reflexivity. Qed.

(** ** Facts about the string operations *)

Section StringFacts.

Lemma lower_char_idem (c : ascii) : PyStr.lower_char (PyStr.lower_char c) = PyStr.lower_char c.
Proof. destruct c as [[] [] [] [] [] [] [] []]; reflexivity. Qed.

Lemma lower_cons (c : ascii) (r : string) :
  PyStr.lower (String c r) = String (PyStr.lower_char c) (PyStr.lower r).
Proof. reflexivity. Qed.

Lemma lower_idem (s : string) : PyStr.lower (PyStr.lower s) = PyStr.lower s.
Proof.
  induction s as [|c r IH]; [reflexivity|].
  rewrite !lower_cons. now rewrite lower_char_idem, IH.
Qed.

Lemma lower_fixed_cons (c : ascii) (r : string) :
  lower_fixed (String c r) <-> PyStr.lower_char c = c /\ lower_fixed r.
Proof.
  unfold lower_fixed. rewrite lower_cons. split.
  - intros H. now inversion H as [[Hc Hr]]; rewrite Hc, Hr.
  - intros [Hc Hr]. now rewrite Hc, Hr.
Qed.

Lemma lower_fixed_drop_prefix (p s rest : string) :
  PyStr.drop_prefix p s = Some rest -> lower_fixed s -> lower_fixed rest.
Proof.
  revert s. induction p as [|a p IH]; intros s H Hs.
  - cbn in H. now inversion H; subst.
  - destruct s as [|b s]; cbn in H; [discriminate|].
    destruct (Ascii.eqb a b); [|discriminate].
    apply lower_fixed_cons in Hs. now apply (IH s).
Qed.

Lemma lower_fixed_word_run (s : string) : lower_fixed s -> lower_fixed (PyStr.word_run s).
Proof.
  induction s as [|c r IH]; intros Hs; [exact Hs|].
  apply lower_fixed_cons in Hs. destruct Hs as [Hc Hr].
  cbn [PyStr.word_run]. destruct (PyStr.is_word c); [|reflexivity].
  apply lower_fixed_cons. auto.
Qed.

Lemma lower_fixed_how_many_here (s w : string) :
  PyStr.how_many_here s = Some w -> lower_fixed s -> lower_fixed w.
Proof.
  unfold PyStr.how_many_here. intros H Hs.
  destruct (PyStr.drop_prefix "how many " s) as [rest|] eqn:E; [|discriminate].
  pose proof (lower_fixed_word_run rest (lower_fixed_drop_prefix _ _ _ E Hs)) as Hw.
  destruct (PyStr.word_run rest); [discriminate|].
  now inversion H; subst.
Qed.

Lemma re_search_how_many_eq (s : string) :
  PyStr.re_search_how_many s =
  match PyStr.how_many_here s with
  | Some w => Some w
  | None =>
      match s with
      | EmptyString => None
      | String _ r => PyStr.re_search_how_many r
      end
  end.
Proof. destruct s; reflexivity. Qed.

Lemma lower_fixed_re_search (s w : string) :
  PyStr.re_search_how_many s = Some w -> lower_fixed s -> lower_fixed w.
Proof.
  induction s as [|c r IH]; rewrite re_search_how_many_eq; intros H Hs.
  - destruct (PyStr.how_many_here EmptyString) eqn:E; [|discriminate].
    inversion H; subst. eapply lower_fixed_how_many_here; eauto.
  - destruct (PyStr.how_many_here (String c r)) eqn:E.
    + inversion H; subst. eapply lower_fixed_how_many_here; eauto.
    + apply lower_fixed_cons in Hs. apply IH; tauto.
Qed.

Lemma is_ascii_cons (c : ascii) (r : string) :
  PyStr.is_ascii (String c r) = true <->
  (nat_of_ascii c <? 128) = true /\ PyStr.is_ascii r = true.
Proof. cbn [PyStr.is_ascii]. apply andb_true_iff. Qed.

Lemma lower_char_ascii (c : ascii) :
  (nat_of_ascii c <? 128) = true -> (nat_of_ascii (PyStr.lower_char c) <? 128) = true.
Proof. destruct c as [[] [] [] [] [] [] [] []]; vm_compute; congruence. Qed.

Lemma is_ascii_lower (s : string) :
  PyStr.is_ascii s = true -> PyStr.is_ascii (PyStr.lower s) = true.
Proof.
  induction s as [|c r IH]; [reflexivity|].
  rewrite lower_cons, !is_ascii_cons. intros [Hc Hr].
  split; [now apply lower_char_ascii | now apply IH].
Qed.

Lemma is_ascii_drop_prefix (p s rest : string) :
  PyStr.drop_prefix p s = Some rest -> PyStr.is_ascii s = true -> PyStr.is_ascii rest = true.
Proof.
  revert s. induction p as [|a p IH]; intros s H Hs.
  - cbn in H. now inversion H; subst.
  - destruct s as [|b s]; cbn in H; [discriminate|].
    destruct (Ascii.eqb a b); [|discriminate].
    apply is_ascii_cons in Hs. now apply (IH s).
Qed.

(** On ASCII text the search with the interpreter's [\w] is the search
    with the ASCII one. *)
Lemma how_many_with_ascii (env : Env) (s : string) :
  PyStr.is_ascii s = true ->
  PyStr.how_many_with (re_word_run env) s = PyStr.how_many_here s.
Proof.
  intros Hs. unfold PyStr.how_many_with, PyStr.how_many_here.
  destruct (PyStr.drop_prefix "how many " s) as [rest|] eqn:E; [|reflexivity].
  unfold re_word_run. now rewrite (is_ascii_drop_prefix _ _ _ E Hs).
Qed.

Lemma re_search_with_eq (run : string -> string) (s : string) :
  PyStr.re_search_with run s =
  match PyStr.how_many_with run s with
  | Some w => Some w
  | None =>
      match s with
      | EmptyString => None
      | String _ r => PyStr.re_search_with run r
      end
  end.
Proof. destruct s; reflexivity. Qed.

Lemma re_search_with_ascii (env : Env) (s : string) :
  PyStr.is_ascii s = true ->
  PyStr.re_search_with (re_word_run env) s = PyStr.re_search_how_many s.
Proof.
  induction s as [|c r IH]; intros Hs;
    rewrite re_search_with_eq, re_search_how_many_eq, (how_many_with_ascii env _ Hs).
  - reflexivity.
  - apply is_ascii_cons in Hs. now rewrite IH.
Qed.

Lemma str_lower_ascii (env : Env) (s : string) :
  PyStr.is_ascii s = true -> str_lower env s = PyStr.lower s.
Proof. intros H. unfold str_lower. now rewrite H. Qed.

Lemma fallback_topic_ascii (env : Env) (user_message : string) :
  PyStr.is_ascii user_message = true ->
  fallback_topic env user_message =
  match PyStr.re_search_how_many (PyStr.lower user_message) with
  | Some word => word
  | None => "unknown"
  end.
Proof.
  intros H. unfold fallback_topic.
  rewrite (str_lower_ascii env _ H).
  now rewrite (re_search_with_ascii env _ (is_ascii_lower _ H)).
Qed.

(** The fallback topic of an ASCII message has no capital letter. *)
Lemma fallback_topic_lower (env : Env) (user_message : string) :
  PyStr.is_ascii user_message = true -> lower_fixed (fallback_topic env user_message).
Proof.
  intros H. rewrite (fallback_topic_ascii env user_message H).
  destruct (PyStr.re_search_how_many (PyStr.lower user_message)) as [w|] eqn:E.
  - eapply lower_fixed_re_search; [exact E|]. apply lower_idem.
  - reflexivity.
Qed.

(** With a topic that has no capital letter, on a category and a text
    that are ASCII, the test of the count is containment with the letter
    case ignored on both sides. *)
Lemma about_topic_ascii (env : Env) (topic : string) (j : Joke) :
  lower_fixed topic ->
  PyStr.is_ascii (get_or_empty (category j)) = true ->
  PyStr.is_ascii (format_joke j) = true ->
  about_topic env topic j =
  contains_ci topic (get_or_empty (category j)) || contains_ci topic (format_joke j).
Proof.
  intros Ht Hc Hf. unfold about_topic, contains_folded, contains_ci.
  now rewrite (str_lower_ascii env _ Hc), (str_lower_ascii env _ Hf), Ht.
Qed.

Lemma is_empty_false (s : string) : s <> EmptyString -> PyStr.is_empty s = false.
Proof. destruct s; [congruence|reflexivity]. Qed.

Lemma nsfw_keywords_lower : Forall lower_fixed nsfw_keywords.
Proof. repeat constructor. Qed.

(** A keyword of a lower-case list is found ignoring case exactly when
    [any_in] finds it in the lowered text. *)
Lemma any_in_contains_ci (words : list string) (text : string) :
  Forall lower_fixed words ->
  any_in words (PyStr.lower text) = true <->
  exists term, In term words /\ contains_ci term text = true.
Proof.
  intros Hw. unfold any_in. rewrite existsb_exists. unfold contains_ci.
  rewrite Forall_forall in Hw.
  split; intros [t [Hin Ht]]; exists t; split; auto.
  - now rewrite (Hw t Hin).
  - now rewrite (Hw t Hin) in Ht.
Qed.

Lemma joke_word_plural (n : nat) (rest : string) :
  (" joke" ++ plural_s n ++ rest = joke_word n ++ rest)%string.
Proof. unfold plural_s, joke_word. destruct (n =? 1); reflexivity. Qed.

Lemma is_ascii_app (p r : string) :
  PyStr.is_ascii (p ++ r) = PyStr.is_ascii p && PyStr.is_ascii r.
Proof.
  induction p as [|c p IH]; [reflexivity|].
  cbn [String.append PyStr.is_ascii]. now rewrite IH, andb_assoc.
Qed.

Lemma length_app_string (p r : string) :
  String.length (p ++ r) = String.length p + String.length r.
Proof. induction p as [|c p IH]; cbn; [reflexivity|now rewrite IH]. Qed.

(** What [lstrip] leaves is the end of the text. *)
Lemma lstrip_suffix (n : nat) :
  forall s, String.length s <= n -> exists p, s = (p ++ PyStr.lstrip s)%string.
Proof.
  induction n as [|n IH]; intros s Hn.
  - destruct s; [now exists EmptyString|cbn in Hn; lia].
  - destruct s as [|c1 r1]; [now exists EmptyString|].
    cbn [PyStr.lstrip]. cbn [String.length] in Hn.
    destruct (PyStr.is_space c1).
    { destruct (IH r1) as [p Hp]; [lia|].
      exists (String c1 p). cbn [String.append]. now rewrite <- Hp. }
    destruct r1 as [|c2 r2]; [now exists EmptyString|].
    cbn [String.length] in Hn.
    destruct (PyStr.is_space2 c1 c2).
    { destruct (IH r2) as [p Hp]; [lia|].
      exists (String c1 (String c2 p)). cbn [String.append]. now rewrite <- Hp. }
    destruct r2 as [|c3 r3]; [now exists EmptyString|].
    cbn [String.length] in Hn.
    destruct (PyStr.is_space3 c1 c2 c3); [|now exists EmptyString].
    destruct (IH r3) as [p Hp]; [lia|].
    exists (String c1 (String c2 (String c3 p))). cbn [String.append]. now rewrite <- Hp.
Qed.

Lemma lstrip_reversed_suffix (n : nat) :
  forall s, String.length s <= n -> exists p, s = (p ++ PyStr.lstrip_reversed s)%string.
Proof.
  induction n as [|n IH]; intros s Hn.
  - destruct s; [now exists EmptyString|cbn in Hn; lia].
  - destruct s as [|c1 r1]; [now exists EmptyString|].
    cbn [PyStr.lstrip_reversed]. cbn [String.length] in Hn.
    destruct (PyStr.is_space c1).
    { destruct (IH r1) as [p Hp]; [lia|].
      exists (String c1 p). cbn [String.append]. now rewrite <- Hp. }
    destruct r1 as [|c2 r2]; [now exists EmptyString|].
    cbn [String.length] in Hn.
    destruct (PyStr.is_space2 c2 c1).
    { destruct (IH r2) as [p Hp]; [lia|].
      exists (String c1 (String c2 p)). cbn [String.append]. now rewrite <- Hp. }
    destruct r2 as [|c3 r3]; [now exists EmptyString|].
    cbn [String.length] in Hn.
    destruct (PyStr.is_space3 c3 c2 c1); [|now exists EmptyString].
    destruct (IH r3) as [p Hp]; [lia|].
    exists (String c1 (String c2 (String c3 p))). cbn [String.append]. now rewrite <- Hp.
Qed.

Lemma suffix_ascii (p s rest : string) :
  s = (p ++ rest)%string -> PyStr.is_ascii s = true ->
  PyStr.is_ascii rest = true /\ String.length rest <= String.length s.
Proof.
  intros -> H. rewrite is_ascii_app in H. apply andb_true_iff in H.
  rewrite length_app_string. split; [tauto|lia].
Qed.

Lemma reverse_onto_ascii (s acc : string) :
  PyStr.is_ascii (PyStr.reverse_onto acc s) = PyStr.is_ascii acc && PyStr.is_ascii s /\
  String.length (PyStr.reverse_onto acc s) = String.length acc + String.length s.
Proof.
  revert acc. induction s as [|c r IH]; intros acc;
    cbn [PyStr.reverse_onto PyStr.is_ascii String.length].
  - now rewrite andb_true_r, Nat.add_0_r.
  - destruct (IH (String c acc)) as [Ha Hl]. rewrite Ha, Hl.
    cbn [PyStr.is_ascii String.length]. split; [|lia].
    destruct (nat_of_ascii c <? 128), (PyStr.is_ascii acc), (PyStr.is_ascii r); reflexivity.
Qed.

(** Stripping an ASCII text gives an ASCII text that is not longer. *)
Lemma strip_ascii (s : string) :
  PyStr.is_ascii s = true ->
  PyStr.is_ascii (PyStr.strip s) = true /\ String.length (PyStr.strip s) <= String.length s.
Proof.
  intros Hs. unfold PyStr.strip, PyStr.rstrip, PyStr.reverse.
  destruct (lstrip_suffix _ s (le_n _)) as [p Hp].
  destruct (suffix_ascii _ _ _ Hp Hs) as [Ha1 Hl1].
  destruct (reverse_onto_ascii (PyStr.lstrip s) EmptyString) as [Ha2 Hl2].
  rewrite Ha1 in Ha2. cbn [PyStr.is_ascii String.length andb Nat.add] in Ha2, Hl2.
  destruct (lstrip_reversed_suffix _ (PyStr.reverse_onto EmptyString (PyStr.lstrip s)) (le_n _))
    as [q Hq].
  destruct (suffix_ascii _ _ _ Hq Ha2) as [Ha3 Hl3].
  destruct (reverse_onto_ascii
              (PyStr.lstrip_reversed (PyStr.reverse_onto EmptyString (PyStr.lstrip s)))
              EmptyString) as [Ha4 Hl4].
  rewrite Ha3 in Ha4. cbn [PyStr.is_ascii String.length andb Nat.add] in Ha4, Hl4.
  split; [exact Ha4|lia].
Qed.

Lemma split_cons (sep c : ascii) (r : string) :
  PyStr.split sep (String c r) =
  if Ascii.eqb c sep then EmptyString :: PyStr.split sep r
  else match PyStr.split sep r with
       | [] => [String c EmptyString]
       | h :: t => String c h :: t
       end.
Proof. reflexivity. Qed.

(** The pieces of an ASCII text are ASCII and not longer than it. *)
Lemma split_ascii (sep : ascii) (s : string) :
  PyStr.is_ascii s = true ->
  Forall (fun t => PyStr.is_ascii t = true /\ String.length t <= String.length s)
    (PyStr.split sep s).
Proof.
  induction s as [|c r IH]; intros Hs.
  - constructor; [now split|constructor].
  - apply is_ascii_cons in Hs. destruct Hs as [Hc Hr]. specialize (IH Hr).
    rewrite split_cons.
    assert (Forall (fun t => PyStr.is_ascii t = true /\
                             String.length t <= String.length (String c r))
              (PyStr.split sep r)) as IH'.
    { eapply Forall_impl; [|exact IH]. cbn. intros t [Ht Hl]. split; [exact Ht|lia]. }
    destruct (Ascii.eqb c sep).
    + constructor; [split; [reflexivity|cbn; lia]|exact IH'].
    + destruct (PyStr.split sep r) as [|h t].
      * constructor; [|constructor].
        split; [apply is_ascii_cons; now split|cbn; lia].
      * inversion IH as [|h0 t0 [Hh Hl] Ht]; subst. constructor.
        -- split; [apply is_ascii_cons; now split|cbn; lia].
        -- now inversion IH'.
Qed.

(** On ASCII pieces no limit refuses, the comprehension of the selected
    numbers never raises: it keeps the pieces that are digits and
    converts them. *)
Lemma indices_of_ascii (env : Env) (nums : list string) :
  Forall (fun t => PyStr.is_ascii t = true /\
                   String.length t <= str_digits_check_threshold) nums ->
  indices_of env nums =
  Ok (map (fun num => (PyStr.int (PyStr.strip num) - 1)%Z)
        (filter (fun num => PyStr.isdigit (PyStr.strip num)) nums)).
Proof.
  induction 1 as [|num rest [Ha Hl] Hrest IH]; [reflexivity|].
  cbn [indices_of filter]. destruct (strip_ascii num Ha) as [Hsa Hsl].
  unfold str_isdigit, int_of_str. rewrite Hsa.
  destruct (PyStr.isdigit (PyStr.strip num)); [|exact IH].
  assert ((String.length (PyStr.strip num) <=? str_digits_check_threshold) = true) as ->
    by (apply Nat.leb_le; lia).
  cbn [andb map]. now rewrite IH.
Qed.

Lemma joke_indices_ascii (env : Env) (selected : string) :
  PyStr.is_ascii selected = true ->
  String.length selected <= str_digits_check_threshold ->
  joke_indices env selected =
  Ok (map (fun num => (PyStr.int (PyStr.strip num) - 1)%Z)
        (filter (fun num => PyStr.isdigit (PyStr.strip num)) (PyStr.split "," selected))).
Proof.
  intros Ha Hl. unfold joke_indices. apply indices_of_ascii.
  eapply Forall_impl; [|apply split_ascii; exact Ha].
  cbn. intros t [Ht Hlen]. split; [exact Ht|lia].
Qed.

End StringFacts.

(** ** Facts about the loops *)

Section LoopFacts.

Variable all_jokes : list Joke.

Lemma append_first_match_reconcile (doc : string) (found : list Joke) :
  append_first_match doc all_jokes found = (found ++ found_list (reconcile doc all_jokes))%list.
Proof.
  unfold reconcile. induction all_jokes as [|j rest IH]; cbn.
  - now rewrite app_nil_r.
  - destruct (String.eqb (format_joke j) doc); [reflexivity|apply IH].
Qed.

Lemma match_documents_reconcile (documents : list string) (found : list Joke) :
  match_documents documents all_jokes found = (found ++ reconcile_all documents all_jokes)%list.
Proof.
  unfold reconcile_all.
  revert found. induction documents as [|doc rest IH]; intros found; cbn [match_documents flat_map].
  - now rewrite app_nil_r.
  - rewrite IH, append_first_match_reconcile. now rewrite <- app_assoc.
Qed.

Lemma reconcile_all_length (documents : list string) :
  length (reconcile_all documents all_jokes) <= length documents.
Proof.
  unfold reconcile_all.
  induction documents as [|doc rest IH]; cbn [flat_map length]; [lia|].
  rewrite length_app. destruct (reconcile doc all_jokes); cbn [found_list length]; lia.
Qed.

Lemma reconcile_up_to_all (candidates : list string) (limit : nat) :
  length candidates <= limit ->
  reconcile_up_to candidates limit all_jokes = reconcile_all candidates all_jokes.
Proof.
  revert limit. induction candidates as [|doc rest IH]; intros limit Hl; [reflexivity|].
  cbn [length] in Hl. destruct limit as [|limit]; [lia|].
  unfold reconcile_all in *. cbn [reconcile_up_to flat_map].
  destruct (reconcile doc all_jokes); cbn [found_list app].
  - f_equal. apply IH. lia.
  - apply IH. lia.
Qed.

Lemma count_loop_filter (env : Env) (topic : string) (l : list Joke) (count : nat)
    (matching : list Joke) :
  count_loop env topic l count matching =
  (count + length (filter (topic_in_joke env topic) l),
   (matching ++ filter (topic_in_joke env topic) l)%list).
Proof.
  revert count matching. induction l as [|j rest IH]; intros count matching; cbn.
  - now rewrite Nat.add_0_r, app_nil_r.
  - destruct (topic_in_joke env topic j); rewrite IH; [|reflexivity].
    rewrite <- app_assoc. cbn [app length]. f_equal. lia.
Qed.

Lemma topic_in_joke_about (env : Env) (topic : string) (j : Joke) :
  topic_in_joke env topic j = about_topic env topic j.
Proof. reflexivity. Qed.

End LoopFacts.

(** ** Facts about the handlers *)

Section HandlerFacts.

Variable env : Env.

Lemma log_query_run (user_message response_type : string) (n : nat) (ms : Z)
    (error : option string) (w : World) :
  Analytics.log_query env user_message response_type n ms error w =
  (Ok tt,
   mkWorld (logs w ++ [Analytics.query_entry (now_isoformat env (length (logs w)))
                         user_message response_type n ms error])
           (calls w)).
Proof. reflexivity. Qed.

Lemma log_llm_failure_run (error_type error_message fallback_used : string) (w : World) :
  Analytics.log_llm_failure env error_type error_message fallback_used w =
  (Ok tt,
   mkWorld (logs w ++ [Analytics.llm_failure_entry (now_isoformat env (length (logs w)))
                         error_type error_message fallback_used])
           (calls w)).
Proof. reflexivity. Qed.

Lemma log_feedback_run (query_id rating comment : JVal) (w : World) :
  Analytics.log_feedback env query_id rating comment w =
  (Ok tt,
   mkWorld (logs w ++ [Analytics.feedback_entry (now_isoformat env (length (logs w)))
                         query_id rating comment])
           (calls w)).
Proof. reflexivity. Qed.

Lemma try_except_ok {A} (m : M A) (h : Exn -> M A) (w w' : World) (a : A) :
  m w = (Ok a, w') -> try_except m h w = (Ok a, w').
Proof. unfold try_except. now intros ->. Qed.

Lemma try_except_raised {A} (m : M A) (h : Exn -> M A) (w w' : World) (e : Exn) :
  m w = (Raised e, w') -> try_except m h w = h e w'.
Proof. unfold try_except. now intros ->. Qed.

Lemma denylisted_iff (user_message : string) :
  denylisted user_message <-> any_in nsfw_keywords (PyStr.lower user_message) = true.
Proof. symmetry. apply any_in_contains_ci, nsfw_keywords_lower. Qed.

Lemma not_denylisted_iff (user_message : string) :
  ~ denylisted user_message <-> any_in nsfw_keywords (PyStr.lower user_message) = false.
Proof. rewrite denylisted_iff. now destruct (any_in _ _). Qed.

(** A request with a text message runs the body of the outer [try]. *)
Lemma ask_ai_message (data : Dict) (user_message : string) (w : World) :
  has_message data user_message ->
  ask_ai env data w =
  try_except (ask_ai_try env (JStr user_message))
    (fun e => ret (ErrorBody "An unexpected error occurred. Please try again.", 500)) w.
Proof.
  intros [Hm Hne]. unfold ask_ai, dict_get. rewrite Hm.
  cbn [truthy]. now rewrite (is_empty_false _ Hne).
Qed.

(** Past the filter and the corpus check, the three branches. *)
Lemma ask_ai_try_branches (data : Dict) (user_message : string) :
  reaches_branches env data user_message ->
  ask_ai_try env (JStr user_message) =
  if is_counting user_message then counting_branch env user_message (load_jokes env)
  else if is_existence user_message then existence_branch env user_message (load_jokes env)
  else recommendation_branch env user_message (load_jokes env).
Proof.
  intros (_ & Hn & Hc). apply not_denylisted_iff in Hn.
  unfold ask_ai_try. rewrite Hn.
  destruct (load_jokes env); [congruence|reflexivity].
Qed.

(** The topic extraction never raises, logs nothing and gives
    lower-cased text. *)
Lemma extract_topic_total (user_message : string) (all_jokes : list Joke) (w : World) :
  exists topic w1,
    extract_topic env user_message all_jokes w = (Ok topic, w1) /\
    logs w1 = logs w /\ extracted_from env user_message topic.
Proof.
  assert (extracted_from env user_message (fallback_topic env user_message)) as Hfallback.
  { right. split; [reflexivity|apply fallback_topic_lower]. }
  unfold extract_topic, try_except, bind, search_jokes_by_query, chat_create, checked_content.
  destruct (collection_query env user_message (length all_jokes)) as [docs|e].
  2:{ do 2 eexists. split; [reflexivity|]. split; [reflexivity|exact Hfallback]. }
  destruct (chat_completions_create env (prompt_count user_message)) as [choices|e].
  2:{ do 2 eexists. split; [reflexivity|]. split; [reflexivity|exact Hfallback]. }
  destruct choices as [|[content|] rest].
  1,3: do 2 eexists; (split; [reflexivity|]); split; [reflexivity|exact Hfallback].
  destruct (PyStr.is_empty content).
  - do 2 eexists. split; [reflexivity|]. split; [reflexivity|exact Hfallback].
  - do 2 eexists. split; [reflexivity|]. split; [reflexivity|].
    left. exists content. split; [reflexivity|].
    intros Hascii. unfold str_lower. rewrite Hascii. apply lower_idem.
Qed.

(** The counting branch, once the topic is known. *)
Lemma counting_branch_run (user_message topic : string) (all_jokes : list Joke) (w w1 : World) :
  extract_topic env user_message all_jokes w = (Ok topic, w1) ->
  logs w1 = logs w ->
  let matching := filter (topic_in_joke env topic) all_jokes in
  let count := length matching in
  counting_branch env user_message all_jokes w =
  if 0 <? count then
    (Ok (AnswerBody
           ("I have " ++ PyStr.str_nat count ++ " " ++ topic ++ " joke" ++ plural_s count ++
            " in my collection.")
           (firstn 3 matching), 200),
     mkWorld (logs w ++ [Analytics.query_entry (now_isoformat env (length (logs w)))
                           user_message "success" (length (firstn 3 matching))
                           (elapsed_ms env) None])
             (calls w1))
  else
    (Ok (AnswerBody ("I have 0 " ++ topic ++ " jokes in my collection.") [], 200),
     mkWorld (logs w ++ [Analytics.query_entry (now_isoformat env (length (logs w)))
                           user_message "no_results" 0 (elapsed_ms env) None])
             (calls w1)).
Proof.
  intros Ht Hl matching count. unfold counting_branch, bind at 1. rewrite Ht.
  rewrite count_loop_filter. cbn [app Nat.add]. fold matching. fold count.
  destruct (0 <? count); unfold bind; rewrite log_query_run; cbn [logs calls];
    rewrite Hl; reflexivity.
Qed.

(** The existence branch when the index answers. *)
Lemma existence_branch_run (user_message : string) (all_jokes : list Joke)
    (documents : list string) (w : World) :
  collection_query env user_message 10 = SearchOk documents ->
  let reconciled := reconcile_all (firstn 5 documents) all_jokes in
  existence_branch env user_message all_jokes w =
  (Ok (match reconciled with
       | [] => AnswerBody
                 "No, I don't have any jokes matching that description in my collection." []
       | _ => AnswerBody
                ("Yes, I found " ++ PyStr.str_nat (length reconciled) ++ " joke" ++
                 plural_s (length reconciled) ++ " matching your query. Here are some examples:")
                (firstn 3 reconciled)
       end, 200),
   mkWorld (logs w) (calls w ++ [CallQuery user_message 10])).
Proof.
  intros Hq reconciled.
  unfold existence_branch, try_except, bind, search_jokes_by_query. rewrite Hq.
  destruct documents as [|d ds].
  - reflexivity.
  - rewrite match_documents_reconcile. cbn [app]. fold reconciled.
    destruct reconciled; reflexivity.
Qed.

(** The existence branch when the index raises. *)
Lemma existence_branch_raised (user_message : string) (all_jokes : list Joke)
    (e : Exn) (w : World) :
  collection_query env user_message 10 = SearchRaise e ->
  existence_branch env user_message all_jokes w =
  (Ok (AnswerBody "I'm having trouble searching the joke collection. Please try again." [], 200),
   mkWorld (logs w) (calls w ++ [CallQuery user_message 10])).
Proof.
  intros Hq. unfold existence_branch, try_except, bind, search_jokes_by_query.
  now rewrite Hq.
Qed.

End HandlerFacts.

(** ** Facts about the recommendation branch *)

Section RecommendationFacts.

Variable env : Env.
Variable user_message : string.
Variable all_jokes : list Joke.

Lemma count_query_events_app (l : list Dict) (event : Dict) :
  Analytics.count_query_events (l ++ [event]) =
  Analytics.count_query_events l + (if Analytics.is_query_event event then 1 else 0).
Proof.
  unfold Analytics.count_query_events. rewrite filter_app, length_app. cbn [filter].
  now destruct (Analytics.is_query_event event).
Qed.

Lemma count_query_events_query (l : list Dict) (ts m t : string) (n : nat) (ms : Z)
    (err : option string) :
  Analytics.count_query_events (l ++ [Analytics.query_entry ts m t n ms err]) =
  Analytics.count_query_events l + 1.
Proof. now rewrite count_query_events_app. Qed.

Lemma count_query_events_llm_failure (l : list Dict) (ts t m f : string) :
  Analytics.count_query_events (l ++ [Analytics.llm_failure_entry ts t m f]) =
  Analytics.count_query_events l.
Proof. rewrite count_query_events_app. cbn. lia. Qed.

Lemma count_query_events_failure_query (l : list Dict) (ts t m f ts' m' t' : string)
    (n : nat) (ms : Z) (err : option string) :
  Analytics.count_query_events
    (l ++ [Analytics.llm_failure_entry ts t m f; Analytics.query_entry ts' m' t' n ms err]) =
  Analytics.count_query_events l + 1.
Proof.
  unfold Analytics.count_query_events. rewrite filter_app, length_app. reflexivity.
Qed.

(** The [try] of the branch: an answer comes with one query entry, an
    exception with none. *)
Lemma recommend_try_events (w : World) :
  match recommend_try env user_message all_jokes w with
  | (Ok _, w') =>
      Analytics.count_query_events (logs w') = Analytics.count_query_events (logs w) + 1
  | (Raised _, w') => logs w' = logs w
  end.
Proof.
  unfold recommend_try, bind, search_jokes_by_query, chat_create, checked_content, raise, ret.
  destruct (collection_query env user_message 5) as [[|first_doc rest]|e]; cbn [logs].
  - rewrite log_query_run. cbn [logs]. apply count_query_events_query.
  - destruct (chat_completions_create env _) as [[|[content|] more]|e]; cbn [logs];
      try reflexivity.
    destruct (PyStr.is_empty content); [reflexivity|].
    destruct (String.eqb _ "none");
      [|destruct (joke_indices env _); [|reflexivity]];
      rewrite log_query_run; cbn [logs]; apply count_query_events_query.
  - reflexivity.
Qed.

Lemma recommend_try_raised_logs (w w1 : World) (e : Exn) :
  recommend_try env user_message all_jokes w = (Raised e, w1) -> logs w1 = logs w.
Proof. intros H. pose proof (recommend_try_events w) as P. now rewrite H in P. Qed.

(** The causes of an exception in the [try]: the index raises, the
    model raises, its first choice has no content, or [int] raises on
    one of the numbers it names. *)
Lemma recommend_try_raised_cases (w w1 : World) (e : Exn) :
  recommend_try env user_message all_jokes w = (Raised e, w1) ->
  collection_query env user_message 5 = SearchRaise e \/
  exists documents prompt,
    collection_query env user_message 5 = SearchOk documents /\ documents <> [] /\
    (chat_completions_create env prompt = ChatRaise e \/
     exists choices,
       chat_completions_create env prompt = ChatOk choices /\
       ((e = "Empty response from AI model" /\
         (choices = [] \/ (exists more, choices = None :: more) \/
          exists more, choices = Some EmptyString :: more)) \/
        exists content more,
          choices = Some content :: more /\
          joke_indices env (PyStr.strip content) = Raised e)).
Proof.
  unfold recommend_try, bind, search_jokes_by_query, chat_create, checked_content, raise, ret.
  destruct (collection_query env user_message 5) as [[|first_doc rest]|e0] eqn:Hq.
  - rewrite log_query_run. discriminate.
  - intros H. right. eexists. eexists. split; [reflexivity|]. split; [discriminate|].
    destruct (chat_completions_create env _) as [[|[content|] more]|e1] eqn:Hc.
    + inversion H; subst. right. eexists. split; [exact Hc|]. left.
      split; [reflexivity|]. now left.
    + destruct content as [|c r].
      * inversion H; subst. right. eexists. split; [exact Hc|]. left.
        split; [reflexivity|]. right. right. now exists more.
      * cbn [PyStr.is_empty] in H.
        destruct (String.eqb _ "none"); [rewrite log_query_run in H; discriminate|].
        destruct (joke_indices env _) as [indices|e2] eqn:Hi;
          [rewrite log_query_run in H; discriminate|].
        inversion H; subst. right. eexists. split; [exact Hc|]. right.
        exists (String c r), more. now split.
    + inversion H; subst. right. eexists. split; [exact Hc|]. left.
      split; [reflexivity|]. right. left. now exists more.
    + inversion H; subst. left. exact Hc.
  - intros H. inversion H; subst. now left.
Qed.

(** The handler when the second query answers. *)
Lemma recommend_except_found (llm_error : Exn) (documents : list string) (w : World) :
  collection_query env user_message 3 = SearchOk documents ->
  let reconciled := reconcile_all documents all_jokes in
  let t := length (logs w) in
  recommend_except env user_message all_jokes llm_error w =
  (Ok (AnswerBody found_response reconciled, 200),
   mkWorld (logs w ++
            [Analytics.llm_failure_entry (now_isoformat env t)
               "llm_selection_error" llm_error "chromadb_direct";
             Analytics.query_entry (now_isoformat env (t + 1))
               user_message "success" (length reconciled) (elapsed_ms env) None])
           (calls w ++ [CallQuery user_message 3])).
Proof.
  intros Hq reconciled t.
  unfold recommend_except, bind at 1. rewrite log_llm_failure_run.
  unfold try_except, bind, search_jokes_by_query. cbn [logs calls]. rewrite Hq.
  rewrite match_documents_reconcile. cbn [app]. fold reconciled.
  rewrite log_query_run. cbn [logs calls ret jsonify].
  rewrite length_app, <- app_assoc. reflexivity.
Qed.

(** The handler when the second query raises too. *)
Lemma recommend_except_raised (llm_error fallback_error : Exn) (w : World) :
  collection_query env user_message 3 = SearchRaise fallback_error ->
  let t := length (logs w) in
  let w' :=
    mkWorld (logs w ++
             [Analytics.llm_failure_entry (now_isoformat env t)
                "llm_selection_error" llm_error "chromadb_direct";
              Analytics.query_entry (now_isoformat env (t + 1))
                user_message "error" 0 (elapsed_ms env) (Some fallback_error)])
            (calls w ++ [CallQuery user_message 3]) in
  recommend_except env user_message all_jokes llm_error w =
  match all_jokes with
  | [] => (Ok (AnswerBody random_joke_response [], 200), w')
  | _ =>
      match nth_error all_jokes (randbelow env (length all_jokes)) with
      | Some j => (Ok (AnswerBody random_joke_response [j], 200), w')
      | None => (Raised "list index out of range", w')
      end
  end.
Proof.
  intros Hq t w'.
  unfold recommend_except, bind at 1. rewrite log_llm_failure_run.
  unfold try_except, bind at 1, search_jokes_by_query. cbn [logs calls]. rewrite Hq.
  unfold bind at 1. rewrite log_query_run. cbn [logs calls].
  rewrite length_app, <- app_assoc. cbn [length app]. fold t. fold w'.
  unfold random_joke_list, random_choice, bind, ret, raise.
  destruct all_jokes as [|j0 rest]; [reflexivity|].
  destruct (nth_error (j0 :: rest) _); reflexivity.
Qed.

(** Whatever happens in the branch, one query entry is written. *)
Lemma recommendation_branch_events (w : World) :
  Analytics.count_query_events (logs (snd (recommendation_branch env user_message all_jokes w))) =
  Analytics.count_query_events (logs w) + 1.
Proof.
  unfold recommendation_branch, try_except.
  pose proof (recommend_try_events w) as P.
  destruct (recommend_try env user_message all_jokes w) as [[r|e] w1]; [exact P|].
  destruct (collection_query env user_message 3) as [documents|e2] eqn:Hq.
  - rewrite (recommend_except_found e documents w1 Hq). cbn [snd logs].
    now rewrite count_query_events_failure_query, P.
  - rewrite (recommend_except_raised e e2 w1 Hq).
    destruct all_jokes as [|j0 rest];
      [|destruct (nth_error (j0 :: rest) _)];
      cbn [snd logs]; now rewrite count_query_events_failure_query, P.
Qed.

End RecommendationFacts.

(** ** The safety filter and the corpus check *)

Lemma reaches_branches_intro (env : Env) (data : Dict) (user_message : string) :
  dict_lookup data "message" = Some (JStr user_message) ->
  user_message <> EmptyString ->
  any_in nsfw_keywords (PyStr.lower user_message) = false ->
  load_jokes env <> [] ->
  reaches_branches env data user_message.
Proof.
  intros Hm Hne Hn Hc. repeat split; auto. now apply not_denylisted_iff.
Qed.

Lemma ask_ai_branch (env : Env) (data : Dict) (user_message : string) (w : World) :
  reaches_branches env data user_message ->
  ask_ai env data w =
  try_except
    (if is_counting user_message then counting_branch env user_message (load_jokes env)
     else if is_existence user_message then existence_branch env user_message (load_jokes env)
     else recommendation_branch env user_message (load_jokes env))
    (fun e => ret (ErrorBody "An unexpected error occurred. Please try again.", 500)) w.
Proof.
  intros H. rewrite (ask_ai_message env data user_message w (proj1 H)).
  now rewrite (ask_ai_try_branches env data user_message H).
Qed.

(** C2. A message that is not empty and holds a term of the denylist,
    letter case ignored, is answered with the fixed refusal and no joke;
    one query entry with outcome [nsfw_blocked] and count 0 is appended
    to the log, and neither the index nor the model is called. *)
Theorem nsfw_request_is_refused (env : Env) (data : Dict) (user_message : string) (w : World) :
  has_message data user_message ->
  denylisted user_message ->
  ask_ai env data w =
  (Ok (AnswerBody nsfw_response [], 200),
   mkWorld (logs w ++
            [Analytics.query_entry (now_isoformat env (length (logs w)))
               user_message "nsfw_blocked" 0 (elapsed_ms env) None])
           (calls w)).
Proof.
  intros Hm Hd. rewrite (ask_ai_message env data user_message w Hm).
  apply denylisted_iff in Hd.
  unfold try_except, ask_ai_try. rewrite Hd.
  unfold bind. rewrite log_query_run. reflexivity.
Qed.

Lemma nsfw_request_is_refused_witness :
  ask_ai (Sample.mk (Some Sample.corpus) Sample.index_down Sample.model_timeout)
         (Sample.request "Tell me an ADULT joke") Sample.fresh =
  (Ok (AnswerBody nsfw_response [], 200),
   mkWorld [Analytics.query_entry "2024-01-01T00:00:00" "Tell me an ADULT joke"
              "nsfw_blocked" 0 12 None] []).
Proof.
  refine (nsfw_request_is_refused
            (Sample.mk (Some Sample.corpus) Sample.index_down Sample.model_timeout)
            (Sample.request "Tell me an ADULT joke") "Tell me an ADULT joke" Sample.fresh _ _).
  - split; [reflexivity|discriminate].
  - exists "adult". split; [|reflexivity]. cbn. tauto.
Defined.

(** No branch but the inner fallback answers with the random-joke
    message. *)
Lemma counting_branch_not_random (env : Env) (user_message : string) (all_jokes : list Joke)
    (w w' : World) (chosen : list Joke) (status : nat) :
  counting_branch env user_message all_jokes w <>
  (Ok (AnswerBody random_joke_response chosen, status), w').
Proof.
  destruct (extract_topic_total env user_message all_jokes w) as (topic & w1 & Ht & Hl & _).
  rewrite (counting_branch_run env user_message topic all_jokes w w1 Ht Hl).
  destruct (0 <? _); intros H; inversion H.
Qed.

Lemma existence_branch_not_random (env : Env) (user_message : string) (all_jokes : list Joke)
    (w w' : World) (chosen : list Joke) (status : nat) :
  existence_branch env user_message all_jokes w <>
  (Ok (AnswerBody random_joke_response chosen, status), w').
Proof.
  destruct (collection_query env user_message 10) as [documents|e] eqn:Hq.
  - rewrite (existence_branch_run env user_message all_jokes documents w Hq).
    destruct (reconcile_all _ _); intros H; inversion H.
  - rewrite (existence_branch_raised env user_message all_jokes e w Hq).
    intros H; inversion H.
Qed.

Lemma recommend_try_not_random (env : Env) (user_message : string) (all_jokes : list Joke)
    (w w' : World) (chosen : list Joke) (status : nat) :
  recommend_try env user_message all_jokes w <>
  (Ok (AnswerBody random_joke_response chosen, status), w').
Proof.
  unfold recommend_try, bind, search_jokes_by_query, chat_create, checked_content, raise, ret.
  destruct (collection_query env user_message 5) as [[|first_doc rest]|e].
  - rewrite log_query_run. intros H; inversion H.
  - destruct (chat_completions_create env _) as [[|[content|] more]|e]; try discriminate.
    destruct (PyStr.is_empty content); [discriminate|].
    destruct (String.eqb _ "none");
      [|destruct (joke_indices env _); [|discriminate]];
      rewrite log_query_run; intros H; inversion H.
  - discriminate.
Qed.

(** A reply of [ask_ai] with the random-joke message carries one record
    of a corpus that is not empty. *)
Lemma random_reply_has_a_joke (env : Env) (data : Dict) (user_message : string)
    (w w' : World) (chosen : list Joke) (status : nat) :
  has_message data user_message ->
  ~ denylisted user_message ->
  ask_ai env data w = (Ok (AnswerBody random_joke_response chosen, status), w') ->
  load_jokes env <> [] /\ exists j, chosen = [j] /\ In j (load_jokes env).
Proof.
  intros Hm Hd.
  destruct (load_jokes env) as [|j0 rest] eqn:Hc.
  - rewrite (ask_ai_message env data user_message w Hm).
    apply not_denylisted_iff in Hd.
    unfold try_except, ask_ai_try. rewrite Hd, Hc. discriminate.
  - assert (reaches_branches env data user_message) as Hr.
    { repeat split; try apply Hm; auto. rewrite Hc. discriminate. }
    rewrite (ask_ai_branch env data user_message w Hr), Hc.
    intros H. split; [discriminate|].
    unfold try_except in H.
    destruct (is_counting user_message).
    { destruct (counting_branch env user_message (j0 :: rest) w) as [[r|e] w1] eqn:E;
        [|discriminate].
      rewrite H in E. now apply counting_branch_not_random in E. }
    destruct (is_existence user_message).
    { destruct (existence_branch env user_message (j0 :: rest) w) as [[r|e] w1] eqn:E;
        [|discriminate].
      rewrite H in E. now apply existence_branch_not_random in E. }
    unfold recommendation_branch, try_except in H.
    destruct (recommend_try env user_message (j0 :: rest) w) as [[r|e] w1] eqn:E.
    { rewrite H in E. now apply recommend_try_not_random in E. }
    destruct (collection_query env user_message 3) as [documents|e2] eqn:Hq.
    + rewrite (recommend_except_found env user_message (j0 :: rest) e documents w1 Hq) in H.
      inversion H.
    + rewrite (recommend_except_raised env user_message (j0 :: rest) e e2 w1 Hq) in H.
      destruct (nth_error (j0 :: rest) _) as [j|] eqn:Hn; [|discriminate].
      inversion H; subst. exists j. split; [reflexivity|].
      now apply nth_error_In in Hn.
Qed.

(** C10. For a message that is not empty and not denylisted, an empty
    corpus is answered with the 500 error object at once: nothing is
    logged and neither the index nor the model is called, whatever the
    message asks.  Hence every answer a branch gives comes from a corpus
    that is not empty, and a reply that carries the random-joke message
    of the inner fallback carries one record of it: the empty list of
    that fallback is never sent. *)
Theorem empty_corpus_is_a_500 (env : Env) (data : Dict) (user_message : string) (w : World) :
  has_message data user_message ->
  ~ denylisted user_message ->
  (load_jokes env = [] ->
   ask_ai env data w = (Ok (ErrorBody "No jokes available in the collection", 500), w)) /\
  (forall response jokes status w',
     ask_ai env data w = (Ok (AnswerBody response jokes, status), w') ->
     load_jokes env <> []) /\
  (forall chosen status w',
     ask_ai env data w = (Ok (AnswerBody random_joke_response chosen, status), w') ->
     load_jokes env <> [] /\ exists j, chosen = [j] /\ In j (load_jokes env)).
Proof.
  intros Hm Hd.
  assert (load_jokes env = [] ->
          ask_ai env data w = (Ok (ErrorBody "No jokes available in the collection", 500), w))
    as Hempty.
  { intros Hc. rewrite (ask_ai_message env data user_message w Hm).
    apply not_denylisted_iff in Hd.
    unfold try_except, ask_ai_try. now rewrite Hd, Hc. }
  split; [exact Hempty|]. split.
  - intros response jokes status w' Hrun Hc.
    rewrite (Hempty Hc) in Hrun. discriminate.
  - intros chosen status w'. now apply random_reply_has_a_joke with (user_message := user_message).
Qed.

Lemma empty_corpus_is_a_500_witness :
  ask_ai (Sample.mk None (Sample.index_ok ["x"]) (Sample.model_says "1"))
         (Sample.request "how many cat jokes?") Sample.fresh =
  (Ok (ErrorBody "No jokes available in the collection", 500), Sample.fresh) /\
  (forall chosen status w',
     ask_ai (Sample.mk (Some Sample.corpus) (Sample.index_then_down ["x"]) Sample.model_timeout)
            (Sample.request "tell me a joke") Sample.fresh =
     (Ok (AnswerBody random_joke_response chosen, status), w') ->
     chosen <> []).
Proof.
  split.
  - refine (proj1 (empty_corpus_is_a_500
              (Sample.mk None (Sample.index_ok ["x"]) (Sample.model_says "1"))
              (Sample.request "how many cat jokes?") "how many cat jokes?" Sample.fresh _ _) _).
    + split; [reflexivity|discriminate].
    + apply not_denylisted_iff. reflexivity.
    + reflexivity.
  - intros chosen status w' H.
    refine (match proj2 (proj2 (empty_corpus_is_a_500
              (Sample.mk (Some Sample.corpus) (Sample.index_then_down ["x"]) Sample.model_timeout)
              (Sample.request "tell me a joke") "tell me a joke" Sample.fresh _ _))
              chosen status w' H with
            | conj _ (ex_intro _ j (conj E _)) => _
            end).
    + split; [reflexivity|discriminate].
    + apply not_denylisted_iff. reflexivity.
    + rewrite E. discriminate.
Defined.

(** ** The counting branch *)

(** C5. In the counting branch the extraction always gives a topic,
    which is lower-cased text (the model's answer stripped and
    lower-cased, or what the fallback reads in the lower-cased message),
    and that topic is counted over the corpus: a record counts when its
    category or its derived text, letter case folded by [str.lower],
    contains the topic; on ASCII text that is containment with the
    letter case ignored on both sides.  A positive count is reported as
    "I have <count> <topic> joke(s) in my collection." with "joke" for
    one and "jokes" otherwise, with the first three matching records at
    most, and a [success] query entry holding the number of records
    attached; a count of zero is reported as "I have 0 <topic> jokes in
    my collection." with no record and a [no_results] query entry
    holding 0. *)
Theorem counting_branch_reports_count (env : Env) (data : Dict) (user_message : string)
    (w : World) :
  reaches_branches env data user_message ->
  is_counting user_message = true ->
  exists topic w1,
    extract_topic env user_message (load_jokes env) w = (Ok topic, w1) /\
    extracted_from env user_message topic /\
    (forall j,
       lower_fixed topic ->
       PyStr.is_ascii (get_or_empty (category j)) = true ->
       PyStr.is_ascii (format_joke j) = true ->
       about_topic env topic j =
       contains_ci topic (get_or_empty (category j)) || contains_ci topic (format_joke j)) /\
    let matching := filter (about_topic env topic) (load_jokes env) in
    let count := length matching in
    let examples := firstn 3 matching in
    let entry := Analytics.query_entry (now_isoformat env (length (logs w))) user_message in
    length examples <= 3 /\
    (0 < count ->
     ask_ai env data w =
     (Ok (AnswerBody
            ("I have " ++ PyStr.str_nat count ++ " " ++ topic ++ joke_word count ++
             " in my collection.")
            examples, 200),
      mkWorld (logs w ++ [entry "success" (length examples) (elapsed_ms env) None])
              (calls w1))) /\
    (count = 0 ->
     ask_ai env data w =
     (Ok (AnswerBody ("I have 0 " ++ topic ++ " jokes in my collection.") [], 200),
      mkWorld (logs w ++ [entry "no_results" 0 (elapsed_ms env) None]) (calls w1))).
Proof.
  intros Hr Hc.
  destruct (extract_topic_total env user_message (load_jokes env) w)
    as (topic & w1 & Ht & Hl & Hf).
  exists topic, w1. split; [exact Ht|]. split; [exact Hf|].
  split; [intros j; apply about_topic_ascii|].
  cbv zeta. split; [apply firstn_le_length|].
  assert (filter (topic_in_joke env topic) (load_jokes env) =
          filter (about_topic env topic) (load_jokes env)) as Hfilter.
  { apply filter_ext. intros j. now apply topic_in_joke_about. }
  pose proof (counting_branch_run env user_message topic (load_jokes env) w w1 Ht Hl) as Hrun.
  cbv zeta in Hrun. rewrite Hfilter in Hrun.
  rewrite (ask_ai_branch env data user_message w Hr), Hc.
  split.
  - intros Hpos. apply Nat.ltb_lt in Hpos. rewrite Hpos in Hrun.
    rewrite joke_word_plural in Hrun. now apply try_except_ok.
  - intros Hzero. rewrite Hzero in Hrun. cbn [Nat.ltb Nat.leb] in Hrun.
    apply try_except_ok. rewrite Hrun. reflexivity.
Qed.

Lemma counting_branch_reports_count_witness :
  ask_ai (Sample.mk (Some Sample.corpus) (Sample.index_ok []) (Sample.model_says " MISC "))
         (Sample.request "How many misc jokes?") Sample.fresh =
  (Ok (AnswerBody "I have 2 misc jokes in my collection." [Sample.atom; Sample.cat_again], 200),
   mkWorld [Analytics.query_entry "2024-01-01T00:00:00" "How many misc jokes?" "success" 2 12 None]
           [CallQuery "How many misc jokes?" 4; CallChat (prompt_count "How many misc jokes?")]).
Proof.
  destruct (counting_branch_reports_count
              (Sample.mk (Some Sample.corpus) (Sample.index_ok []) (Sample.model_says " MISC "))
              (Sample.request "How many misc jokes?") "How many misc jokes?" Sample.fresh)
    as (topic & w1 & Ht & _ & _ & _ & Hpos & _).
  - apply reaches_branches_intro; [reflexivity|discriminate|reflexivity|discriminate].
  - reflexivity.
  - vm_compute in Ht. inversion Ht; subst topic w1.
    rewrite Hpos; [reflexivity|]. vm_compute. lia.
Defined.

(** ** The existence branch *)

(** C6. In the existence branch, when the index answers, the first five
    documents are the candidates: each is reconciled by exact match of
    the derived text and one without a record is skipped, which is also
    what going through them until five are reconciled or none is left
    gives.  With at least one record the reply is "Yes, I found N
    joke(s) matching your query", N the number reconciled, "joke" for
    one and "jokes" otherwise, and the first three records at most; with
    none it is the fixed "No, I don't have any jokes matching that
    description" message and no record. *)
Theorem existence_branch_answers (env : Env) (data : Dict) (user_message : string)
    (documents : list string) (w : World) :
  reaches_branches env data user_message ->
  is_counting user_message = false ->
  is_existence user_message = true ->
  collection_query env user_message 10 = SearchOk documents ->
  let candidates := firstn 5 documents in
  let reconciled := reconcile_all candidates (load_jokes env) in
  let w' := mkWorld (logs w) (calls w ++ [CallQuery user_message 10]) in
  match_documents candidates (load_jokes env) [] = reconciled /\
  reconcile_up_to candidates 5 (load_jokes env) = reconciled /\
  length reconciled <= 5 /\
  length (firstn 3 reconciled) <= 3 /\
  (reconciled <> [] ->
   ask_ai env data w =
   (Ok (AnswerBody
          ("Yes, I found " ++ PyStr.str_nat (length reconciled) ++
           joke_word (length reconciled) ++ " matching your query. Here are some examples:")
          (firstn 3 reconciled), 200), w')) /\
  (reconciled = [] ->
   ask_ai env data w =
   (Ok (AnswerBody "No, I don't have any jokes matching that description in my collection." [],
        200), w')).
Proof.
  intros Hr Hc He Hq candidates reconciled w'.
  assert (length candidates <= 5) as Hlen by apply firstn_le_length.
  split; [apply match_documents_reconcile|].
  split; [now apply reconcile_up_to_all|].
  split; [etransitivity; [apply reconcile_all_length|exact Hlen]|].
  split; [apply firstn_le_length|].
  pose proof (existence_branch_run env user_message (load_jokes env) documents w Hq) as Hrun.
  cbv zeta in Hrun. fold candidates in Hrun. fold reconciled in Hrun. fold w' in Hrun.
  rewrite (ask_ai_branch env data user_message w Hr), Hc, He.
  split; intros Hrec; apply try_except_ok; rewrite Hrun.
  - destruct reconciled as [|j rest]; [congruence|].
    now rewrite joke_word_plural.
  - now rewrite Hrec.
Qed.

Lemma existence_branch_answers_witness :
  ask_ai (Sample.mk (Some Sample.corpus)
            (Sample.index_ok ["no such joke"; format_joke Sample.cat; format_joke Sample.atom])
            Sample.model_timeout)
         (Sample.request "Do you have any cat jokes?") Sample.fresh =
  (Ok (AnswerBody "Yes, I found 2 jokes matching your query. Here are some examples:"
         [Sample.cat; Sample.atom], 200),
   mkWorld [] [CallQuery "Do you have any cat jokes?" 10]).
Proof.
  refine (proj1 (proj2 (proj2 (proj2 (proj2 (existence_branch_answers
            (Sample.mk (Some Sample.corpus)
               (Sample.index_ok ["no such joke"; format_joke Sample.cat; format_joke Sample.atom])
               Sample.model_timeout)
            (Sample.request "Do you have any cat jokes?") "Do you have any cat jokes?"
            ["no such joke"; format_joke Sample.cat; format_joke Sample.atom] Sample.fresh
            _ _ _ _))))) _).
  - apply reaches_branches_intro; [reflexivity|discriminate|reflexivity|discriminate].
  - reflexivity.
  - reflexivity.
  - reflexivity.
  - discriminate.
Defined.

(** C7. In the existence branch, when the query of the index raises,
    the exception is caught: the reply is the fixed "I'm having trouble
    searching" message with no record, and the log is left as it was, so
    no query entry is written. *)
Theorem existence_search_failure_is_silent (env : Env) (data : Dict) (user_message : string)
    (search_error : Exn) (w : World) :
  reaches_branches env data user_message ->
  is_counting user_message = false ->
  is_existence user_message = true ->
  collection_query env user_message 10 = SearchRaise search_error ->
  ask_ai env data w =
  (Ok (AnswerBody "I'm having trouble searching the joke collection. Please try again." [], 200),
   mkWorld (logs w) (calls w ++ [CallQuery user_message 10])).
Proof.
  intros Hr Hc He Hq.
  rewrite (ask_ai_branch env data user_message w Hr), Hc, He.
  apply try_except_ok. now apply existence_branch_raised with (e := search_error).
Qed.

Lemma existence_search_failure_is_silent_witness :
  ask_ai (Sample.mk (Some Sample.corpus) Sample.index_down Sample.model_timeout)
         (Sample.request "Is there a joke about atoms?") Sample.fresh =
  (Ok (AnswerBody "I'm having trouble searching the joke collection. Please try again." [], 200),
   mkWorld [] [CallQuery "Is there a joke about atoms?" 10]).
Proof.
  refine (existence_search_failure_is_silent
            (Sample.mk (Some Sample.corpus) Sample.index_down Sample.model_timeout)
            (Sample.request "Is there a joke about atoms?") "Is there a joke about atoms?"
            "connection refused" Sample.fresh _ _ _ _).
  - apply reaches_branches_intro; [reflexivity|discriminate|reflexivity|discriminate].
  - reflexivity.
  - reflexivity.
  - reflexivity.
Defined.

(** ** The recommendation branch *)

(** C1. In the recommendation branch, when the steps of the [try]
    raise (the model fails or times out, its response is empty, or a
    number it names makes [int] raise) and
    the second query of the index answers, the log gains one
    [llm_failure] entry whose [fallback_used] is "chromadb_direct", the
    index is queried again for three documents, each is reconciled by
    exact match of the derived text, and the reply carries those records
    under "Here's what I found for you:"; the query entry that follows
    has outcome [success] and the number of records reconciled, zero
    included. *)
Theorem llm_failure_falls_back_to_index (env : Env) (data : Dict) (user_message : string)
    (llm_error : Exn) (documents : list string) (w w1 : World) :
  reaches_branches env data user_message ->
  is_counting user_message = false ->
  is_existence user_message = false ->
  recommend_try env user_message (load_jokes env) w = (Raised llm_error, w1) ->
  collection_query env user_message 3 = SearchOk documents ->
  let reconciled := reconcile_all documents (load_jokes env) in
  let t := length (logs w) in
  match_documents documents (load_jokes env) [] = reconciled /\
  length reconciled <= length documents /\
  ask_ai env data w =
  (Ok (AnswerBody "Here's what I found for you:" reconciled, 200),
   mkWorld (logs w ++
            [Analytics.llm_failure_entry (now_isoformat env t)
               "llm_selection_error" llm_error "chromadb_direct";
             Analytics.query_entry (now_isoformat env (t + 1))
               user_message "success" (length reconciled) (elapsed_ms env) None])
           (calls w1 ++ [CallQuery user_message 3])).
Proof.
  intros Hr Hc He Ht Hq reconciled t.
  split; [apply match_documents_reconcile|].
  split; [apply reconcile_all_length|].
  rewrite (ask_ai_branch env data user_message w Hr), Hc, He.
  apply try_except_ok. unfold recommendation_branch.
  rewrite (try_except_raised _ _ _ _ _ Ht).
  rewrite (recommend_except_found env user_message (load_jokes env) llm_error documents w1 Hq).
  now rewrite (recommend_try_raised_logs env user_message (load_jokes env) w w1 llm_error Ht).
Qed.

Lemma llm_failure_falls_back_to_index_witness :
  ask_ai (Sample.mk (Some Sample.corpus)
            (Sample.index_ok [format_joke Sample.atom; "no such joke"]) Sample.model_timeout)
         (Sample.request "tell me a joke") Sample.fresh =
  (Ok (AnswerBody "Here's what I found for you:" [Sample.atom], 200),
   mkWorld [Analytics.llm_failure_entry "2024-01-01T00:00:00"
              "llm_selection_error" "Request timed out." "chromadb_direct";
            Analytics.query_entry "2024-01-01T00:00:00" "tell me a joke" "success" 1 12 None]
           [CallQuery "tell me a joke" 5;
            CallChat (prompt_select "tell me a joke"
                        (PyStr.join (PyStr.nl ++ PyStr.nl)
                           (numbered_jokes 0 [format_joke Sample.atom; "no such joke"])));
            CallQuery "tell me a joke" 3]) /\
  ask_ai (Sample.mk (Some Sample.corpus) (Sample.index_ok ["no such joke"])
            (fun _ => ChatOk [Some PyStr.empty]))
         (Sample.request "tell me a joke") Sample.fresh =
  (Ok (AnswerBody "Here's what I found for you:" [], 200),
   mkWorld [Analytics.llm_failure_entry "2024-01-01T00:00:00"
              "llm_selection_error" "Empty response from AI model" "chromadb_direct";
            Analytics.query_entry "2024-01-01T00:00:00" "tell me a joke" "success" 0 12 None]
           [CallQuery "tell me a joke" 5;
            CallChat (prompt_select "tell me a joke"
                        (PyStr.join (PyStr.nl ++ PyStr.nl) (numbered_jokes 0 ["no such joke"])));
            CallQuery "tell me a joke" 3]) /\
  ask_ai (MoreSamples.interpreter (Some Sample.corpus)
            (Sample.index_ok [format_joke Sample.atom])
            (Sample.model_says ("1," ++ MoreSamples.superscript_two)))
         (Sample.request "tell me a joke") Sample.fresh =
  (Ok (AnswerBody "Here's what I found for you:" [Sample.atom], 200),
   mkWorld [Analytics.llm_failure_entry "2024-01-01T00:00:00" "llm_selection_error"
              ("invalid literal for int() with base 10: '" ++ MoreSamples.superscript_two ++ "'")
              "chromadb_direct";
            Analytics.query_entry "2024-01-01T00:00:00" "tell me a joke" "success" 1 12 None]
           [CallQuery "tell me a joke" 5;
            CallChat (prompt_select "tell me a joke"
                        (PyStr.join (PyStr.nl ++ PyStr.nl)
                           (numbered_jokes 0 [format_joke Sample.atom])));
            CallQuery "tell me a joke" 3]).
Proof.
  split; [|split].
  3:{ refine (proj2 (proj2 (llm_failure_falls_back_to_index
              (MoreSamples.interpreter (Some Sample.corpus)
                 (Sample.index_ok [format_joke Sample.atom])
                 (Sample.model_says ("1," ++ MoreSamples.superscript_two)))
              (Sample.request "tell me a joke") "tell me a joke"
              ("invalid literal for int() with base 10: '" ++ MoreSamples.superscript_two ++ "'")
              [format_joke Sample.atom] Sample.fresh
              (mkWorld []
                 [CallQuery "tell me a joke" 5;
                  CallChat (prompt_select "tell me a joke"
                              (PyStr.join (PyStr.nl ++ PyStr.nl)
                                 (numbered_jokes 0 [format_joke Sample.atom])))])
              _ _ _ _ _))).
      - apply reaches_branches_intro; [reflexivity|discriminate|reflexivity|discriminate].
      - reflexivity.
      - reflexivity.
      - reflexivity.
      - reflexivity. }
  - refine (proj2 (proj2 (llm_failure_falls_back_to_index
              (Sample.mk (Some Sample.corpus)
                 (Sample.index_ok [format_joke Sample.atom; "no such joke"]) Sample.model_timeout)
              (Sample.request "tell me a joke") "tell me a joke" "Request timed out."
              [format_joke Sample.atom; "no such joke"] Sample.fresh
              (mkWorld []
                 [CallQuery "tell me a joke" 5;
                  CallChat (prompt_select "tell me a joke"
                              (PyStr.join (PyStr.nl ++ PyStr.nl)
                                 (numbered_jokes 0 [format_joke Sample.atom; "no such joke"])))])
              _ _ _ _ _))).
    + apply reaches_branches_intro; [reflexivity|discriminate|reflexivity|discriminate].
    + reflexivity.
    + reflexivity.
    + reflexivity.
    + reflexivity.
  - refine (proj2 (proj2 (llm_failure_falls_back_to_index
              (Sample.mk (Some Sample.corpus) (Sample.index_ok ["no such joke"])
                 (fun _ => ChatOk [Some PyStr.empty]))
              (Sample.request "tell me a joke") "tell me a joke" "Empty response from AI model"
              ["no such joke"] Sample.fresh
              (mkWorld []
                 [CallQuery "tell me a joke" 5;
                  CallChat (prompt_select "tell me a joke"
                              (PyStr.join (PyStr.nl ++ PyStr.nl)
                                 (numbered_jokes 0 ["no such joke"])))])
              _ _ _ _ _))).
    + apply reaches_branches_intro; [reflexivity|discriminate|reflexivity|discriminate].
    + reflexivity.
    + reflexivity.
    + reflexivity.
    + reflexivity.
Defined.

(** C8. In the recommendation branch, when the [try] raises and the
    second query of the index raises too, the log gains the
    [llm_failure] entry and then a query entry with outcome [error], the
    text of the second exception and count 0, and the reply is the fixed
    "I'm having trouble processing your request. Here's a random joke
    instead:" with one record, the one at the position the generator
    draws below the size of the corpus, or with no record when the
    corpus handed to the branch is empty.  When [ask_ai] reaches the
    branch, that reply is the reply of the endpoint. *)
Theorem fallback_failure_gives_random_joke (env : Env) (user_message : string)
    (all_jokes : list Joke) (llm_error fallback_error : Exn) (w w1 : World) :
  recommend_try env user_message all_jokes w = (Raised llm_error, w1) ->
  collection_query env user_message 3 = SearchRaise fallback_error ->
  (all_jokes <> [] -> randbelow env (length all_jokes) < length all_jokes) ->
  let t := length (logs w) in
  exists chosen,
    recommendation_branch env user_message all_jokes w =
    (Ok (AnswerBody
           "I'm having trouble processing your request. Here's a random joke instead:"
           chosen, 200),
     mkWorld (logs w ++
              [Analytics.llm_failure_entry (now_isoformat env t)
                 "llm_selection_error" llm_error "chromadb_direct";
               Analytics.query_entry (now_isoformat env (t + 1))
                 user_message "error" 0 (elapsed_ms env) (Some fallback_error)])
             (calls w1 ++ [CallQuery user_message 3])) /\
    (all_jokes = [] -> chosen = []) /\
    (all_jokes <> [] ->
     exists j, chosen = [j] /\
               nth_error all_jokes (randbelow env (length all_jokes)) = Some j) /\
    (forall data,
       reaches_branches env data user_message ->
       is_counting user_message = false ->
       is_existence user_message = false ->
       all_jokes = load_jokes env ->
       ask_ai env data w = recommendation_branch env user_message all_jokes w).
Proof.
  intros Ht Hq Hdraw t.
  assert (forall r w' data,
            recommendation_branch env user_message all_jokes w = (Ok r, w') ->
            reaches_branches env data user_message ->
            is_counting user_message = false ->
            is_existence user_message = false ->
            all_jokes = load_jokes env ->
            ask_ai env data w = recommendation_branch env user_message all_jokes w) as Hask.
  { intros r w' data Hrun Hr Hc He Hall. rewrite Hrun. subst all_jokes.
    rewrite (ask_ai_branch env data user_message w Hr), Hc, He.
    now apply try_except_ok. }
  revert Hask.
  unfold recommendation_branch. rewrite (try_except_raised _ _ _ _ _ Ht).
  rewrite (recommend_except_raised env user_message all_jokes llm_error fallback_error w1 Hq).
  rewrite (recommend_try_raised_logs env user_message all_jokes w w1 llm_error Ht). fold t.
  destruct all_jokes as [|j0 rest] eqn:Hall.
  - intros Hask. exists []. split; [reflexivity|]. split; [reflexivity|].
    split; [congruence|]. intros data. exact (Hask _ _ data eq_refl).
  - destruct (nth_error (j0 :: rest) (randbelow env (length (j0 :: rest)))) as [j|] eqn:Hn.
    + intros Hask. exists [j]. split; [reflexivity|]. split; [discriminate|].
      split; [intros _; now exists j|]. intros data. exact (Hask _ _ data eq_refl).
    + apply nth_error_None in Hn.
      assert (j0 :: rest <> []) as Hne by discriminate.
      specialize (Hdraw Hne). lia.
Qed.

Lemma fallback_failure_gives_random_joke_witness :
  (exists chosen,
     recommendation_branch
       (Sample.mk (Some Sample.corpus) (Sample.index_then_down ["x"]) Sample.model_timeout)
       "tell me a joke" Sample.corpus Sample.fresh =
     (Ok (AnswerBody random_joke_response chosen, 200),
      mkWorld [Analytics.llm_failure_entry "2024-01-01T00:00:00"
                 "llm_selection_error" "Request timed out." "chromadb_direct";
               Analytics.query_entry "2024-01-01T00:00:00" "tell me a joke" "error" 0 12
                 (Some "connection refused")]
              [CallQuery "tell me a joke" 5;
               CallChat (prompt_select "tell me a joke"
                           (PyStr.join (PyStr.nl ++ PyStr.nl) (numbered_jokes 0 ["x"])));
               CallQuery "tell me a joke" 3]) /\
     (Sample.corpus = [] -> chosen = []) /\
     (Sample.corpus <> [] ->
      exists j, chosen = [j] /\ nth_error Sample.corpus 2 = Some j) /\
     (forall data,
        reaches_branches
          (Sample.mk (Some Sample.corpus) (Sample.index_then_down ["x"]) Sample.model_timeout)
          data "tell me a joke" ->
        is_counting "tell me a joke" = false ->
        is_existence "tell me a joke" = false ->
        Sample.corpus = Sample.corpus ->
        ask_ai (Sample.mk (Some Sample.corpus) (Sample.index_then_down ["x"])
                  Sample.model_timeout)
          data Sample.fresh =
        recommendation_branch
          (Sample.mk (Some Sample.corpus) (Sample.index_then_down ["x"]) Sample.model_timeout)
          "tell me a joke" Sample.corpus Sample.fresh)) /\
  (exists chosen,
     recommendation_branch (Sample.mk (Some []) Sample.index_down Sample.model_timeout)
       "tell me a joke" [] Sample.fresh =
     (Ok (AnswerBody random_joke_response chosen, 200),
      mkWorld [Analytics.llm_failure_entry "2024-01-01T00:00:00"
                 "llm_selection_error" "connection refused" "chromadb_direct";
               Analytics.query_entry "2024-01-01T00:00:00" "tell me a joke" "error" 0 12
                 (Some "connection refused")]
              [CallQuery "tell me a joke" 5; CallQuery "tell me a joke" 3]) /\
     (@nil Joke = [] -> chosen = []) /\
     (@nil Joke <> [] ->
      exists j, chosen = [j] /\ nth_error (@nil Joke) 2 = Some j) /\
     (forall data,
        reaches_branches (Sample.mk (Some []) Sample.index_down Sample.model_timeout)
          data "tell me a joke" ->
        is_counting "tell me a joke" = false ->
        is_existence "tell me a joke" = false ->
        @nil Joke = [] ->
        ask_ai (Sample.mk (Some []) Sample.index_down Sample.model_timeout) data Sample.fresh =
        recommendation_branch (Sample.mk (Some []) Sample.index_down Sample.model_timeout)
          "tell me a joke" [] Sample.fresh)).
Proof.
  split.
  - refine (fallback_failure_gives_random_joke
              (Sample.mk (Some Sample.corpus) (Sample.index_then_down ["x"]) Sample.model_timeout)
              "tell me a joke" Sample.corpus "Request timed out." "connection refused"
              Sample.fresh
              (mkWorld []
                 [CallQuery "tell me a joke" 5;
                  CallChat (prompt_select "tell me a joke"
                              (PyStr.join (PyStr.nl ++ PyStr.nl) (numbered_jokes 0 ["x"])))])
              _ _ _).
    + reflexivity.
    + reflexivity.
    + intros _. vm_compute. lia.
  - refine (fallback_failure_gives_random_joke
              (Sample.mk (Some []) Sample.index_down Sample.model_timeout)
              "tell me a joke" [] "connection refused" "connection refused"
              Sample.fresh (mkWorld [] [CallQuery "tell me a joke" 5]) _ _ _).
    + reflexivity.
    + reflexivity.
    + intros H. now contradiction H.
Defined.

(** ** Query entries per request *)

Lemma counting_branch_events (env : Env) (user_message : string) (all_jokes : list Joke)
    (w : World) :
  exists r w',
    counting_branch env user_message all_jokes w = (Ok r, w') /\
    Analytics.count_query_events (logs w') = Analytics.count_query_events (logs w) + 1.
Proof.
  destruct (extract_topic_total env user_message all_jokes w) as (topic & w1 & Ht & Hl & _).
  rewrite (counting_branch_run env user_message topic all_jokes w w1 Ht Hl).
  destruct (0 <? _); do 2 eexists; (split; [reflexivity|]);
    cbn [logs]; apply count_query_events_query.
Qed.

(** An existence question, answered without a query entry, and a
    request that finds the corpus empty, answered with the 500 error
    object without one either: not every request with a message that is
    not empty writes one query entry. *)
Lemma existence_request_writes_no_query_entry :
  (has_message (Sample.request "Do you have any cat jokes?") "Do you have any cat jokes?" /\
   let r := ask_ai (Sample.mk (Some Sample.corpus) (Sample.index_ok [format_joke Sample.cat])
                      Sample.model_timeout)
              (Sample.request "Do you have any cat jokes?") Sample.fresh in
   fst r = Ok (AnswerBody "Yes, I found 1 joke matching your query. Here are some examples:"
                 [Sample.cat], 200) /\
   Analytics.count_query_events (logs (snd r)) <>
   Analytics.count_query_events (logs Sample.fresh) + 1) /\
  (has_message (Sample.request "tell me a joke") "tell me a joke" /\
   let r := ask_ai (Sample.mk None (Sample.index_ok []) Sample.model_timeout)
              (Sample.request "tell me a joke") Sample.fresh in
   fst r = Ok (ErrorBody "No jokes available in the collection", 500) /\
   Analytics.count_query_events (logs (snd r)) <>
   Analytics.count_query_events (logs Sample.fresh) + 1).
Proof.
  split; (split; [split; [reflexivity|discriminate]|]);
    cbv zeta; (split; [reflexivity|vm_compute; discriminate]).
Qed.

(** C3, amended. A request whose message is a text that is not empty
    appends exactly one query entry to the log when the safety filter
    blocks it, and when it is not blocked, finds a corpus that is not
    empty and is handled by the counting branch or by the recommendation
    branch, whatever the outcome there.  When it is not blocked and finds
    the corpus empty, it is answered with status 500 and appends no
    entry. *)
Theorem one_query_entry_outside_existence (env : Env) (data : Dict) (user_message : string)
    (w : World) :
  has_message data user_message ->
  (denylisted user_message \/
   (~ denylisted user_message /\ load_jokes env <> [] /\
    (is_counting user_message = true \/ is_existence user_message = false)) ->
   Analytics.count_query_events (logs (snd (ask_ai env data w))) =
   Analytics.count_query_events (logs w) + 1) /\
  (~ denylisted user_message -> load_jokes env = [] ->
   reply_status (ask_ai env data w) = Some 500 /\
   logs (snd (ask_ai env data w)) = logs w).
Proof.
  intros Hm. split.
  2:{ intros Hd Hc. rewrite (ask_ai_message env data user_message w Hm).
      apply not_denylisted_iff in Hd.
      unfold try_except, ask_ai_try. rewrite Hd, Hc. split; reflexivity. }
  intros [Hd|(Hd & Hc & Hb)].
  - rewrite (ask_ai_message env data user_message w Hm).
    apply denylisted_iff in Hd.
    unfold try_except, ask_ai_try. rewrite Hd.
    unfold bind. rewrite log_query_run. cbn [ret snd logs].
    apply count_query_events_query.
  - assert (reaches_branches env data user_message) as Hr by (repeat split; try apply Hm; auto).
    rewrite (ask_ai_branch env data user_message w Hr). unfold try_except.
    destruct (is_counting user_message) eqn:Hcount.
    + destruct (counting_branch_events env user_message (load_jokes env) w)
        as (r & w' & Hrun & Hn).
      now rewrite Hrun.
    + destruct Hb as [Hb|Hb]; [discriminate|]. rewrite Hb.
      pose proof (recommendation_branch_events env user_message (load_jokes env) w) as Hn.
      destruct (recommendation_branch env user_message (load_jokes env) w) as [[r|e] w'];
        exact Hn.
Qed.

Lemma one_query_entry_outside_existence_witness :
  Analytics.count_query_events
    (logs (snd (ask_ai (Sample.mk (Some Sample.corpus) (Sample.index_then_down ["x"])
                          Sample.model_timeout)
                  (Sample.request "tell me a joke") Sample.fresh))) =
  Analytics.count_query_events (logs Sample.fresh) + 1.
Proof.
  refine (proj1 (one_query_entry_outside_existence
            (Sample.mk (Some Sample.corpus) (Sample.index_then_down ["x"]) Sample.model_timeout)
            (Sample.request "tell me a joke") "tell me a joke" Sample.fresh _) _).
  - split; [reflexivity|discriminate].
  - right. split; [apply not_denylisted_iff; reflexivity|].
    split; [discriminate|]. right. reflexivity.
Defined.

(** ** The reconciler *)

(** Two records of a corpus with the same derived text: reconciling the
    text of the later one gives the earlier one. *)
Lemma reconcile_misses_later_duplicate :
  In Sample.cat_again Sample.corpus /\
  format_joke Sample.cat_again = format_joke Sample.cat /\
  reconcile (format_joke Sample.cat_again) Sample.corpus = Some Sample.cat /\
  reconcile (format_joke Sample.cat_again) Sample.corpus <> Some Sample.cat_again.
Proof.
  split; [cbn; tauto|]. split; [reflexivity|]. split; [reflexivity|].
  vm_compute. discriminate.
Qed.

(** C4, amended. The derived text of a record is its joke field for
    kind single and its setup and delivery joined by one blank for kind
    twopart.  Reconciling the derived text of a record of the corpus
    gives the first record of the corpus with that derived text, compared
    as it is; it gives the record itself when no other record of the
    corpus has the same derived text. *)
Theorem reconcile_own_text (corpus : list Joke) (r : Joke) :
  In r corpus ->
  (type r = Some "single" -> format_joke r = get_or_empty (joke r)) /\
  (type r = Some "twopart" ->
   format_joke r = get_or_empty (setup r) ++ " " ++ get_or_empty (delivery r)) /\
  exists first before after,
    reconcile (format_joke r) corpus = Some first /\
    append_first_match (format_joke r) corpus [] = [first] /\
    corpus = (before ++ first :: after)%list /\
    format_joke first = format_joke r /\
    (forall j, In j before -> format_joke j <> format_joke r) /\
    ((forall j, In j corpus -> format_joke j = format_joke r -> j = r) -> first = r).
Proof.
  intros Hin.
  split; [intros Ht; unfold format_joke, type_is; now rewrite Ht|].
  split; [intros Ht; unfold format_joke, type_is; now rewrite Ht|].
  assert (exists first before after,
            reconcile (format_joke r) corpus = Some first /\
            corpus = (before ++ first :: after)%list /\
            format_joke first = format_joke r /\
            (forall j, In j before -> format_joke j <> format_joke r)) as H.
  { unfold reconcile. induction corpus as [|j rest IH]; [contradiction|].
    cbn [find]. destruct (String.eqb (format_joke j) (format_joke r)) eqn:E.
    - apply String.eqb_eq in E. exists j, [], rest.
      split; [reflexivity|]. split; [reflexivity|]. split; [exact E|].
      intros x [].
    - apply String.eqb_neq in E. destruct Hin as [->|Hin]; [congruence|].
      destruct (IH Hin) as (first & before & after & Hf & Hs & Ht & Hb).
      exists first, (j :: before), after.
      split; [exact Hf|]. split; [now rewrite Hs|]. split; [exact Ht|].
      intros x [<-|Hx]; auto. }
  destruct H as (first & before & after & Hf & Hs & Ht & Hb).
  exists first, before, after.
  split; [exact Hf|].
  split; [rewrite append_first_match_reconcile, Hf; reflexivity|].
  split; [exact Hs|]. split; [exact Ht|]. split; [exact Hb|].
  intros Huniq. apply Huniq; [|exact Ht].
  rewrite Hs. apply in_or_app. right. now left.
Qed.

Lemma reconcile_own_text_witness :
  exists first before after,
    reconcile (format_joke Sample.atom) Sample.corpus = Some first /\
    append_first_match (format_joke Sample.atom) Sample.corpus [] = [first] /\
    Sample.corpus = (before ++ first :: after)%list /\
    format_joke first = format_joke Sample.atom /\
    (forall j, In j before -> format_joke j <> format_joke Sample.atom) /\
    ((forall j, In j Sample.corpus -> format_joke j = format_joke Sample.atom -> j = Sample.atom) ->
     first = Sample.atom).
Proof.
  refine (proj2 (proj2 (reconcile_own_text Sample.corpus Sample.atom _))).
  cbn. tauto.
Defined.

(** ** The feedback endpoint *)

(** A request whose rating is the number 0: the field is there, and the
    reply is the 400 error. *)
Lemma zero_rating_is_rejected :
  dict_lookup [("query_id", JStr "q1"); ("rating", JNum 0)] "rating" = Some (JNum 0) /\
  submit_feedback (Sample.mk (Some Sample.corpus) Sample.index_down Sample.model_timeout)
    [("query_id", JStr "q1"); ("rating", JNum 0)] Sample.fresh =
  (Ok (ErrorBody "Rating is required", 400), Sample.fresh).
Proof. split; reflexivity. Qed.

(** C9, amended. The feedback endpoint answers 400 exactly when the
    rating is missing or has a false truth value (null, false, 0, the
    empty text, list or object), and then logs nothing; with any other
    rating it appends one feedback entry holding the query id (null when
    absent), the rating and the comment (the empty text when absent) and
    answers with success.  A request to the ask endpoint whose message is
    missing or has a false truth value is answered 400 and logs nothing
    either. *)
Theorem feedback_needs_truthy_rating (env : Env) (data : Dict) (w : World) :
  let rating := dict_get data "rating" JNull in
  (dict_lookup data "rating" = None -> truthy rating = false) /\
  (truthy rating = false ->
   submit_feedback env data w = (Ok (ErrorBody "Rating is required", 400), w)) /\
  (truthy rating = true ->
   submit_feedback env data w =
   (Ok (FeedbackBody true "Thank you for your feedback!", 200),
    mkWorld (logs w ++
             [Analytics.feedback_entry (now_isoformat env (length (logs w)))
                (dict_get data "query_id" JNull) rating
                (dict_get data "comment" (JStr EmptyString))])
            (calls w))) /\
  (reply_status (submit_feedback env data w) = Some 400 <-> truthy rating = false) /\
  (truthy (dict_get data "message" (JStr EmptyString)) = false ->
   ask_ai env data w = (Ok (ErrorBody "No message provided", 400), w)).
Proof.
  intros rating.
  assert (truthy rating = false ->
          submit_feedback env data w = (Ok (ErrorBody "Rating is required", 400), w)) as Hfalse.
  { intros H. unfold submit_feedback. fold rating. now rewrite H. }
  assert (truthy rating = true ->
          submit_feedback env data w =
          (Ok (FeedbackBody true "Thank you for your feedback!", 200),
           mkWorld (logs w ++
                    [Analytics.feedback_entry (now_isoformat env (length (logs w)))
                       (dict_get data "query_id" JNull) rating
                       (dict_get data "comment" (JStr EmptyString))])
                   (calls w))) as Htrue.
  { intros H. unfold submit_feedback. fold rating. rewrite H. cbn [negb].
    unfold bind. now rewrite log_feedback_run. }
  split; [|split; [exact Hfalse|split; [exact Htrue|split]]].
  - intros H. unfold rating, dict_get. now rewrite H.
  - destruct (truthy rating) eqn:E.
    + rewrite (Htrue eq_refl). cbn. split; discriminate.
    + rewrite (Hfalse eq_refl). cbn. split; reflexivity.
  - intros H. unfold ask_ai. now rewrite H.
Qed.

Lemma feedback_needs_truthy_rating_witness :
  submit_feedback (Sample.mk (Some Sample.corpus) Sample.index_down Sample.model_timeout)
    [("query_id", JStr "q1"); ("rating", JNum 5)] Sample.fresh =
  (Ok (FeedbackBody true "Thank you for your feedback!", 200),
   mkWorld [Analytics.feedback_entry "2024-01-01T00:00:00" (JStr "q1") (JNum 5)
              (JStr PyStr.empty)] []).
Proof.
  refine (proj1 (proj2 (proj2 (feedback_needs_truthy_rating
            (Sample.mk (Some Sample.corpus) Sample.index_down Sample.model_timeout)
            [("query_id", JStr "q1"); ("rating", JNum 5)] Sample.fresh))) _).
  reflexivity.
Defined.

(** ** The readers of the log *)

Section SliceFacts.

Context {A : Type}.

Lemma slice_from_last (limit : Z) (l : list A) :
  (0 < limit)%Z -> slice_from (- limit) l = skipn (length l - Z.to_nat limit) l.
Proof.
  intros H. unfold slice_from.
  destruct (Z.ltb_spec (- limit) 0); [|lia].
  f_equal. lia.
Qed.

Lemma slice_from_drop (limit : Z) (l : list A) :
  (limit <= 0)%Z -> slice_from (- limit) l = skipn (Z.to_nat (- limit)) l.
Proof.
  intros H. unfold slice_from.
  destruct (Z.ltb_spec (- limit) 0); [lia|].
  destruct (Z.le_gt_cases (- limit) (Z.of_nat (length l))) as [Hle|Hgt].
  - now rewrite Z.min_l.
  - rewrite Z.min_r by lia. rewrite Nat2Z.id.
    rewrite !skipn_all2; [reflexivity|lia|lia].
Qed.

Lemma slice_from_suffix (start : Z) (l : list A) :
  exists before, l = (before ++ slice_from start l)%list.
Proof.
  unfold slice_from. eexists. symmetry. apply firstn_skipn.
Qed.

Lemma skipn_keeps_last (k : nat) (l : list A) (x : A) :
  0 < k -> exists before, skipn (length (l ++ [x]) - k) (l ++ [x]) = (before ++ [x])%list.
Proof.
  intros H. rewrite length_app. cbn [length].
  rewrite skipn_app.
  replace (length l + 1 - k - length l) with 0 by lia.
  now exists (skipn (length l + 1 - k) l).
Qed.

End SliceFacts.

Lemma is_failed_query_entry (ts m t : string) (n : nat) (ms : Z) (err : option string) :
  AnalyticsReports.is_failed_query (Analytics.query_entry ts m t n ms err) =
  (String.eqb t "error" || String.eqb t "no_results").
Proof. reflexivity. Qed.

(** X1. With a positive limit, the report of failed queries is the last
    [limit] entries, in the order of the log, among the query entries
    whose outcome is [error] or [no_results]; a log file that cannot be
    read gives the empty report. *)
Theorem failed_queries_are_the_last_failed (logs : list Dict) (limit : Z) :
  (0 < limit)%Z ->
  let failed := filter AnalyticsReports.is_failed_query logs in
  let report := AnalyticsReports.get_failed_queries (Some logs) limit in
  report = skipn (length failed - Z.to_nat limit) failed /\
  length report = Nat.min (length failed) (Z.to_nat limit) /\
  (forall log, In log report ->
     In log logs /\
     is_str (dict_lookup log "event_type") "query" = true /\
     (is_str (dict_lookup log "response_type") "error" = true \/
      is_str (dict_lookup log "response_type") "no_results" = true)) /\
  AnalyticsReports.get_failed_queries None limit = [].
Proof.
  intros H failed report.
  assert (report = skipn (length failed - Z.to_nat limit) failed) as Hr.
  { unfold report, AnalyticsReports.get_failed_queries. now apply slice_from_last. }
  split; [exact Hr|]. split; [rewrite Hr, length_skipn; lia|]. split; [|reflexivity].
  intros log Hin. rewrite Hr in Hin.
  assert (In log failed) as Hf.
  { rewrite <- (firstn_skipn (length failed - Z.to_nat limit) failed).
    apply in_or_app. now right. }
  apply filter_In in Hf. destruct Hf as [Hl Ht]. split; [exact Hl|].
  unfold AnalyticsReports.is_failed_query in Ht.
  apply andb_true_iff in Ht. destruct Ht as [Hq Ho].
  apply orb_true_iff in Ho. now split.
Qed.

Lemma failed_queries_are_the_last_failed_witness :
  AnalyticsReports.get_failed_queries
    (Some [MoreSamples.no_results_entry; MoreSamples.text_feedback;
           Analytics.query_entry "t4" "a" "error" 0 3 (Some "boom");
           Analytics.query_entry "t5" "b" "success" 2 3 None]) 1 =
  [Analytics.query_entry "t4" "a" "error" 0 3 (Some "boom")].
Proof.
  refine (proj1 (failed_queries_are_the_last_failed
            [MoreSamples.no_results_entry; MoreSamples.text_feedback;
             Analytics.query_entry "t4" "a" "error" 0 3 (Some "boom");
             Analytics.query_entry "t5" "b" "success" 2 3 None] 1 _)).
  lia.
Defined.

(** X2. A limit that is not positive does not empty the report of
    failed queries: a limit of 0 returns every failed query, and a limit
    of -k returns all but the first k. *)
Theorem failed_queries_without_positive_limit (logs : list Dict) (limit : Z) :
  (limit <= 0)%Z ->
  let failed := filter AnalyticsReports.is_failed_query logs in
  AnalyticsReports.get_failed_queries (Some logs) limit = skipn (Z.to_nat (- limit)) failed /\
  (limit = 0%Z -> AnalyticsReports.get_failed_queries (Some logs) limit = failed).
Proof.
  intros H failed.
  assert (AnalyticsReports.get_failed_queries (Some logs) limit =
          skipn (Z.to_nat (- limit)) failed) as Hr.
  { unfold AnalyticsReports.get_failed_queries. now apply slice_from_drop. }
  split; [exact Hr|]. intros ->. exact Hr.
Qed.

Lemma failed_queries_without_positive_limit_witness :
  AnalyticsReports.get_failed_queries
    (Some [MoreSamples.no_results_entry; MoreSamples.text_feedback;
           Analytics.query_entry "t4" "a" "error" 0 3 (Some "boom")]) 0 =
  [MoreSamples.no_results_entry; Analytics.query_entry "t4" "a" "error" 0 3 (Some "boom")].
Proof.
  refine (proj2 (failed_queries_without_positive_limit
            [MoreSamples.no_results_entry; MoreSamples.text_feedback;
             Analytics.query_entry "t4" "a" "error" 0 3 (Some "boom")] 0 _) _).
  - lia.
  - reflexivity.
Defined.

(** X3. A query logged with outcome [error] or [no_results] is the last
    entry of the next report of failed queries, whatever the positive
    limit; a query logged with any other outcome leaves the report as it
    was. *)
Theorem logged_failure_is_reported_last (env : Env) (user_message response_type : string)
    (jokes_returned : nat) (ms : Z) (error : option string) (w : World) (limit : Z) :
  (0 < limit)%Z ->
  let w' := snd (Analytics.log_query env user_message response_type jokes_returned ms error w) in
  let entry := Analytics.query_entry (now_isoformat env (length (logs w)))
                 user_message response_type jokes_returned ms error in
  (response_type = "error" \/ response_type = "no_results" ->
   exists before,
     AnalyticsReports.get_failed_queries (Some (logs w')) limit = (before ++ [entry])%list) /\
  (response_type <> "error" -> response_type <> "no_results" ->
   AnalyticsReports.get_failed_queries (Some (logs w')) limit =
   AnalyticsReports.get_failed_queries (Some (logs w)) limit).
Proof.
  intros H w' entry.
  assert (logs w' = (logs w ++ [entry])%list) as Hw by reflexivity.
  assert (filter AnalyticsReports.is_failed_query (logs w') =
          (filter AnalyticsReports.is_failed_query (logs w) ++
           (if (String.eqb response_type "error" || String.eqb response_type "no_results")%bool
            then [entry] else []))%list) as Hf.
  { rewrite Hw, filter_app. cbn [filter]. unfold entry.
    now rewrite is_failed_query_entry. }
  unfold AnalyticsReports.get_failed_queries. rewrite Hf.
  split.
  - intros Ht.
    assert ((String.eqb response_type "error" || String.eqb response_type "no_results")%bool
            = true) as E.
    { destruct Ht as [-> | ->]; reflexivity. }
    rewrite E. rewrite slice_from_last by exact H.
    apply skipn_keeps_last. lia.
  - intros He Hn.
    apply String.eqb_neq in He. apply String.eqb_neq in Hn. rewrite He, Hn. cbn [orb].
    now rewrite app_nil_r.
Qed.

Lemma logged_failure_is_reported_last_witness :
  exists before,
    AnalyticsReports.get_failed_queries
      (Some (logs (snd (Analytics.log_query
                          (Sample.mk None Sample.index_down Sample.model_timeout)
                          "tell me a joke" "no_results" 0 7 None
                          (mkWorld [MoreSamples.stars 1] []))))) 20 =
    (before ++ [Analytics.query_entry "2024-01-01T00:00:00" "tell me a joke"
                  "no_results" 0 7 None])%list.
Proof.
  refine (proj1 (logged_failure_is_reported_last
            (Sample.mk None Sample.index_down Sample.model_timeout)
            "tell me a joke" "no_results" 0 7 None (mkWorld [MoreSamples.stars 1] []) 20 _) _).
  - lia.
  - now right.
Defined.

Lemma low_rated_app (l1 l2 : list Dict) (threshold : Z) :
  AnalyticsReports.low_rated (l1 ++ l2) threshold =
  match AnalyticsReports.low_rated l1 threshold with
  | Ok found1 =>
      match AnalyticsReports.low_rated l2 threshold with
      | Ok found2 => Ok (found1 ++ found2)%list
      | Raised e => Raised e
      end
  | Raised e => Raised e
  end.
Proof.
  induction l1 as [|log rest IH]; cbn [app AnalyticsReports.low_rated].
  - now destruct (AnalyticsReports.low_rated l2 threshold).
  - destruct (is_str (dict_lookup log "event_type") "feedback"); [|exact IH].
    destruct (le_int _ threshold) as [keep|e]; [|reflexivity].
    rewrite IH. destruct (AnalyticsReports.low_rated rest threshold) as [f1|e]; [|reflexivity].
    destruct (AnalyticsReports.low_rated l2 threshold) as [f2|e]; [|reflexivity].
    now destruct keep.
Qed.

Lemma low_rated_feedback_entry (ts : string) (query_id rating comment : JVal) (threshold : Z) :
  AnalyticsReports.low_rated [Analytics.feedback_entry ts query_id rating comment] threshold =
  match le_int rating threshold with
  | Ok keep => Ok (if keep then [Analytics.feedback_entry ts query_id rating comment] else [])
  | Raised e => Raised e
  end.
Proof. cbn. now destruct (le_int rating threshold). Qed.

Lemma submit_feedback_logs (env : Env) (data : Dict) (rating : JVal) (w : World) :
  dict_lookup data "rating" = Some rating ->
  truthy rating = true ->
  submit_feedback env data w =
  (Ok (FeedbackBody true "Thank you for your feedback!", 200),
   mkWorld (logs w ++
            [Analytics.feedback_entry (now_isoformat env (length (logs w)))
               (dict_get data "query_id" JNull) rating
               (dict_get data "comment" (JStr EmptyString))])
           (calls w)).
Proof.
  intros Hr Ht. unfold submit_feedback.
  assert (dict_get data "rating" JNull = rating) as E by (unfold dict_get; now rewrite Hr).
  rewrite E, Ht. cbn [negb]. unfold bind. now rewrite log_feedback_run.
Qed.

(** X4. The feedback endpoint accepts a rating that is not a number (a
    text such as "up", a list, an object).  Once such a feedback is
    logged, the report of low-satisfaction queries raises a [TypeError]
    for every threshold and limit, and keeps raising whatever is logged
    afterwards. *)
Theorem text_rating_breaks_low_satisfaction (env : Env) (data : Dict) (rating : JVal)
    (w : World) :
  dict_lookup data "rating" = Some rating ->
  truthy rating = true ->
  as_number rating = None ->
  exists w',
    submit_feedback env data w =
    (Ok (FeedbackBody true "Thank you for your feedback!", 200), w') /\
    (exists e, get_low_satisfaction w' = Raised e) /\
    (forall later threshold limit,
       exists e,
         AnalyticsReports.get_low_satisfaction_queries (Some (logs w' ++ later)%list) threshold limit
         = Raised e).
Proof.
  intros Hr Ht Hn. eexists. split; [exact (submit_feedback_logs env data rating w Hr Ht)|].
  cbn [logs].
  assert (forall later threshold limit,
            exists e,
              AnalyticsReports.get_low_satisfaction_queries
                (Some ((logs w ++
                        [Analytics.feedback_entry (now_isoformat env (length (logs w)))
                           (dict_get data "query_id" JNull) rating
                           (dict_get data "comment" (JStr EmptyString))]) ++ later)%list)
                threshold limit = Raised e) as H.
  { intros later threshold limit. unfold AnalyticsReports.get_low_satisfaction_queries.
    rewrite !low_rated_app, low_rated_feedback_entry.
    unfold le_int. rewrite Hn.
    destruct (AnalyticsReports.low_rated (logs w) threshold); eexists; reflexivity. }
  split; [|exact H].
  destruct (H [] 2%Z 20%Z) as [e He]. exists e.
  unfold get_low_satisfaction. cbn [logs]. now rewrite app_nil_r in He.
Qed.

Lemma text_rating_breaks_low_satisfaction_witness :
  exists w',
    submit_feedback (Sample.mk None Sample.index_down Sample.model_timeout)
      [("query_id", JStr "q1"); ("rating", JStr "up")] Sample.fresh =
    (Ok (FeedbackBody true "Thank you for your feedback!", 200), w') /\
    (exists e, get_low_satisfaction w' = Raised e) /\
    (forall later threshold limit,
       exists e,
         AnalyticsReports.get_low_satisfaction_queries (Some (logs w' ++ later)%list) threshold limit
         = Raised e).
Proof.
  refine (text_rating_breaks_low_satisfaction
            (Sample.mk None Sample.index_down Sample.model_timeout)
            [("query_id", JStr "q1"); ("rating", JStr "up")] (JStr "up") Sample.fresh _ _ _);
    reflexivity.
Defined.

(** X5. A feedback whose rating is a number, or a boolean read as 0 or
    1, makes a round trip through the log: when the report of
    low-satisfaction queries could be computed before, it can be after,
    and for a positive limit the new feedback is its last entry when the
    rating is at most the threshold, while a rating above the threshold
    leaves the report as it was. *)
Theorem numeric_feedback_round_trip (env : Env) (data : Dict) (rating : JVal) (n : Z)
    (w : World) (found : list Dict) (threshold limit : Z) :
  dict_lookup data "rating" = Some rating ->
  truthy rating = true ->
  as_number rating = Some n ->
  AnalyticsReports.low_rated (logs w) threshold = Ok found ->
  (0 < limit)%Z ->
  let w' := snd (submit_feedback env data w) in
  let entry := Analytics.feedback_entry (now_isoformat env (length (logs w)))
                 (dict_get data "query_id" JNull) rating
                 (dict_get data "comment" (JStr EmptyString)) in
  ((n <= threshold)%Z ->
   exists before,
     AnalyticsReports.get_low_satisfaction_queries (Some (logs w')) threshold limit =
     Ok (before ++ [entry])%list) /\
  ((threshold < n)%Z ->
   AnalyticsReports.get_low_satisfaction_queries (Some (logs w')) threshold limit =
   AnalyticsReports.get_low_satisfaction_queries (Some (logs w)) threshold limit).
Proof.
  intros Hr Ht Hn Hf Hl w' entry.
  assert (logs w' = (logs w ++ [entry])%list) as Hw.
  { unfold w'. now rewrite (submit_feedback_logs env data rating w Hr Ht). }
  unfold AnalyticsReports.get_low_satisfaction_queries.
  rewrite Hw, low_rated_app, Hf. unfold entry. rewrite low_rated_feedback_entry.
  unfold le_int. rewrite Hn. split.
  - intros Hle. apply Z.leb_le in Hle. rewrite Hle.
    rewrite slice_from_last by exact Hl.
    destruct (skipn_keeps_last (Z.to_nat limit) found
                (Analytics.feedback_entry (now_isoformat env (length (logs w)))
                   (dict_get data "query_id" JNull) rating
                   (dict_get data "comment" (JStr EmptyString)))) as [before Hb]; [lia|].
    exists before. now rewrite Hb.
  - intros Hgt. apply Z.leb_gt in Hgt. rewrite Hgt. now rewrite app_nil_r.
Qed.

Lemma numeric_feedback_round_trip_witness :
  exists before,
    AnalyticsReports.get_low_satisfaction_queries
      (Some (logs (snd (submit_feedback (Sample.mk None Sample.index_down Sample.model_timeout)
                          [("query_id", JStr "q9"); ("rating", JBool true)]
                          (mkWorld [MoreSamples.stars 5; MoreSamples.stars 1] []))))) 2 20 =
    Ok (before ++ [Analytics.feedback_entry "2024-01-01T00:00:00" (JStr "q9") (JBool true)
                     (JStr PyStr.empty)])%list.
Proof.
  refine (proj1 (numeric_feedback_round_trip
            (Sample.mk None Sample.index_down Sample.model_timeout)
            [("query_id", JStr "q9"); ("rating", JBool true)] (JBool true) 1
            (mkWorld [MoreSamples.stars 5; MoreSamples.stars 1] [])
            [MoreSamples.stars 1] 2 20 _ _ _ _ _) _).
  - reflexivity.
  - reflexivity.
  - reflexivity.
  - reflexivity.
  - lia.
  - lia.
Defined.

(** ** What every run of the ask endpoint leaves behind *)

Section TidyRuns.

Variable env : Env.
Variable user_message : string.
Variable corpus : list Joke.

Lemma in_firstn {A : Type} (n : nat) (l : list A) (x : A) : In x (firstn n l) -> In x l.
Proof.
  intros H. rewrite <- (firstn_skipn n l). apply in_or_app. now left.
Qed.

Lemma reconcile_in (doc : string) (j : Joke) : reconcile doc corpus = Some j -> In j corpus.
Proof. unfold reconcile. intros H. now apply find_some in H. Qed.

Lemma reconcile_text (doc : string) (j : Joke) :
  reconcile doc corpus = Some j -> format_joke j = doc.
Proof.
  unfold reconcile. intros H. apply find_some in H. now apply String.eqb_eq.
Qed.

Lemma reconcile_all_in (documents : list string) :
  Forall (fun j => In j corpus) (reconcile_all documents corpus).
Proof.
  unfold reconcile_all. induction documents as [|doc rest IH]; cbn [flat_map]; [constructor|].
  apply Forall_app. split; [|exact IH].
  destruct (reconcile doc corpus) as [j|] eqn:E; cbn [found_list]; [|constructor].
  constructor; [|constructor]. now apply reconcile_in with (doc := doc).
Qed.

Lemma append_first_match_in (doc : string) (found : list Joke) :
  Forall (fun j => In j corpus) found ->
  Forall (fun j => In j corpus) (append_first_match doc corpus found).
Proof.
  intros H. rewrite append_first_match_reconcile. apply Forall_app. split; [exact H|].
  destruct (reconcile doc corpus) as [j|] eqn:E; cbn [found_list]; [|constructor].
  constructor; [|constructor]. now apply reconcile_in with (doc := doc).
Qed.

Lemma select_jokes_in (indices : list Z) (documents : list string) (found : list Joke) :
  Forall (fun j => In j corpus) found ->
  Forall (fun j => In j corpus) (select_jokes indices documents corpus found).
Proof.
  revert found. induction indices as [|idx rest IH]; intros found H; cbn [select_jokes].
  - exact H.
  - destruct (_ && _)%bool; [|now apply IH].
    destruct (nth_error documents (Z.to_nat idx)); [|now apply IH].
    apply IH. now apply append_first_match_in.
Qed.

Lemma app_entry_query (ts m t : string) (n : nat) (ms : Z) (err : option string) :
  In t response_types -> Forall app_entry [Analytics.query_entry ts m t n ms err].
Proof. intros H. constructor; [now constructor|constructor]. Qed.

(** The topic extraction with the calls it makes: the index alone when
    it raises, the index and the model otherwise. *)
Lemma extract_topic_calls (w : World) :
  exists topic w1,
    extract_topic env user_message corpus w = (Ok topic, w1) /\
    logs w1 = logs w /\
    (calls w1 = (calls w ++ [CallQuery user_message (length corpus)])%list \/
     calls w1 = (calls w ++ [CallQuery user_message (length corpus);
                             CallChat (prompt_count user_message)])%list).
Proof.
  unfold extract_topic, try_except, bind, search_jokes_by_query, chat_create, checked_content.
  destruct (collection_query env user_message (length corpus)) as [docs|e].
  2:{ do 2 eexists. split; [reflexivity|]. split; [reflexivity|now left]. }
  destruct (chat_completions_create env (prompt_count user_message)) as [choices|e];
    [destruct choices as [|[content|] rest]; [| destruct (PyStr.is_empty content) |]|];
    do 2 eexists; (split; [reflexivity|]); (split; [reflexivity|]);
    right; cbn [calls]; now rewrite <- app_assoc.
Qed.

Lemma tidy_counting (w : World) :
  tidy_world user_message corpus w (counting_branch env user_message corpus w) /\
  answer_or_raise (counting_branch env user_message corpus w).
Proof.
  destruct (extract_topic_calls w) as (topic & w1 & Ht & Hl & Hc).
  rewrite (counting_branch_run env user_message topic corpus w w1 Ht Hl).
  split; [|destruct (0 <? _); easy].
  assert (Forall (fun j => In j corpus) (firstn 3 (filter (topic_in_joke env topic) corpus)))
    as Hj.
  { apply Forall_forall. intros j Hj. apply in_firstn in Hj. now apply filter_In in Hj. }
  destruct Hc as [Hc|Hc]; destruct (0 <? _);
    (eexists; eexists; split; [reflexivity|]; split; [exact Hc|];
     split; [apply app_entry_query; cbn; tauto|];
     split; [cbn; lia|]; split; [cbn; lia|];
     split; [first [right; now left | right; right; left; now eexists]|];
     first [exact Hj | constructor]).
Qed.

Lemma tidy_existence (w : World) :
  tidy_world user_message corpus w (existence_branch env user_message corpus w) /\
  answer_or_raise (existence_branch env user_message corpus w).
Proof.
  destruct (collection_query env user_message 10) as [documents|e] eqn:Hq.
  - rewrite (existence_branch_run env user_message corpus documents w Hq).
    pose proof (reconcile_all_in (firstn 5 documents)) as Hin.
    destruct (reconcile_all (firstn 5 documents) corpus) as [|j rest] eqn:E;
      (split; [|easy]); exists [], [CallQuery user_message 10];
      (split; [cbn; now rewrite app_nil_r|]); (split; [reflexivity|]);
      (split; [constructor|]); (split; [cbn; lia|]); (split; [cbn; lia|]);
      (split; [right; right; right; now left|]).
    + constructor.
    + cbn [reply_jokes fst]. apply Forall_forall. intros x Hx.
      apply in_firstn in Hx. rewrite Forall_forall in Hin. now apply Hin.
  - rewrite (existence_branch_raised env user_message corpus e w Hq).
    split; [|easy]. exists [], [CallQuery user_message 10].
    split; [cbn; now rewrite app_nil_r|]. split; [reflexivity|].
    split; [constructor|]. split; [cbn; lia|]. split; [cbn; lia|].
    split; [right; right; right; now left|]. constructor.
Qed.

(** The [try] of the recommendation branch, with all it leaves behind. *)
Lemma recommend_try_run (w : World) :
  match recommend_try env user_message corpus w with
  | (Ok r, w') =>
      exists t n text jokes,
        r = (AnswerBody text jokes, 200) /\
        In t response_types /\
        logs w' = (logs w ++ [Analytics.query_entry (now_isoformat env (length (logs w)))
                                user_message t n (elapsed_ms env) None])%list /\
        Forall (fun j => In j corpus) jokes /\
        (calls w' = (calls w ++ [CallQuery user_message 5])%list \/
         exists prompt,
           calls w' = (calls w ++ [CallQuery user_message 5; CallChat prompt])%list)
  | (Raised e, w') =>
      logs w' = logs w /\
      (calls w' = (calls w ++ [CallQuery user_message 5])%list \/
       exists prompt,
         calls w' = (calls w ++ [CallQuery user_message 5; CallChat prompt])%list)
  end.
Proof.
  unfold recommend_try, bind, search_jokes_by_query, chat_create, checked_content, raise, ret.
  destruct (collection_query env user_message 5) as [[|first_doc rest]|e].
  - rewrite log_query_run. cbn [logs calls].
    exists "no_results", 0. do 2 eexists. split; [reflexivity|].
    split; [cbn; tauto|]. split; [reflexivity|]. split; [constructor|now left].
  - assert (forall l p, ((l ++ [CallQuery user_message 5]) ++ [CallChat p] =
                         l ++ [CallQuery user_message 5; CallChat p])%list) as Hassoc.
    { intros l p. now rewrite <- app_assoc. }
    destruct (chat_completions_create env _) as [[|[content|] more]|e]; cbn [logs calls];
      try (split; [reflexivity|right; eexists; apply Hassoc]).
    destruct (PyStr.is_empty content);
      [split; [reflexivity|right; eexists; apply Hassoc]|].
    destruct (String.eqb _ "none");
      [|destruct (joke_indices env (PyStr.strip content)) as [indices|e]];
      try rewrite log_query_run; cbn [logs calls].
    + exists "no_results", 0. do 2 eexists. split; [reflexivity|].
      split; [cbn; tauto|]. split; [reflexivity|]. split; [constructor|].
      right. eexists. apply Hassoc.
    + exists "success". do 3 eexists. split; [reflexivity|].
      split; [cbn; tauto|]. split; [reflexivity|].
      split; [|right; eexists; apply Hassoc].
      pose proof (select_jokes_in indices (first_doc :: rest) [] (Forall_nil _)) as Hs.
      destruct (select_jokes _ _ corpus []); [|exact Hs].
      apply append_first_match_in. constructor.
    + split; [reflexivity|right; eexists; apply Hassoc].
  - cbn [logs calls]. split; [reflexivity|now left].
Qed.

Lemma tidy_recommendation (w : World) :
  tidy_world user_message corpus w (recommendation_branch env user_message corpus w) /\
  answer_or_raise (recommendation_branch env user_message corpus w).
Proof.
  unfold recommendation_branch, try_except.
  pose proof (recommend_try_run w) as Hrun.
  destruct (recommend_try env user_message corpus w) as [[r|e] w1].
  - destruct Hrun as (t & n & text & jokes & -> & Ht & Hl & Hj & Hc).
    split; [|easy].
    destruct Hc as [Hc|[prompt Hc]];
      (eexists; eexists; split; [exact Hl|]; split; [exact Hc|];
       split; [now apply app_entry_query|]; split; [cbn; lia|]; split; [cbn; lia|];
       split; [|exact Hj]).
    + do 4 right. now left.
    + do 5 right. left. now exists prompt.
  - destruct Hrun as [Hl Hc].
    assert (forall t n err,
              In t response_types ->
              Forall app_entry
                [Analytics.llm_failure_entry (now_isoformat env (length (logs w1)))
                   "llm_selection_error" e "chromadb_direct";
                 Analytics.query_entry (now_isoformat env (length (logs w1) + 1))
                   user_message t n (elapsed_ms env) err]) as Hentries.
    { intros t n err Ht. constructor; [constructor|now apply app_entry_query]. }
    assert (exists new_calls,
              (calls w1 ++ [CallQuery user_message 3])%list = (calls w ++ new_calls)%list /\
              call_shapes user_message (length corpus) new_calls) as (new_calls & Hcalls & Hshape).
    { destruct Hc as [Hc|[prompt Hc]]; rewrite Hc, <- app_assoc; eexists;
        (split; [reflexivity|]).
      - do 6 right. now left.
      - do 7 right. now exists prompt. }
    destruct (collection_query env user_message 3) as [documents|e2] eqn:Hq.
    + rewrite (recommend_except_found env user_message corpus e documents w1 Hq).
      split; [|easy].
      eexists. exists new_calls. cbn [snd logs calls]. rewrite Hl.
      split; [reflexivity|]. split; [exact Hcalls|].
      split; [rewrite <- Hl; apply Hentries; cbn; tauto|].
      split; [cbn; lia|]. split; [cbn; lia|]. split; [exact Hshape|].
      apply reconcile_all_in.
    + rewrite (recommend_except_raised env user_message corpus e e2 w1 Hq).
      assert (forall res : Res Response,
                Forall (fun j => In j corpus)
                  (reply_jokes (res, mkWorld (logs w1) (calls w1))) ->
                tidy_world user_message corpus w
                  (res,
                   mkWorld (logs w1 ++
                            [Analytics.llm_failure_entry (now_isoformat env (length (logs w1)))
                               "llm_selection_error" e "chromadb_direct";
                             Analytics.query_entry (now_isoformat env (length (logs w1) + 1))
                               user_message "error" 0 (elapsed_ms env) (Some e2)])
                           (calls w1 ++ [CallQuery user_message 3]))) as Htidy.
      { intros res Hres. eexists. exists new_calls. cbn [snd logs calls]. rewrite Hl.
        split; [reflexivity|]. split; [exact Hcalls|].
        split; [rewrite <- Hl; apply Hentries; cbn; tauto|].
        split; [cbn; lia|]. split; [cbn; lia|]. split; [exact Hshape|exact Hres]. }
      destruct corpus as [|j0 rest] eqn:Hcorpus.
      * split; [|easy]. apply Htidy. constructor.
      * destruct (nth_error (j0 :: rest) _) as [j|] eqn:Hn.
        -- split; [|easy]. apply Htidy. cbn [reply_jokes fst].
           constructor; [|constructor]. now apply nth_error_In in Hn.
        -- split; [|easy]. apply Htidy. constructor.
Qed.

End TidyRuns.

Lemma tidy_world_untouched (user_message : string) (corpus : list Joke) (w : World)
    (error : string) (status : nat) :
  tidy_world user_message corpus w (Ok (ErrorBody error, status), w).
Proof.
  exists [], []. cbn [snd fst reply_jokes]. rewrite !app_nil_r.
  split; [reflexivity|]. split; [reflexivity|]. split; [constructor|].
  split; [cbn; lia|]. split; [cbn; lia|]. split; [now left|constructor].
Qed.

Lemma tidy_world_caught (user_message : string) (corpus : list Joke) (w w' : World)
    (res : Res Response) (error : string) (status : nat) :
  tidy_world user_message corpus w (res, w') ->
  tidy_world user_message corpus w (Ok (ErrorBody error, status), w').
Proof.
  intros (new_log & new_calls & Hl & Hc & Ha & Hn & Hq & Hs & _).
  exists new_log, new_calls. cbn [snd fst reply_jokes] in *.
  split; [exact Hl|]. split; [exact Hc|]. split; [exact Ha|].
  split; [exact Hn|]. split; [exact Hq|]. split; [exact Hs|constructor].
Qed.

(** The three kinds of reply of the ask endpoint. *)
Lemma ask_ai_run (env : Env) (data : Dict) (w : World) :
  tidy_world (message_text data) (load_jokes env) w (ask_ai env data w) /\
  exists body status,
    fst (ask_ai env data w) = Ok (body, status) /\
    ((status = 400 /\ truthy (dict_get data "message" (JStr EmptyString)) = false /\
      body = ErrorBody "No message provided" /\ snd (ask_ai env data w) = w) \/
     (status = 200 /\ truthy (dict_get data "message" (JStr EmptyString)) = true /\
      exists response jokes, body = AnswerBody response jokes) \/
     (status = 500 /\ truthy (dict_get data "message" (JStr EmptyString)) = true /\
      exists error, body = ErrorBody error)).
Proof.
  unfold ask_ai, message_text.
  destruct (truthy (dict_get data "message" (JStr EmptyString))) eqn:Htruthy; cbn [negb].
  2:{ split; [apply tidy_world_untouched|].
      do 2 eexists. split; [reflexivity|]. left. repeat split. }
  assert (forall (m : M Response) (user_message : string) (corpus : list Joke),
            (tidy_world user_message corpus w (m w) /\ answer_or_raise (m w)) ->
            tidy_world user_message corpus w
              (try_except m
                 (fun _ => ret (ErrorBody "An unexpected error occurred. Please try again.", 500))
                 w) /\
            exists body status,
              fst (try_except m
                     (fun _ =>
                        ret (ErrorBody "An unexpected error occurred. Please try again.", 500))
                     w) = Ok (body, status) /\
              ((status = 400 /\ true = false /\
                body = ErrorBody "No message provided" /\
                snd (try_except m
                       (fun _ =>
                          ret (ErrorBody "An unexpected error occurred. Please try again.", 500))
                       w) = w) \/
               (status = 200 /\ true = true /\
                exists response jokes, body = AnswerBody response jokes) \/
               (status = 500 /\ true = true /\ exists error, body = ErrorBody error)))
    as Hbranch.
  { intros m user_message corpus [Ht Ha]. unfold try_except, answer_or_raise in *.
    destruct (m w) as [[[body status]|e] w'].
    - split; [exact Ht|]. cbn [fst] in Ha.
      destruct body as [err|response jokes|ok msg]; try contradiction.
      subst status. do 2 eexists. split; [reflexivity|]. right. left. repeat split. now do 2 eexists.
    - split; [now apply tidy_world_caught with (res := Raised e)|].
      do 2 eexists. split; [reflexivity|]. right. right. repeat split. now eexists. }
  assert (forall user_message body,
            tidy_world user_message (load_jokes env) w
              (try_except (raise body)
                 (fun _ => ret (ErrorBody "An unexpected error occurred. Please try again.", 500))
                 w) /\
            exists body' status,
              fst (try_except (raise body)
                     (fun _ =>
                        ret (ErrorBody "An unexpected error occurred. Please try again.", 500))
                     w) = Ok (body', status) /\
              ((status = 400 /\ true = false /\ body' = ErrorBody "No message provided" /\
                snd (try_except (raise body)
                       (fun _ =>
                          ret (ErrorBody "An unexpected error occurred. Please try again.", 500))
                       w) = w) \/
               (status = 200 /\ true = true /\
                exists response jokes, body' = AnswerBody response jokes) \/
               (status = 500 /\ true = true /\ exists error, body' = ErrorBody error)))
    as Hraise.
  { intros user_message body. split; [apply tidy_world_untouched|].
    do 2 eexists. split; [reflexivity|]. right. right. repeat split. now eexists. }
  destruct (dict_get data "message" (JStr EmptyString)) as [|b|n|user_message|l|kv];
    try apply Hraise.
  unfold ask_ai_try.
  destruct (any_in nsfw_keywords (PyStr.lower user_message)).
  { unfold try_except, bind. rewrite log_query_run. unfold ret.
    split.
    - exists [Analytics.query_entry (now_isoformat env (length (logs w))) user_message
                "nsfw_blocked" 0 (elapsed_ms env) None], [].
      cbn [snd logs calls fst reply_jokes]. rewrite app_nil_r.
      split; [reflexivity|]. split; [reflexivity|].
      split; [apply app_entry_query; cbn; tauto|].
      split; [cbn; lia|]. split; [cbn; lia|]. split; [now left|constructor].
    - do 2 eexists. split; [reflexivity|]. right. left. repeat split. now do 2 eexists. }
  destruct (load_jokes env) as [|j0 rest] eqn:Hcorpus.
  { split; [apply tidy_world_untouched|].
    do 2 eexists. split; [reflexivity|]. right. right. repeat split. now eexists. }
  destruct (is_counting user_message); [apply Hbranch, tidy_counting|].
  destruct (is_existence user_message); [apply Hbranch, tidy_existence|].
  apply Hbranch, tidy_recommendation.
Qed.

(** X6. Both endpoints only append to the analytics log: what was
    logged before stays, in place.  A request to the ask endpoint adds at
    most two entries, at most one of them a query entry, each of a shape
    the application writes (a query entry with one of the four outcomes,
    or the [llm_failure] entry of the fallback); a feedback request adds
    at most one, a feedback entry with a rating of true truth value, and
    makes no call. *)
Theorem endpoints_only_append_to_log (env : Env) (data : Dict) (w : World) :
  (exists new,
     logs (snd (ask_ai env data w)) = (logs w ++ new)%list /\
     Forall app_entry new /\
     length new <= 2 /\
     Analytics.count_query_events new <= 1) /\
  (exists new,
     logs (snd (submit_feedback env data w)) = (logs w ++ new)%list /\
     Forall app_entry new /\
     length new <= 1 /\
     calls (snd (submit_feedback env data w)) = calls w).
Proof.
  split.
  - destruct (ask_ai_run env data w) as [(new_log & new_calls & Hl & _ & Ha & Hn & Hq & _) _].
    now exists new_log.
  - unfold submit_feedback.
    destruct (truthy (dict_get data "rating" JNull)) eqn:Ht; cbn [negb].
    + unfold bind. rewrite log_feedback_run. eexists. split; [reflexivity|].
      split; [|split; [cbn; lia|reflexivity]].
      constructor; [now constructor|constructor].
    + exists []. cbn [ret snd]. rewrite app_nil_r.
      split; [reflexivity|]. split; [constructor|]. split; [cbn; lia|reflexivity].
Qed.

(** X7. Every joke a reply of the ask endpoint carries is a record of
    the corpus as [load_jokes] gave it, whatever the index and the model
    answer: no joke is made up from a document or from the model's
    text. *)
Theorem reply_jokes_are_corpus_records (env : Env) (data : Dict) (w : World) :
  Forall (fun j => In j (load_jokes env)) (reply_jokes (ask_ai env data w)).
Proof.
  destruct (ask_ai_run env data w) as [(new_log & new_calls & _ & _ & _ & _ & _ & _ & Hj) _].
  exact Hj.
Qed.

(** X8. A request to the ask endpoint whose body is a JSON object is
    always answered: no exception leaves the handler.  The reply has
    status 400 with "No message provided" exactly when the message is
    missing or has a false truth value, and then nothing is logged and
    no call is made; otherwise it has status 200 with a response text
    and a list of jokes, or status 500 with an error object.  A body
    that is any other JSON value (a list, a text, a number, a boolean,
    null) makes [data.get] raise an [AttributeError] before the [try]:
    the exception leaves the handler, nothing is logged and no call is
    made, and the feedback endpoint fails on such a body in the same
    way. *)
Theorem ask_ai_always_answers (env : Env) (body : JVal) (w : World) :
  match body with
  | JObj kv =>
      let data := dict_update [] kv in
      ask_ai_request env body w = ask_ai env data w /\
      exists reply status,
        fst (ask_ai env data w) = Ok (reply, status) /\
        ((status = 400 /\ truthy (dict_get data "message" (JStr EmptyString)) = false /\
          reply = ErrorBody "No message provided" /\ snd (ask_ai env data w) = w) \/
         (status = 200 /\ truthy (dict_get data "message" (JStr EmptyString)) = true /\
          exists response jokes, reply = AnswerBody response jokes) \/
         (status = 500 /\ truthy (dict_get data "message" (JStr EmptyString)) = true /\
          exists error, reply = ErrorBody error))
  | other =>
      let e := "'" ++ type_name other ++ "' object has no attribute 'get'" in
      ask_ai_request env body w = (Raised e, w) /\
      submit_feedback_request env body w = (Raised e, w)
  end.
Proof.
  destruct body as [|b|n|s|l|kv]; try (split; reflexivity).
  cbv zeta. split; [reflexivity|].
  exact (proj2 (ask_ai_run env (dict_update [] kv) w)).
Qed.

(** X9. The calls of one request to the ask endpoint are appended to
    those made before and are at most three: at most two queries of the
    index and at most one call of the model, and the model is only
    called right after a query of the index with the message of the
    request. *)
Theorem ask_ai_calls_are_bounded (env : Env) (data : Dict) (w : World) :
  exists new,
    calls (snd (ask_ai env data w)) = (calls w ++ new)%list /\
    call_shapes (message_text data) (length (load_jokes env)) new /\
    length new <= 3 /\
    length (filter (fun c => match c with CallChat _ => true | _ => false end) new) <= 1 /\
    length (filter (fun c => match c with CallQuery _ _ => true | _ => false end) new) <= 2 /\
    (forall prompt, In (CallChat prompt) new ->
       exists n rest, new = CallQuery (message_text data) n :: CallChat prompt :: rest).
Proof.
  destruct (ask_ai_run env data w) as [(new_log & new_calls & _ & Hc & _ & _ & _ & Hs & _) _].
  exists new_calls. split; [exact Hc|]. split; [exact Hs|].
  destruct Hs as [->|[->|[[p ->]|[->|[->|[[p ->]|[->|[p ->]]]]]]]]; cbn [length filter];
    (split; [lia|]); (split; [lia|]); (split; [lia|]);
    intros prompt Hin; cbn [In] in Hin;
    repeat match goal with
           | H : _ \/ _ |- _ => destruct H as [H|H]
           | H : False |- _ => contradiction
           | H : CallQuery _ _ = CallChat _ |- _ => discriminate H
           | H : CallChat _ = CallChat _ |- _ => injection H as ->
           end;
    do 2 eexists; reflexivity.
Qed.

(** ** The statistics of a log the application wrote *)

Lemma bump_failures_table (k : nat) :
  AnalyticsReports.bump (failures_table k) (JStr "llm_selection_error") = failures_table (k + 1).
Proof.
  destruct k as [|k]; [reflexivity|].
  cbn. now rewrite Nat.add_1_r.
Qed.

Lemma stats_loop_app_log (logs : list Dict) :
  Forall app_entry logs ->
  forall (s0 : AnalyticsReports.Stats) (k : nat),
    AnalyticsReports.common_failures s0 = failures_table k ->
    exists s,
      AnalyticsReports.stats_loop logs s0 = Ok s /\
      AnalyticsReports.total_queries s =
        AnalyticsReports.total_queries s0 + Analytics.count_query_events logs /\
      AnalyticsReports.successful_queries s =
        AnalyticsReports.successful_queries s0 + count_outcome "success" logs /\
      AnalyticsReports.failed_queries s =
        AnalyticsReports.failed_queries s0 + count_outcome "error" logs /\
      AnalyticsReports.no_results_queries s =
        AnalyticsReports.no_results_queries s0 + count_outcome "no_results" logs /\
      AnalyticsReports.nsfw_blocked s =
        AnalyticsReports.nsfw_blocked s0 + count_outcome "nsfw_blocked" logs /\
      AnalyticsReports.llm_failures s =
        AnalyticsReports.llm_failures s0 + count_events "llm_failure" logs /\
      AnalyticsReports.chromadb_failures s = AnalyticsReports.chromadb_failures s0 /\
      AnalyticsReports.feedback_count s =
        AnalyticsReports.feedback_count s0 + count_events "feedback" logs /\
      AnalyticsReports.jokes_counts s =
        (AnalyticsReports.jokes_counts s0 ++ nonzero_counts logs)%list /\
      AnalyticsReports.common_failures s = failures_table (k + count_events "llm_failure" logs).
Proof.
  induction 1 as [|log rest Hlog Hrest IH]; intros s0 k Hk.
  - exists s0. cbn. rewrite !Nat.add_0_r, app_nil_r. repeat split; auto.
  - assert (forall s1 k1 (dq ds de dn db dl df : nat) (dj : list JVal),
              AnalyticsReports.stats_step s0 log = Ok s1 ->
              AnalyticsReports.common_failures s1 = failures_table k1 ->
              AnalyticsReports.total_queries s1 = AnalyticsReports.total_queries s0 + dq ->
              AnalyticsReports.successful_queries s1 =
                AnalyticsReports.successful_queries s0 + ds ->
              AnalyticsReports.failed_queries s1 = AnalyticsReports.failed_queries s0 + de ->
              AnalyticsReports.no_results_queries s1 =
                AnalyticsReports.no_results_queries s0 + dn ->
              AnalyticsReports.nsfw_blocked s1 = AnalyticsReports.nsfw_blocked s0 + db ->
              AnalyticsReports.llm_failures s1 = AnalyticsReports.llm_failures s0 + dl ->
              AnalyticsReports.chromadb_failures s1 = AnalyticsReports.chromadb_failures s0 ->
              AnalyticsReports.feedback_count s1 = AnalyticsReports.feedback_count s0 + df ->
              AnalyticsReports.jokes_counts s1 = (AnalyticsReports.jokes_counts s0 ++ dj)%list ->
              k1 = k + dl ->
              Analytics.count_query_events (log :: rest) = dq + Analytics.count_query_events rest ->
              count_outcome "success" (log :: rest) = ds + count_outcome "success" rest ->
              count_outcome "error" (log :: rest) = de + count_outcome "error" rest ->
              count_outcome "no_results" (log :: rest) = dn + count_outcome "no_results" rest ->
              count_outcome "nsfw_blocked" (log :: rest) =
                db + count_outcome "nsfw_blocked" rest ->
              count_events "llm_failure" (log :: rest) = dl + count_events "llm_failure" rest ->
              count_events "feedback" (log :: rest) = df + count_events "feedback" rest ->
              nonzero_counts (log :: rest) = (dj ++ nonzero_counts rest)%list ->
              exists s,
                AnalyticsReports.stats_loop (log :: rest) s0 = Ok s /\
                AnalyticsReports.total_queries s =
                  AnalyticsReports.total_queries s0 + Analytics.count_query_events (log :: rest) /\
                AnalyticsReports.successful_queries s =
                  AnalyticsReports.successful_queries s0 + count_outcome "success" (log :: rest) /\
                AnalyticsReports.failed_queries s =
                  AnalyticsReports.failed_queries s0 + count_outcome "error" (log :: rest) /\
                AnalyticsReports.no_results_queries s =
                  AnalyticsReports.no_results_queries s0 +
                  count_outcome "no_results" (log :: rest) /\
                AnalyticsReports.nsfw_blocked s =
                  AnalyticsReports.nsfw_blocked s0 + count_outcome "nsfw_blocked" (log :: rest) /\
                AnalyticsReports.llm_failures s =
                  AnalyticsReports.llm_failures s0 + count_events "llm_failure" (log :: rest) /\
                AnalyticsReports.chromadb_failures s = AnalyticsReports.chromadb_failures s0 /\
                AnalyticsReports.feedback_count s =
                  AnalyticsReports.feedback_count s0 + count_events "feedback" (log :: rest) /\
                AnalyticsReports.jokes_counts s =
                  (AnalyticsReports.jokes_counts s0 ++ nonzero_counts (log :: rest))%list /\
                AnalyticsReports.common_failures s =
                  failures_table (k + count_events "llm_failure" (log :: rest))) as Hstep.
    { intros s1 k1 dq ds de dn db dl df dj Hs1 Hk1 Hq Hs He Hn Hb Hl Hc Hf Hj Hkk
             Cq Cs Ce Cn Cb Cl Cf Cj.
      destruct (IH s1 k1 Hk1) as (s & Hrun & Tq & Ts & Te & Tn & Tb & Tl & Tc & Tf & Tj & Tk).
      exists s. cbn [AnalyticsReports.stats_loop]. rewrite Hs1.
      split; [exact Hrun|].
      rewrite Cq, Cs, Ce, Cn, Cb, Cl, Cf, Cj.
      rewrite Tq, Ts, Te, Tn, Tb, Tl, Tc, Tf, Tj, Tk, Hq, Hs, He, Hn, Hb, Hl, Hc, Hf, Hj, Hkk.
      rewrite <- app_assoc.
      repeat split; try lia; try reflexivity. f_equal. lia. }
    destruct Hlog as [ts m t n ms err Ht | ts e | ts q r c Hr].
    + assert (nonzero_counts (Analytics.query_entry ts m t n ms err :: rest) =
              ((if Z.eqb (Z.of_nat n) 0 then [] else [JNum (Z.of_nat n)]) ++
               nonzero_counts rest)%list) as Cj.
      { unfold nonzero_counts. cbn [flat_map]. f_equal. cbn.
        now destruct (Z.eqb (Z.of_nat n) 0). }
      cbn in Ht.
      destruct Ht as [<-|[<-|[<-|[<-|[]]]]].
      * eapply (Hstep (AnalyticsReports.count_query s0 _) k 1 1 0 0 0 0 0
                  (if Z.eqb (Z.of_nat n) 0 then [] else [JNum (Z.of_nat n)]));
          first [exact Hk | exact Cj | reflexivity | lia
                | cbn; destruct (Z.eqb (Z.of_nat n) 0); cbn; now rewrite ?app_nil_r].
      * eapply (Hstep (AnalyticsReports.count_query s0 _) k 1 0 0 1 0 0 0
                  (if Z.eqb (Z.of_nat n) 0 then [] else [JNum (Z.of_nat n)]));
          first [exact Hk | exact Cj | reflexivity | lia
                | cbn; destruct (Z.eqb (Z.of_nat n) 0); cbn; now rewrite ?app_nil_r].
      * eapply (Hstep (AnalyticsReports.count_query s0 _) k 1 0 1 0 0 0 0
                  (if Z.eqb (Z.of_nat n) 0 then [] else [JNum (Z.of_nat n)]));
          first [exact Hk | exact Cj | reflexivity | lia
                | cbn; destruct (Z.eqb (Z.of_nat n) 0); cbn; now rewrite ?app_nil_r].
      * eapply (Hstep (AnalyticsReports.count_query s0 _) k 1 0 0 0 1 0 0
                  (if Z.eqb (Z.of_nat n) 0 then [] else [JNum (Z.of_nat n)]));
          first [exact Hk | exact Cj | reflexivity | lia
                | cbn; destruct (Z.eqb (Z.of_nat n) 0); cbn; now rewrite ?app_nil_r].
    + eapply (Hstep _ (k + 1) 0 0 0 0 0 1 0 []);
        first [reflexivity | lia | cbn; now rewrite ?app_nil_r
              | cbn; rewrite Hk; apply bump_failures_table].
    + eapply (Hstep (AnalyticsReports.count_feedback s0 _) k 0 0 0 0 0 0 1 []);
        first [exact Hk | reflexivity | lia | cbn; now rewrite ?app_nil_r].
Qed.

Lemma outcomes_partition_queries (logs : list Dict) :
  Forall app_entry logs ->
  Analytics.count_query_events logs =
  count_outcome "success" logs + count_outcome "error" logs +
  count_outcome "no_results" logs + count_outcome "nsfw_blocked" logs.
Proof.
  induction 1 as [|log rest Hlog Hrest IH]; [reflexivity|].
  unfold Analytics.count_query_events, count_outcome in *. cbn [filter].
  destruct Hlog as [ts m t n ms err Ht | ts e | ts q r c Hr].
  - cbn in Ht. destruct Ht as [<-|[<-|[<-|[<-|[]]]]]; cbn; lia.
  - cbn. exact IH.
  - cbn. exact IH.
Qed.

Lemma stats_step_lists (s0 s1 : AnalyticsReports.Stats) (log : Dict) :
  AnalyticsReports.stats_step s0 log = Ok s1 ->
  AnalyticsReports.response_times s1 =
    (AnalyticsReports.response_times s0 ++ logged_times [log])%list /\
  AnalyticsReports.ratings s1 = (AnalyticsReports.ratings s0 ++ logged_ratings [log])%list.
Proof.
  unfold AnalyticsReports.stats_step, is_str, logged_times, logged_ratings,
    Analytics.is_query_event, Analytics.event_type_is.
  cbn [flat_map]. rewrite !app_nil_r.
  destruct (dict_lookup log "event_type") as [[| | |t| |]|];
    try (intros [= <-]; cbn [andb]; now rewrite !app_nil_r).
  destruct (String.eqb_spec t "query") as [->|Hq].
  { intros [= <-]. unfold AnalyticsReports.count_query.
    cbn [AnalyticsReports.response_times AnalyticsReports.ratings String.eqb Ascii.eqb
         Bool.eqb andb].
    destruct (truthy (dict_get log "response_time_ms" JNull)); now rewrite ?app_nil_r. }
  cbn [andb]. rewrite app_nil_r.
  destruct (String.eqb_spec t "feedback") as [->|Hf].
  { intros [= <-]. unfold AnalyticsReports.count_feedback.
    cbn [AnalyticsReports.response_times AnalyticsReports.ratings andb].
    destruct (truthy (dict_get log "rating" JNull)); now rewrite ?app_nil_r. }
  cbn [andb]. rewrite app_nil_r.
  destruct (String.eqb t "llm_failure").
  { unfold AnalyticsReports.count_llm_failure.
    destruct (AnalyticsReports.hashable _); [|discriminate].
    now intros [= <-]. }
  destruct (String.eqb t "chromadb_failure"); now intros [= <-].
Qed.

(** The two lists the loop of [get_stats] fills besides the counts of
    jokes, on any log it goes through without raising. *)
Lemma stats_loop_lists (logs : list Dict) :
  forall s0 s,
    AnalyticsReports.stats_loop logs s0 = Ok s ->
    AnalyticsReports.response_times s =
      (AnalyticsReports.response_times s0 ++ logged_times logs)%list /\
    AnalyticsReports.ratings s = (AnalyticsReports.ratings s0 ++ logged_ratings logs)%list.
Proof.
  induction logs as [|log rest IH]; intros s0 s H.
  - cbn in H. injection H as <-. cbn. now rewrite !app_nil_r.
  - cbn [AnalyticsReports.stats_loop] in H.
    destruct (AnalyticsReports.stats_step s0 log) as [s1|e] eqn:E; [|discriminate].
    destruct (IH s1 s H) as [Ht Hr].
    destruct (stats_step_lists s0 s1 log E) as [Ht1 Hr1].
    rewrite Ht, Hr, Ht1, Hr1, <- !app_assoc.
    split; f_equal; unfold logged_times, logged_ratings; cbn [flat_map];
      now rewrite app_nil_r.
Qed.

Lemma sum_from_fits (l : list JVal) :
  forallb fits_float l = true ->
  forall acc,
    exists total,
      AnalyticsReports.sum_from acc l = Ok total /\
      (Z.abs (total - acc) <= (AnalyticsReports.float_limit - 1) * Z.of_nat (length l))%Z.
Proof.
  unfold fits_float. generalize AnalyticsReports.float_limit. intros F.
  induction l as [|v rest IH]; intros H acc.
  - exists acc. split; [reflexivity|]. cbn [length]. lia.
  - cbn [forallb] in H. apply andb_true_iff in H. destruct H as [Hv Hrest].
    destruct (as_number v) as [n|] eqn:En; [|discriminate].
    apply Z.ltb_lt in Hv.
    destruct (IH Hrest (acc + n)%Z) as (total & Hs & Hb).
    exists total. cbn [AnalyticsReports.sum_from]. rewrite En.
    split; [exact Hs|]. cbn [length]. rewrite Nat2Z.inj_succ, Z.mul_succ_r. lia.
Qed.

Lemma float_limit_above_one : (1 < AnalyticsReports.float_limit)%Z.
Proof. apply Z.ltb_lt. vm_compute. reflexivity. Qed.

Lemma average_fits (l : list JVal) :
  forallb fits_float l = true ->
  exists total,
    AnalyticsReports.sum_from 0 l = Ok total /\
    AnalyticsReports.average l = Ok (average_of total l).
Proof.
  intros H. destruct (sum_from_fits l H 0%Z) as (total & Hs & Hb).
  exists total. split; [exact Hs|].
  destruct l as [|v rest]; [reflexivity|].
  unfold AnalyticsReports.average, average_of. rewrite Hs.
  unfold AnalyticsReports.true_divide.
  pose proof float_limit_above_one as HF.
  revert Hb HF. generalize AnalyticsReports.float_limit. intros F Hb HF.
  destruct (Z.leb_spec (F * Z.of_nat (length (v :: rest))) (Z.abs total)) as [Hle|Hlt];
    [|reflexivity].
  cbn [length] in *. rewrite Nat2Z.inj_succ in *. nia.
Qed.

Lemma sum_from_raises (l : list JVal) (v : JVal) :
  In v l -> as_number v = None ->
  forall acc, exists e, AnalyticsReports.sum_from acc l = Raised e.
Proof.
  intros Hin Hv. induction l as [|x rest IH]; [contradiction|].
  intros acc. cbn [AnalyticsReports.sum_from].
  destruct Hin as [->|Hin].
  - rewrite Hv. now eexists.
  - destruct (as_number x); [now apply IH|now eexists].
Qed.

(** X10. On a log that holds only entries the two endpoints write,
    [get_stats] goes through its loop without raising.  When the
    numbers it averages (response times, counts of jokes and ratings
    with a true truth value) all round to a float, it returns, and its
    counters add up: [total_queries] is the number of query entries and
    equals [successful_queries] + [failed_queries] +
    [no_results_queries] + [nsfw_blocked]; [llm_failures] counts the
    [llm_failure] entries, all under the one key "llm_selection_error"
    of [common_failures]; [feedback_count] counts the feedback entries;
    [chromadb_failures] is 0, since no endpoint logs a failure of the
    index; and the success rate is the quotient of [successful_queries]
    by [total_queries], when there is a query.  When some feedback entry
    holds a rating that is not a number, which the feedback endpoint
    accepts, [get_stats] raises instead of returning. *)
Theorem stats_counters_add_up (l : list Dict) :
  Forall app_entry l ->
  (exists s, AnalyticsReports.get_stats_loop l = Ok s) /\
  (averages_fit l = true ->
   exists report,
     AnalyticsReports.get_stats (Some l) = Ok (Some report) /\
     let s := AnalyticsReports.counters report in
     AnalyticsReports.get_stats_loop l = Ok s /\
     AnalyticsReports.total_queries s = Analytics.count_query_events l /\
     AnalyticsReports.total_queries s =
       AnalyticsReports.successful_queries s + AnalyticsReports.failed_queries s +
       AnalyticsReports.no_results_queries s + AnalyticsReports.nsfw_blocked s /\
     AnalyticsReports.llm_failures s = count_events "llm_failure" l /\
     AnalyticsReports.common_failures s = failures_table (AnalyticsReports.llm_failures s) /\
     AnalyticsReports.feedback_count s = count_events "feedback" l /\
     AnalyticsReports.chromadb_failures s = 0 /\
     AnalyticsReports.success_rate report =
       (if 0 <? AnalyticsReports.total_queries s
        then AnalyticsReports.Quotient (Z.of_nat (AnalyticsReports.successful_queries s))
               (AnalyticsReports.total_queries s)
        else AnalyticsReports.NoAverage)) /\
  (forall ts query_id rating comment,
     In (Analytics.feedback_entry ts query_id rating comment) l ->
     truthy rating = true ->
     as_number rating = None ->
     exists e, AnalyticsReports.get_stats (Some l) = Raised e).
Proof.
  intros Happ.
  destruct (stats_loop_app_log l Happ AnalyticsReports.initial_stats 0 eq_refl)
    as (s & Hrun & Tq & Ts & Te & Tn & Tb & Tl & Tc & Tf & Tj & Tk).
  destruct (stats_loop_lists l _ _ Hrun) as [Tt Tr].
  cbn in Tq, Ts, Te, Tn, Tb, Tl, Tc, Tf, Tk, Tj, Tt, Tr.
  pose proof (outcomes_partition_queries l Happ) as Hpart.
  split; [now exists s|]. split.
  - intros Hfit. unfold averages_fit in Hfit.
    apply andb_true_iff in Hfit. destruct Hfit as [Hfit Hfr].
    apply andb_true_iff in Hfit. destruct Hfit as [Hft Hfj].
    destruct (average_fits _ Hft) as (t1 & _ & Ha1).
    destruct (average_fits _ Hfj) as (t2 & _ & Ha2).
    destruct (average_fits _ Hfr) as (t3 & _ & Ha3).
    assert ((if 0 <? AnalyticsReports.total_queries s
             then AnalyticsReports.true_divide (Z.of_nat (AnalyticsReports.successful_queries s))
                    (AnalyticsReports.total_queries s)
             else Ok AnalyticsReports.NoAverage) =
            Ok (if 0 <? AnalyticsReports.total_queries s
                then AnalyticsReports.Quotient (Z.of_nat (AnalyticsReports.successful_queries s))
                       (AnalyticsReports.total_queries s)
                else AnalyticsReports.NoAverage)) as Hrate.
    { destruct (Nat.ltb_spec 0 (AnalyticsReports.total_queries s)) as [Hpos|_]; [|reflexivity].
      unfold AnalyticsReports.true_divide.
      pose proof float_limit_above_one as HF.
      revert HF. generalize AnalyticsReports.float_limit. intros F HF.
      destruct (Z.leb_spec (F * Z.of_nat (AnalyticsReports.total_queries s))
                  (Z.abs (Z.of_nat (AnalyticsReports.successful_queries s)))) as [Hle|_];
        [|reflexivity].
      assert (AnalyticsReports.successful_queries s <= AnalyticsReports.total_queries s)
        as Hsucc by (rewrite Tq, Ts, Hpart; lia).
      nia. }
    eexists. split.
    + unfold AnalyticsReports.get_stats, AnalyticsReports.get_stats_loop. rewrite Hrun.
      unfold AnalyticsReports.finish_stats. rewrite Tt, Tj, Tr, Ha1, Ha2, Ha3, Hrate.
      reflexivity.
    + cbn [AnalyticsReports.counters AnalyticsReports.success_rate].
      split; [exact Hrun|]. split; [exact Tq|].
      split; [rewrite Tq, Ts, Te, Tn, Tb; exact Hpart|].
      split; [exact Tl|]. split; [now rewrite Tk, Tl|]. split; [exact Tf|].
      split; [exact Tc|reflexivity].
  - intros ts query_id rating comment Hin Htruthy Hnum.
    assert (In rating (logged_ratings l)) as Hr.
    { unfold logged_ratings. apply in_flat_map.
      exists (Analytics.feedback_entry ts query_id rating comment).
      split; [exact Hin|]. cbn. rewrite Htruthy. now left. }
    unfold AnalyticsReports.get_stats, AnalyticsReports.get_stats_loop. rewrite Hrun.
    unfold AnalyticsReports.finish_stats. rewrite Tr.
    destruct (AnalyticsReports.average (AnalyticsReports.response_times s)) as [a1|e1];
      [|now eexists].
    destruct (AnalyticsReports.average (AnalyticsReports.jokes_counts s)) as [a2|e2];
      [|now eexists].
    unfold AnalyticsReports.average at 1.
    destruct (logged_ratings l) as [|r0 rest] eqn:El; [contradiction|].
    destruct (sum_from_raises (r0 :: rest) rating Hr Hnum 0%Z) as (e & ->).
    now eexists.
Qed.

Lemma stats_counters_add_up_witness :
  exists report,
    AnalyticsReports.get_stats
      (Some [MoreSamples.no_results_entry; MoreSamples.stars 4;
             Analytics.query_entry "t6" "cats" "success" 2 9 None]) = Ok (Some report) /\
    AnalyticsReports.total_queries (AnalyticsReports.counters report) = 2 /\
    AnalyticsReports.feedback_count (AnalyticsReports.counters report) = 1 /\
    AnalyticsReports.avg_rating report = AnalyticsReports.Quotient 4 1 /\
    AnalyticsReports.success_rate report = AnalyticsReports.Quotient 1 2.
Proof.
  assert (Forall app_entry
            [MoreSamples.no_results_entry; MoreSamples.stars 4;
             Analytics.query_entry "t6" "cats" "success" 2 9 None]) as Happ.
  { constructor; [constructor; cbn; tauto|].
    constructor; [constructor; reflexivity|].
    constructor; [constructor; cbn; tauto|constructor]. }
  destruct (proj1 (proj2 (stats_counters_add_up
              [MoreSamples.no_results_entry; MoreSamples.stars 4;
               Analytics.query_entry "t6" "cats" "success" 2 9 None] Happ)) eq_refl)
    as (report & Hrun & _).
  exists report. split; [exact Hrun|].
  vm_compute in Hrun. inversion Hrun. repeat split.
Defined.

(** X11. On a log that holds only entries the two endpoints write, and
    whose averaged numbers all round to a float, [get_stats] returns
    and averages the jokes per query over the counts of the query
    entries that are not zero: [avg_jokes_per_query] is the quotient of
    their sum by their number, which can be less than [total_queries],
    and stays the initial 0 when there is none.  A query that returned
    no joke is left out of the average. *)
Theorem zero_joke_queries_are_not_averaged (logs : list Dict) :
  Forall app_entry logs ->
  averages_fit logs = true ->
  exists report total,
    AnalyticsReports.get_stats (Some logs) = Ok (Some report) /\
    AnalyticsReports.jokes_counts (AnalyticsReports.counters report) = nonzero_counts logs /\
    AnalyticsReports.sum_from 0 (nonzero_counts logs) = Ok total /\
    AnalyticsReports.avg_jokes_per_query report = average_of total (nonzero_counts logs) /\
    Forall (fun v => v <> JNum 0) (nonzero_counts logs) /\
    length (nonzero_counts logs) <=
      AnalyticsReports.total_queries (AnalyticsReports.counters report).
Proof.
  intros Happ Hfit.
  destruct (stats_loop_app_log logs Happ AnalyticsReports.initial_stats 0 eq_refl)
    as (s & Hrun & Tq & Ts & Te & Tn & Tb & _ & _ & _ & Tj & _).
  destruct (stats_loop_lists logs _ _ Hrun) as [Tt Tr].
  cbn in Tq, Ts, Te, Tn, Tb, Tj, Tt, Tr.
  pose proof (outcomes_partition_queries logs Happ) as Hpart.
  unfold averages_fit in Hfit.
  apply andb_true_iff in Hfit. destruct Hfit as [Hfit Hfr].
  apply andb_true_iff in Hfit. destruct Hfit as [Hft Hfj].
  destruct (average_fits _ Hft) as (t1 & _ & Ha1).
  destruct (average_fits _ Hfj) as (t2 & Hsum & Ha2).
  destruct (average_fits _ Hfr) as (t3 & _ & Ha3).
  assert (exists rate,
            (if 0 <? AnalyticsReports.total_queries s
             then AnalyticsReports.true_divide (Z.of_nat (AnalyticsReports.successful_queries s))
                    (AnalyticsReports.total_queries s)
             else Ok AnalyticsReports.NoAverage) = Ok rate) as (rate & Hrate).
  { destruct (Nat.ltb_spec 0 (AnalyticsReports.total_queries s)) as [Hpos|_]; [|now eexists].
    unfold AnalyticsReports.true_divide.
    pose proof float_limit_above_one as HF.
    revert HF. generalize AnalyticsReports.float_limit. intros F HF.
    destruct (Z.leb_spec (F * Z.of_nat (AnalyticsReports.total_queries s))
                (Z.abs (Z.of_nat (AnalyticsReports.successful_queries s)))) as [Hle|_];
      [|now eexists].
    assert (AnalyticsReports.successful_queries s <= AnalyticsReports.total_queries s)
      as Hsucc by (rewrite Tq, Ts, Hpart; lia).
    nia. }
  eexists. exists t2. split.
  { unfold AnalyticsReports.get_stats, AnalyticsReports.get_stats_loop. rewrite Hrun.
    unfold AnalyticsReports.finish_stats. rewrite Tt, Tj, Tr, Ha1, Ha2, Ha3, Hrate.
    reflexivity. }
  cbn [AnalyticsReports.counters AnalyticsReports.avg_jokes_per_query].
  split; [exact Tj|]. split; [exact Hsum|]. split; [reflexivity|].
  rewrite Tq. clear s Hrun Tq Ts Te Tn Tb Tj Tt Tr Hrate Hft Hfj Hfr Ha1 Ha2 Ha3 Hsum Hpart.
  split.
  - induction Happ as [|log rest Hlog Hrest IH]; [constructor|].
    unfold nonzero_counts in *. cbn [flat_map]. apply Forall_app. split; [|exact IH].
    destruct (dict_lookup log "jokes_count") as [[| | n | | |]|]; try constructor.
    destruct (Analytics.is_query_event log); cbn [andb]; [|constructor].
    destruct (Z.eqb_spec n 0); cbn [negb]; constructor; [|constructor].
    congruence.
  - induction Happ as [|log rest Hlog Hrest IH]; [cbn; lia|].
    unfold nonzero_counts, Analytics.count_query_events in *. cbn [flat_map filter].
    rewrite length_app.
    destruct (dict_lookup log "jokes_count") as [[| | n | | |]|];
      destruct (Analytics.is_query_event log); cbn [andb length];
      try destruct (negb (Z.eqb n 0)); cbn [length]; lia.
Qed.

Lemma zero_joke_queries_are_not_averaged_witness :
  exists report,
    AnalyticsReports.get_stats
      (Some [MoreSamples.no_results_entry;
             Analytics.query_entry "t6" "cats" "success" 2 9 None;
             Analytics.query_entry "t7" "dogs" "success" 3 8 None]) = Ok (Some report) /\
    AnalyticsReports.total_queries (AnalyticsReports.counters report) = 3 /\
    AnalyticsReports.avg_jokes_per_query report = AnalyticsReports.Quotient 5 2.
Proof.
  assert (Forall app_entry
            [MoreSamples.no_results_entry;
             Analytics.query_entry "t6" "cats" "success" 2 9 None;
             Analytics.query_entry "t7" "dogs" "success" 3 8 None]) as Happ.
  { repeat (constructor; [constructor; cbn; tauto|]). constructor. }
  destruct (zero_joke_queries_are_not_averaged
              [MoreSamples.no_results_entry;
               Analytics.query_entry "t6" "cats" "success" 2 9 None;
               Analytics.query_entry "t7" "dogs" "success" 3 8 None] Happ eq_refl)
    as (report & total & Hrun & _).
  exists report. split; [exact Hrun|].
  vm_compute in Hrun. inversion Hrun. split; reflexivity.
Defined.

(** ** The index and the reconciler *)

Lemma to_uint_not_nil (n : nat) : Nat.to_uint n <> Decimal.Nil.
Proof.
  intros H. pose proof (DecimalNat.Unsigned.of_to n) as E.
  rewrite H in E. cbn in E. subst n. discriminate H.
Qed.

Lemma str_nat_inj (a b : nat) : PyStr.str_nat a = PyStr.str_nat b -> a = b.
Proof.
  unfold PyStr.str_nat. intros H.
  apply (f_equal NilZero.uint_of_string) in H.
  rewrite !NilZero.usu in H by apply to_uint_not_nil.
  inversion H as [E]. now apply DecimalNat.Unsigned.to_uint_inj.
Qed.

Lemma chroma_entries_documents (i : nat) (jokes : list Joke) :
  map document (chroma_entries i jokes) = map format_joke jokes.
Proof.
  revert i. induction jokes as [|j rest IH]; intros i; cbn [chroma_entries map]; [reflexivity|].
  cbn [document]. now rewrite IH.
Qed.

Lemma chroma_entries_ids (i : nat) (jokes : list Joke) (e : IndexEntry) :
  In e (chroma_entries i jokes) ->
  exists k, i <= k /\ entry_id e = "joke_" ++ PyStr.str_nat k.
Proof.
  revert i. induction jokes as [|j rest IH]; intros i; cbn [chroma_entries In]; [contradiction|].
  intros [<-|Hin].
  - exists i. split; [lia|reflexivity].
  - destruct (IH (i + 1) Hin) as (k & Hk & He). exists k. split; [lia|exact He].
Qed.

Lemma chroma_entries_nodup (i : nat) (jokes : list Joke) :
  NoDup (map entry_id (chroma_entries i jokes)).
Proof.
  revert i. induction jokes as [|j rest IH]; intros i; cbn [chroma_entries map]; constructor.
  - cbn [entry_id]. intros Hin. apply in_map_iff in Hin.
    destruct Hin as (e & He & Hin).
    destruct (chroma_entries_ids (i + 1) rest e Hin) as (k & Hk & Hid).
    rewrite Hid in He. cbn in He. inversion He as [E].
    apply str_nat_inj in E. lia.
  - apply IH.
Qed.

Lemma reconcile_finds (corpus : list Joke) (j : Joke) :
  In j corpus ->
  exists first, reconcile (format_joke j) corpus = Some first /\
                format_joke first = format_joke j.
Proof.
  intros Hin. destruct (reconcile (format_joke j) corpus) as [first|] eqn:E.
  - exists first. split; [reflexivity|]. now apply reconcile_text in E.
  - unfold reconcile in E. pose proof (find_none _ _ E j Hin) as H.
    cbn in H. now rewrite String.eqb_refl in H.
Qed.

Lemma chroma_entries_id_list (i : nat) (jokes : list Joke) :
  map entry_id (chroma_entries i jokes) =
  map (fun k => "joke_" ++ PyStr.str_nat k) (seq i (length jokes)).
Proof.
  revert i. induction jokes as [|j rest IH]; intros i; [reflexivity|].
  cbn [chroma_entries map length seq entry_id]. f_equal.
  rewrite IH. now rewrite Nat.add_1_r.
Qed.

Lemma initialized_documents (env : Env) :
  map document (initialize_chroma env []) = map format_joke (load_jokes env).
Proof.
  unfold initialize_chroma.
  destruct (load_jokes env) as [|j rest]; [reflexivity|].
  cbn [app]. apply chroma_entries_documents.
Qed.

(** X12. [initialize_chroma] fills the index once: on a collection that
    holds entries, or when there are no jokes, it changes nothing, so
    running it again after it has run adds nothing. *)
Theorem initialize_chroma_is_idempotent (env : Env) (collection : list IndexEntry) :
  initialize_chroma env (initialize_chroma env collection) = initialize_chroma env collection /\
  (collection <> [] -> initialize_chroma env collection = collection) /\
  (load_jokes env = [] -> initialize_chroma env collection = collection) /\
  length (initialize_chroma env collection) =
    match collection with
    | [] => length (load_jokes env)
    | _ => length collection
    end.
Proof.
  unfold initialize_chroma.
  assert (forall i jokes, length (chroma_entries i jokes) = length jokes) as Hlen.
  { intros i jokes. revert i. induction jokes as [|j rest IH]; intros i; cbn; [reflexivity|].
    now rewrite IH. }
  destruct collection as [|e es]; destruct (load_jokes env) as [|j rest] eqn:Hj;
    cbn [app chroma_entries]; repeat split; try congruence; try reflexivity.
  cbn [length]. now rewrite Hlen.
Qed.

(** X13. After [initialize_chroma] on an empty collection the index
    holds one entry per joke, in the order of the corpus: its documents
    are the derived texts of the jokes, and its identifiers, "joke_0",
    "joke_1", ..., are pairwise distinct. *)
Theorem index_holds_the_derived_texts (env : Env) :
  map document (initialize_chroma env []) = map format_joke (load_jokes env) /\
  map entry_id (initialize_chroma env []) =
    map (fun i => "joke_" ++ PyStr.str_nat i) (seq 0 (length (load_jokes env))) /\
  NoDup (map entry_id (initialize_chroma env [])).
Proof.
  assert (initialize_chroma env [] = chroma_entries 0 (load_jokes env)) as E.
  { unfold initialize_chroma. now destruct (load_jokes env). }
  rewrite E. split; [apply chroma_entries_documents|].
  split; [apply chroma_entries_id_list|apply chroma_entries_nodup].
Qed.

(** X14. When the index answers with documents it was initialised
    with, reconciliation drops none of them: every document finds a
    record of the corpus, and the records found have exactly the
    documents as their derived texts, in order. *)
Theorem indexed_documents_all_reconcile (env : Env) (documents : list string) :
  Forall (fun doc => In doc (map document (initialize_chroma env []))) documents ->
  map format_joke (reconcile_all documents (load_jokes env)) = documents /\
  length (reconcile_all documents (load_jokes env)) = length documents /\
  match_documents documents (load_jokes env) [] = reconcile_all documents (load_jokes env).
Proof.
  intros H.
  assert (map format_joke (reconcile_all documents (load_jokes env)) = documents) as Hmap.
  { rewrite (initialized_documents env) in H.
    unfold reconcile_all.
    induction H as [|doc rest Hdoc Hrest IH]; [reflexivity|].
    cbn [flat_map]. rewrite map_app, IH. f_equal.
    apply in_map_iff in Hdoc. destruct Hdoc as (j & <- & Hin).
    destruct (reconcile_finds (load_jokes env) j Hin) as (first & -> & Ht).
    cbn. now rewrite Ht. }
  split; [exact Hmap|]. split; [|apply match_documents_reconcile].
  rewrite <- Hmap at 2. now rewrite length_map.
Qed.

Lemma indexed_documents_all_reconcile_witness :
  map format_joke
    (reconcile_all [format_joke Sample.atom; format_joke Sample.cat_again]
       (load_jokes (Sample.mk (Some Sample.corpus) Sample.index_down Sample.model_timeout))) =
  [format_joke Sample.atom; format_joke Sample.cat_again].
Proof.
  refine (proj1 (indexed_documents_all_reconcile
            (Sample.mk (Some Sample.corpus) Sample.index_down Sample.model_timeout)
            [format_joke Sample.atom; format_joke Sample.cat_again] _)).
  constructor; [cbn; tauto|]. constructor; [cbn; tauto|constructor].
Defined.

(** X15. On a corpus whose records are all of type single or twopart,
    the loop of [init_chroma.py] builds the same entries as the loop of
    [initialize_chroma]: identifiers, documents and metadata, so the
    documents it indexes reconcile as those of the application do. *)
Theorem both_scripts_index_the_same (jokes : list Joke) (i : nat) :
  Forall (fun j => type j = Some "single" \/ type j = Some "twopart") jokes ->
  script_entries i jokes = chroma_entries i jokes /\
  map document (script_entries i jokes) = map format_joke jokes.
Proof.
  intros H.
  assert (script_entries i jokes = chroma_entries i jokes) as E.
  { revert i. induction H as [|j rest Hj Hrest IH]; intros i; [reflexivity|].
    cbn [script_entries chroma_entries]. rewrite IH. f_equal. f_equal.
    unfold script_text, format_joke, type_is.
    destruct Hj as [-> | ->]; reflexivity. }
  split; [exact E|]. rewrite E. apply chroma_entries_documents.
Qed.

Lemma both_scripts_index_the_same_witness :
  script_entries 0 Sample.corpus = chroma_entries 0 Sample.corpus /\
  map document (script_entries 0 Sample.corpus) = map format_joke Sample.corpus.
Proof.
  refine (both_scripts_index_the_same Sample.corpus 0 _).
  repeat (constructor; [cbn; tauto|]). constructor.
Defined.

(** ** fetch_jokes.py *)

Section SaveJokes.

Variable rendering : Joke -> string.

Lemma same_id_eq (a b : option Z) : FetchJokes.same_id a b = true <-> a = b.
Proof.
  destruct a as [x|], b as [y|]; cbn; split; try congruence; try discriminate.
  - intros H. apply Z.eqb_eq in H. now subst.
  - intros H. inversion H. apply Z.eqb_refl.
Qed.

Lemma is_duplicate_in (j : Joke) (existing : list Joke) :
  FetchJokes.is_duplicate j existing = true <-> In (id j) (map id existing).
Proof.
  unfold FetchJokes.is_duplicate. rewrite existsb_exists, in_map_iff.
  split; intros (e & H1 & H2); exists e.
  - apply same_id_eq in H2. now split.
  - split; [exact H2|]. now apply same_id_eq.
Qed.

Lemma is_duplicate_not_in (j : Joke) (existing : list Joke) :
  FetchJokes.is_duplicate j existing = false <-> ~ In (id j) (map id existing).
Proof.
  rewrite <- is_duplicate_in. now destruct (FetchJokes.is_duplicate j existing).
Qed.

(** The loop of [save_jokes]: what it appends, and what it keeps. *)
Lemma save_loop_appends (jokes_data existing : list Joke) (new_count : nat) :
  exists appended,
    FetchJokes.save_loop rendering jokes_data existing new_count =
      ((existing ++ appended)%list, new_count + length appended) /\
    (forall a, In a appended ->
       exists j, In j jokes_data /\ a = FetchJokes.set_fetched_at rendering j /\
                 ~ In (id j) (map id existing)) /\
    (NoDup (map id existing) -> NoDup (map id (existing ++ appended))) /\
    (forall j, In j jokes_data -> In (id j) (map id (existing ++ appended))).
Proof.
  revert existing new_count.
  induction jokes_data as [|j rest IH]; intros existing new_count; cbn [FetchJokes.save_loop].
  - exists []. rewrite app_nil_r, Nat.add_0_r.
    split; [reflexivity|]. split; [intros a []|]. split; [auto|intros j []].
  - destruct (FetchJokes.is_duplicate j existing) eqn:Hd.
    + destruct (IH existing new_count) as (appended & Hrun & Hfrom & Hnodup & Hcover).
      exists appended. split; [exact Hrun|]. split; [|split; [exact Hnodup|]].
      * intros a Ha. destruct (Hfrom a Ha) as (x & Hx & Hax & Hnew).
        exists x. split; [now right|now split].
      * intros x [<-|Hx]; [|now apply Hcover].
        apply is_duplicate_in in Hd. rewrite map_app. apply in_or_app. now left.
    + apply is_duplicate_not_in in Hd.
      destruct (IH (existing ++ [FetchJokes.set_fetched_at rendering j])%list (new_count + 1))
        as (appended & Hrun & Hfrom & Hnodup & Hcover).
      exists (FetchJokes.set_fetched_at rendering j :: appended).
      replace (existing ++ FetchJokes.set_fetched_at rendering j :: appended)%list
        with ((existing ++ [FetchJokes.set_fetched_at rendering j]) ++ appended)%list
        by now rewrite <- app_assoc.
      split; [rewrite Hrun; f_equal; cbn [length]; lia|].
      split; [|split].
      * intros a [<-|Ha].
        -- exists j. split; [now left|now split].
        -- destruct (Hfrom a Ha) as (x & Hx & Hax & Hnew).
           exists x. split; [now right|]. split; [exact Hax|].
           intros Hin. apply Hnew. rewrite map_app. apply in_or_app. now left.
      * intros Hex. apply Hnodup. rewrite map_app. cbn [map FetchJokes.set_fetched_at id].
        apply NoDup_app; [exact Hex|constructor; [intros []|constructor]|].
        intros a Ha [<-|[]]. now apply Hd.
      * intros x [<-|Hx]; [|now apply Hcover].
        rewrite !map_app. apply in_or_app. left. apply in_or_app. right. now left.
Qed.

Lemma save_loop_all_known (jokes_data existing : list Joke) (new_count : nat) :
  (forall j, In j jokes_data -> In (id j) (map id existing)) ->
  FetchJokes.save_loop rendering jokes_data existing new_count = (existing, new_count).
Proof.
  induction jokes_data as [|j rest IH]; intros H; cbn [FetchJokes.save_loop]; [reflexivity|].
  assert (FetchJokes.is_duplicate j existing = true) as Hd.
  { apply is_duplicate_in. apply H. now left. }
  rewrite Hd. apply IH. intros x Hx. apply H. now right.
Qed.

Lemma save_loop_all_new (jokes_data existing : list Joke) (new_count : nat) :
  NoDup (map id jokes_data) ->
  (forall j, In j jokes_data -> ~ In (id j) (map id existing)) ->
  FetchJokes.save_loop rendering jokes_data existing new_count =
  ((existing ++ map (FetchJokes.set_fetched_at rendering) jokes_data)%list,
   new_count + length jokes_data).
Proof.
  revert existing new_count.
  induction jokes_data as [|j rest IH]; intros existing new_count Hnd Hnew;
    cbn [FetchJokes.save_loop map length].
  - now rewrite app_nil_r, Nat.add_0_r.
  - assert (FetchJokes.is_duplicate j existing = false) as Hd.
    { apply is_duplicate_not_in. apply Hnew. now left. }
    rewrite Hd. cbn [map] in Hnd. apply NoDup_cons_iff in Hnd. destruct Hnd as [Hj Hnd].
    rewrite IH.
    + rewrite <- app_assoc. cbn [app]. f_equal. lia.
    + exact Hnd.
    + intros x Hx Hin. rewrite map_app in Hin. apply in_app_or in Hin.
      destruct Hin as [Hin|[Hin|[]]].
      * apply (Hnew x); [now right|exact Hin].
      * cbn in Hin. apply Hj. rewrite Hin. now apply in_map.
Qed.

End SaveJokes.

(** X16. [save_jokes] only appends: the records the file held stay, in
    place and unchanged; the number it returns is the number of records
    it appended; each of them is a joke of the batch, stamped, whose id
    was not in the file; and after it every id of a batch saved to a
    readable file is in the file.  An empty batch and a file that does
    not parse both give 0 and leave the file as it was. *)
Theorem save_jokes_only_appends (rendering : Joke -> string) (jokes_data : list Joke)
    (file : FetchJokes.JsonFile) :
  let saved := FetchJokes.save_jokes rendering jokes_data file in
  (exists appended,
     FetchJokes.content (snd saved) = (FetchJokes.content file ++ appended)%list /\
     fst saved = length appended /\
     (forall a, In a appended ->
        exists j, In j jokes_data /\ a = FetchJokes.set_fetched_at rendering j /\
                  ~ In (id j) (map id (FetchJokes.content file)))) /\
  (jokes_data = [] \/ file = FetchJokes.Corrupt -> saved = (0, file)) /\
  (file <> FetchJokes.Corrupt ->
   forall j, In j jokes_data -> In (id j) (map id (FetchJokes.content (snd saved)))).
Proof.
  cbv zeta. unfold FetchJokes.save_jokes.
  destruct jokes_data as [|j0 rest].
  { split; [exists []; cbn; now rewrite app_nil_r|]. split; [reflexivity|intros _ j []]. }
  destruct file as [| |existing].
  - destruct (save_loop_appends rendering (j0 :: rest) [] 0)
      as (appended & Hrun & Hfrom & _ & Hcover).
    rewrite Hrun. cbn [fst snd FetchJokes.content app Nat.add].
    split; [exists appended; repeat split; auto|].
    split; [intros [H|H]; discriminate|]. intros _. exact Hcover.
  - split; [exists []; cbn; repeat split; intros a []|].
    split; [reflexivity|]. intros H. congruence.
  - destruct (save_loop_appends rendering (j0 :: rest) existing 0)
      as (appended & Hrun & Hfrom & _ & Hcover).
    rewrite Hrun. cbn [fst snd FetchJokes.content Nat.add].
    split; [exists appended; repeat split; auto|].
    split; [intros [H|H]; discriminate|]. intros _. exact Hcover.
Qed.

(** X17. [save_jokes] keeps the ids of the file pairwise distinct: if
    no two records of the file share an id before (two records without
    an id count as sharing one), none do after, whatever the batch. *)
Theorem save_jokes_keeps_ids_distinct (rendering : Joke -> string) (jokes_data : list Joke)
    (file : FetchJokes.JsonFile) :
  NoDup (map id (FetchJokes.content file)) ->
  NoDup (map id (FetchJokes.content (snd (FetchJokes.save_jokes rendering jokes_data file)))).
Proof.
  intros H. unfold FetchJokes.save_jokes.
  destruct jokes_data as [|j0 rest]; [exact H|].
  destruct file as [| |existing]; [| exact H |].
  - destruct (save_loop_appends rendering (j0 :: rest) [] 0) as (appended & Hrun & _ & Hnd & _).
    rewrite Hrun. cbn [snd FetchJokes.content]. now apply Hnd.
  - destruct (save_loop_appends rendering (j0 :: rest) existing 0)
      as (appended & Hrun & _ & Hnd & _).
    rewrite Hrun. cbn [snd FetchJokes.content]. now apply Hnd.
Qed.

Lemma save_jokes_keeps_ids_distinct_witness :
  NoDup (map id (FetchJokes.content
                   (snd (FetchJokes.save_jokes MoreSamples.keep_text
                           [Sample.cat; Sample.single 9 "Misc" "new"; Sample.single 9 "Pun" "same id"]
                           (FetchJokes.Holds [Sample.bug; Sample.cat]))))).
Proof.
  refine (save_jokes_keeps_ids_distinct MoreSamples.keep_text
            [Sample.cat; Sample.single 9 "Misc" "new"; Sample.single 9 "Pun" "same id"]
            (FetchJokes.Holds [Sample.bug; Sample.cat]) _).
  cbn. constructor; [cbn; intros [H|[]]; discriminate|].
  constructor; [intros []|constructor].
Defined.

(** X18. Saving the same batch again adds nothing: after [save_jokes]
    has run on a batch, a second run on that batch returns 0 and leaves
    the content of the file as the first run left it. *)
Theorem save_jokes_twice_adds_nothing (rendering : Joke -> string) (jokes_data : list Joke)
    (file : FetchJokes.JsonFile) :
  let first := FetchJokes.save_jokes rendering jokes_data file in
  FetchJokes.save_jokes rendering jokes_data (snd first) = (0, snd first).
Proof.
  cbv zeta.
  destruct jokes_data as [|j0 rest]; [reflexivity|].
  destruct file as [| |existing]; [| reflexivity |].
  - unfold FetchJokes.save_jokes at 2 3.
    destruct (save_loop_appends rendering (j0 :: rest) [] 0)
      as (appended & Hrun & _ & _ & Hcover).
    rewrite Hrun. cbn [snd]. unfold FetchJokes.save_jokes.
    now rewrite (save_loop_all_known rendering (j0 :: rest) ([] ++ appended) 0 Hcover).
  - unfold FetchJokes.save_jokes at 2 3.
    destruct (save_loop_appends rendering (j0 :: rest) existing 0)
      as (appended & Hrun & _ & _ & Hcover).
    rewrite Hrun. cbn [snd]. unfold FetchJokes.save_jokes.
    now rewrite (save_loop_all_known rendering (j0 :: rest) (existing ++ appended) 0 Hcover).
Qed.

(** X19. Duplicates are told by id alone: a batch whose ids are pairwise
    distinct and none of which is in a readable file is saved whole, in
    order, each record stamped, whatever the texts of the jokes are; a
    file that did not exist is created with the batch.  The stamp leaves
    the derived text of a joke of type single or twopart as it was. *)
Theorem fresh_batch_is_saved_whole (rendering : Joke -> string) (jokes_data : list Joke)
    (file : FetchJokes.JsonFile) :
  file <> FetchJokes.Corrupt ->
  NoDup (map id jokes_data) ->
  (forall j, In j jokes_data -> ~ In (id j) (map id (FetchJokes.content file))) ->
  jokes_data <> [] ->
  FetchJokes.save_jokes rendering jokes_data file =
  (length jokes_data,
   FetchJokes.Holds
     (FetchJokes.content file ++ map (FetchJokes.set_fetched_at rendering) jokes_data)) /\
  map format_joke (map (FetchJokes.set_fetched_at rendering) jokes_data) =
  map (fun j => if type_is j "single" || type_is j "twopart"
                then format_joke j else rendering j) jokes_data.
Proof.
  intros Hf Hnd Hnew Hne. split.
  - unfold FetchJokes.save_jokes.
    destruct jokes_data as [|j0 rest]; [congruence|].
    destruct file as [| |existing]; [| congruence |].
    + now rewrite (save_loop_all_new rendering (j0 :: rest) [] 0 Hnd Hnew).
    + now rewrite (save_loop_all_new rendering (j0 :: rest) existing 0 Hnd Hnew).
  - rewrite map_map. apply map_ext. intros j.
    unfold format_joke, type_is, FetchJokes.set_fetched_at. cbn.
    destruct (type j) as [t|]; [|reflexivity].
    destruct (String.eqb t "single"); [reflexivity|].
    destruct (String.eqb t "twopart"); reflexivity.
Qed.

Lemma fresh_batch_is_saved_whole_witness :
  FetchJokes.save_jokes MoreSamples.keep_text [Sample.cat; Sample.cat_again] FetchJokes.Missing =
  (2, FetchJokes.Holds [Sample.cat; Sample.cat_again]).
Proof.
  refine (proj1 (fresh_batch_is_saved_whole MoreSamples.keep_text
                   [Sample.cat; Sample.cat_again] FetchJokes.Missing _ _ _ _)).
  - discriminate.
  - cbn. constructor; [intros [H|[]]; discriminate|]. constructor; [intros []|constructor].
  - intros j _ [].
  - discriminate.
Defined.

(** ** The other endpoints of app.py *)

(** X20. The two endpoints that only read [jokes.json] change nothing
    and depend on the state of the file.  When it is missing, or holds
    an empty list, the random-joke endpoint answers 404 with "No jokes
    available" and the listing endpoint gives no joke and the count 0.
    When it holds records, the random-joke endpoint, the generator
    drawing a position of the list, answers with the record at that
    position, and the listing endpoint gives the records and their
    number.  When it holds text that is not JSON, [load_jokes] does not
    catch the error of [json.load], and neither endpoint does: both
    raise it.  On the file of a request to the ask endpoint,
    [load_jokes_from] gives what [load_jokes] gives. *)
Theorem random_joke_endpoint (env : Env) (file : JokesFile) (w : World) :
  match file with
  | Unparsable decode_error =>
      get_random_joke env file w = (Raised decode_error, w) /\
      get_all_jokes file w = (Raised decode_error, w)
  | NoFile | Parsed [] =>
      get_random_joke env file w = (Ok (NoJoke "No jokes available" 404), w) /\
      get_all_jokes file w = (Ok ([], 0), w)
  | Parsed jokes =>
      (randbelow env (length jokes) < length jokes ->
       exists j,
         get_random_joke env file w = (Ok (OneJoke j), w) /\
         nth_error jokes (randbelow env (length jokes)) = Some j /\
         In j jokes) /\
      get_all_jokes file w = (Ok (jokes, length jokes), w)
  end /\
  load_jokes_from (file_of env) w = (Ok (load_jokes env), w).
Proof.
  split.
  - destruct file as [|decode_error|[|j0 rest]]; try (split; reflexivity).
    split; [|reflexivity]. intros Hdraw.
    unfold get_random_joke, load_jokes_from, bind, ret, random_choice.
    destruct (nth_error (j0 :: rest) (randbelow env (length (j0 :: rest)))) as [j|] eqn:Hn.
    + exists j. split; [reflexivity|]. split; [reflexivity|]. now apply nth_error_In in Hn.
    + apply nth_error_None in Hn. lia.
  - unfold file_of, load_jokes. now destruct (jokes_file env).
Qed.

(** ** The recommendation branch when the model answers *)

Lemma select_jokes_flat (corpus : list Joke) (documents : list string) (indices : list Z)
    (found : list Joke) :
  select_jokes indices documents corpus found =
  (found ++
   flat_map (fun idx =>
               if usable_index documents idx
               then found_list (reconcile (nth (Z.to_nat idx) documents EmptyString) corpus)
               else []) indices)%list.
Proof.
  revert found. induction indices as [|idx rest IH]; intros found;
    cbn [select_jokes flat_map].
  - now rewrite app_nil_r.
  - unfold usable_index at 1.
    destruct ((0 <=? idx)%Z && (idx <? Z.of_nat (length documents))%Z)%bool eqn:Hu.
    + apply andb_true_iff in Hu. destruct Hu as [H0 H1].
      apply Z.leb_le in H0. apply Z.ltb_lt in H1.
      assert (Z.to_nat idx < length documents) as Hlt by lia.
      destruct (nth_error documents (Z.to_nat idx)) as [doc|] eqn:Hn.
      * rewrite (nth_error_nth _ _ EmptyString Hn).
        rewrite IH, append_first_match_reconcile. now rewrite <- app_assoc.
      * apply nth_error_None in Hn. lia.
    + apply IH.
Qed.

Lemma ask_ai_recommend_try (env : Env) (data : Dict) (user_message : string) (w w' : World)
    (r : Response) :
  reaches_branches env data user_message ->
  is_counting user_message = false ->
  is_existence user_message = false ->
  recommend_try env user_message (load_jokes env) w = (Ok r, w') ->
  ask_ai env data w = (Ok r, w').
Proof.
  intros Hr Hc He Hrun.
  rewrite (ask_ai_branch env data user_message w Hr), Hc, He.
  apply try_except_ok. unfold recommendation_branch. now apply try_except_ok.
Qed.

(** X21. In the recommendation branch, when the index returns no
    document, the reply is "I couldn't find any jokes matching your
    request." with no joke, the query is logged with outcome
    [no_results] and count 0, and the model is not called. *)
Theorem no_documents_no_model_call (env : Env) (data : Dict) (user_message : string)
    (w : World) :
  reaches_branches env data user_message ->
  is_counting user_message = false ->
  is_existence user_message = false ->
  collection_query env user_message 5 = SearchOk [] ->
  ask_ai env data w =
  (Ok (AnswerBody "I couldn't find any jokes matching your request." [], 200),
   mkWorld (logs w ++
            [Analytics.query_entry (now_isoformat env (length (logs w)))
               user_message "no_results" 0 (elapsed_ms env) None])
           (calls w ++ [CallQuery user_message 5])).
Proof.
  intros Hr Hc He Hq.
  apply (ask_ai_recommend_try env data user_message w _ _ Hr Hc He).
  unfold recommend_try, bind, search_jokes_by_query. rewrite Hq.
  now rewrite log_query_run.
Qed.

Lemma no_documents_no_model_call_witness :
  ask_ai (Sample.mk (Some Sample.corpus) (Sample.index_ok []) (Sample.model_says "1"))
         (Sample.request "tell me a joke") Sample.fresh =
  (Ok (AnswerBody "I couldn't find any jokes matching your request." [], 200),
   mkWorld [Analytics.query_entry "2024-01-01T00:00:00" "tell me a joke" "no_results" 0 12 None]
           [CallQuery "tell me a joke" 5]).
Proof.
  refine (no_documents_no_model_call
            (Sample.mk (Some Sample.corpus) (Sample.index_ok []) (Sample.model_says "1"))
            (Sample.request "tell me a joke") "tell me a joke" Sample.fresh _ _ _ _).
  - apply reaches_branches_intro; [reflexivity|discriminate|reflexivity|discriminate].
  - reflexivity.
  - reflexivity.
  - reflexivity.
Defined.

(** X22. In the recommendation branch, when the index returns documents
    and the model answers, the selection is the content of its first
    choice, stripped.  A selection that is "none" in any letter case
    gives the reply "I couldn't find a joke that matches your request
    perfectly. Would you like a random joke instead?" with no joke and
    outcome [no_results].  Any other selection is cut at the commas and
    each piece is stripped; the pieces [str.isdigit] accepts are
    converted by [int], in order, and the others are passed over.  When
    every conversion succeeds the reply is "Here's what I found for
    you:" with outcome [success]: each number naming one of the
    documents, counted from 1, is reconciled, in the order of the pieces
    and with repetitions, and when that yields no record the first
    document is reconciled instead; the entry holds the number of
    records sent.  When a conversion raises, the [try] ends with that
    exception, nothing logged, and the handler of LLM failures takes
    over.  On a selection of ASCII text of at most 640 characters no
    conversion raises: the numbers are the values of the pieces that
    are strings of digits. *)
Theorem model_selection_is_followed (env : Env) (data : Dict) (user_message : string)
    (first_doc : string) (more_docs : list string) (content : string)
    (more_choices : list (option string)) (w : World) :
  reaches_branches env data user_message ->
  is_counting user_message = false ->
  is_existence user_message = false ->
  collection_query env user_message 5 = SearchOk (first_doc :: more_docs) ->
  let documents := first_doc :: more_docs in
  let prompt := prompt_select user_message
                  (PyStr.join (PyStr.nl ++ PyStr.nl) (numbered_jokes 0 documents)) in
  chat_completions_create env prompt = ChatOk (Some content :: more_choices) ->
  content <> EmptyString ->
  let selected := PyStr.strip content in
  let picked indices :=
    flat_map (fun idx =>
                if usable_index documents idx
                then found_list (reconcile (nth (Z.to_nat idx) documents EmptyString)
                                   (load_jokes env))
                else []) indices in
  let sent indices :=
    match picked indices with
    | [] => found_list (reconcile first_doc (load_jokes env))
    | _ => picked indices
    end in
  let called := (calls w ++ [CallQuery user_message 5; CallChat prompt])%list in
  let w' t n :=
    mkWorld (logs w ++
             [Analytics.query_entry (now_isoformat env (length (logs w)))
                user_message t n (elapsed_ms env) None])
            called in
  (PyStr.lower selected = "none" ->
   ask_ai env data w =
   (Ok (AnswerBody
          "I couldn't find a joke that matches your request perfectly. Would you like a random joke instead?"
          [], 200), w' "no_results" 0)) /\
  (PyStr.lower selected <> "none" ->
   forall indices,
     joke_indices env selected = Ok indices ->
     ask_ai env data w = (Ok (AnswerBody "Here's what I found for you:" (sent indices), 200),
                          w' "success" (length (sent indices)))) /\
  (PyStr.lower selected <> "none" ->
   forall e,
     joke_indices env selected = Raised e ->
     recommend_try env user_message (load_jokes env) w = (Raised e, mkWorld (logs w) called) /\
     ask_ai env data w =
     try_except
       (recommend_except env user_message (load_jokes env) e)
       (fun _ => ret (ErrorBody "An unexpected error occurred. Please try again.", 500))
       (mkWorld (logs w) called)) /\
  (PyStr.is_ascii selected = true ->
   String.length selected <= str_digits_check_threshold ->
   joke_indices env selected =
   Ok (map (fun num => (PyStr.int (PyStr.strip num) - 1)%Z)
         (filter (fun num => PyStr.isdigit (PyStr.strip num)) (PyStr.split "," selected)))).
Proof.
  intros Hr Hc He Hq documents prompt Hchat Hne selected picked sent called w'.
  assert (forall r wr,
            recommend_try env user_message (load_jokes env) w = (Ok r, wr) ->
            ask_ai env data w = (Ok r, wr)) as Hask.
  { intros r wr. now apply ask_ai_recommend_try. }
  assert (recommend_try env user_message (load_jokes env) w =
          if String.eqb (PyStr.lower selected) "none" then
            (Ok (AnswerBody
                   "I couldn't find a joke that matches your request perfectly. Would you like a random joke instead?"
                   [], 200), w' "no_results" 0)
          else
            match joke_indices env selected with
            | Ok indices =>
                (Ok (AnswerBody "Here's what I found for you:" (sent indices), 200),
                 w' "success" (length (sent indices)))
            | Raised e => (Raised e, mkWorld (logs w) called)
            end) as Hrun.
  { unfold recommend_try, bind, search_jokes_by_query, chat_create, checked_content.
    rewrite Hq. fold documents. fold prompt. cbn [logs calls]. rewrite Hchat.
    rewrite (is_empty_false content Hne). unfold ret. fold selected.
    destruct (String.eqb (PyStr.lower selected) "none").
    - rewrite log_query_run. unfold w', called. cbn [logs calls]. now rewrite <- app_assoc.
    - destruct (joke_indices env selected) as [indices|e].
      + rewrite select_jokes_flat. cbn [app]. fold (picked indices).
        assert (match picked indices with
                | [] => append_first_match first_doc (load_jokes env) (picked indices)
                | _ :: _ => picked indices
                end = sent indices) as Hsent.
        { unfold sent. destruct (picked indices); [|reflexivity].
          now rewrite append_first_match_reconcile. }
        rewrite Hsent, log_query_run. unfold w', called, found_response. cbn [logs calls].
        now rewrite <- app_assoc.
      + unfold raise, called. now rewrite <- app_assoc. }
  split; [|split; [|split; [|now apply joke_indices_ascii]]]; intros Hnone.
  - apply Hask. rewrite Hrun. now rewrite Hnone.
  - intros indices Hi. apply Hask. rewrite Hrun.
    apply String.eqb_neq in Hnone. now rewrite Hnone, Hi.
  - intros e Hi. apply String.eqb_neq in Hnone. rewrite Hnone, Hi in Hrun.
    split; [exact Hrun|].
    rewrite (ask_ai_branch env data user_message w Hr), Hc, He.
    unfold recommendation_branch, try_except at 1 2. now rewrite Hrun.
Qed.

Lemma model_selection_is_followed_witness :
  ask_ai (Sample.mk (Some Sample.corpus)
            (Sample.index_ok [format_joke Sample.bug; "no such joke"; format_joke Sample.atom])
            (Sample.model_says " 3, x, 7,0 ,3"))
         (Sample.request "tell me a joke") Sample.fresh =
  (Ok (AnswerBody "Here's what I found for you:" [Sample.atom; Sample.atom], 200),
   mkWorld [Analytics.query_entry "2024-01-01T00:00:00" "tell me a joke" "success" 2 12 None]
           [CallQuery "tell me a joke" 5;
            CallChat (prompt_select "tell me a joke"
                        (PyStr.join (PyStr.nl ++ PyStr.nl)
                           (numbered_jokes 0
                              [format_joke Sample.bug; "no such joke";
                               format_joke Sample.atom])))]).
Proof.
  refine (proj1 (proj2 (model_selection_is_followed
            (Sample.mk (Some Sample.corpus)
               (Sample.index_ok [format_joke Sample.bug; "no such joke"; format_joke Sample.atom])
               (Sample.model_says " 3, x, 7,0 ,3"))
            (Sample.request "tell me a joke") "tell me a joke"
            (format_joke Sample.bug) ["no such joke"; format_joke Sample.atom]
            " 3, x, 7,0 ,3" [] Sample.fresh _ _ _ _ _ _)) _ [2; 6; -1; 2]%Z _).
  - apply reaches_branches_intro; [reflexivity|discriminate|reflexivity|discriminate].
  - reflexivity.
  - reflexivity.
  - reflexivity.
  - reflexivity.
  - discriminate.
  - vm_compute. discriminate.
  - reflexivity.
Defined.

(** ** The topic of a counting question *)

(** X23. In the counting branch the query of the index and the call of
    the model share one [try]: when the index raises, the model is not
    called, and the topic is the one the pattern "how many <word>" gives
    on the message lower-cased by [str.lower], although the counting
    itself never uses what the index returns.  The records counted are
    those whose category or derived text, lower-cased, contains that
    topic. *)
Theorem counting_with_index_down (env : Env) (data : Dict) (user_message : string)
    (search_error : Exn) (w : World) :
  reaches_branches env data user_message ->
  is_counting user_message = true ->
  collection_query env user_message (length (load_jokes env)) = SearchRaise search_error ->
  let topic := fallback_topic env user_message in
  let matching := filter (about_topic env topic) (load_jokes env) in
  let count := length matching in
  let w' t n :=
    mkWorld (logs w ++
             [Analytics.query_entry (now_isoformat env (length (logs w)))
                user_message t n (elapsed_ms env) None])
            (calls w ++ [CallQuery user_message (length (load_jokes env))]) in
  extract_topic env user_message (load_jokes env) w =
    (Ok topic, mkWorld (logs w) (calls w ++ [CallQuery user_message (length (load_jokes env))])) /\
  ask_ai env data w =
  if 0 <? count then
    (Ok (AnswerBody
           ("I have " ++ PyStr.str_nat count ++ " " ++ topic ++ joke_word count ++
            " in my collection.")
           (firstn 3 matching), 200),
     w' "success" (length (firstn 3 matching)))
  else
    (Ok (AnswerBody ("I have 0 " ++ topic ++ " jokes in my collection.") [], 200),
     w' "no_results" 0).
Proof.
  intros Hr Hc Hq topic matching count w'.
  assert (extract_topic env user_message (load_jokes env) w =
          (Ok topic,
           mkWorld (logs w) (calls w ++ [CallQuery user_message (length (load_jokes env))])))
    as Ht.
  { unfold extract_topic, try_except, bind, search_jokes_by_query. now rewrite Hq. }
  split; [exact Ht|].
  rewrite (ask_ai_branch env data user_message w Hr), Hc.
  pose proof (counting_branch_run env user_message topic (load_jokes env) w _ Ht eq_refl)
    as Hrun.
  assert (filter (topic_in_joke env topic) (load_jokes env) = matching) as Hf.
  { apply filter_ext. intros j. apply topic_in_joke_about. }
  cbv zeta in Hrun. rewrite Hf in Hrun. fold count in Hrun. cbn [calls] in Hrun.
  unfold try_except. rewrite Hrun. unfold w'.
  destruct (0 <? count); [|reflexivity].
  now rewrite joke_word_plural.
Qed.

Lemma counting_with_index_down_witness :
  ask_ai (Sample.mk (Some Sample.corpus) Sample.index_down (Sample.model_says "misc"))
         (Sample.request "How many Cat jokes are there?") Sample.fresh =
  (Ok (AnswerBody "I have 2 cat jokes in my collection." [Sample.cat; Sample.cat_again], 200),
   mkWorld [Analytics.query_entry "2024-01-01T00:00:00" "How many Cat jokes are there?"
              "success" 2 12 None]
           [CallQuery "How many Cat jokes are there?" 4]).
Proof.
  refine (proj2 (counting_with_index_down
            (Sample.mk (Some Sample.corpus) Sample.index_down (Sample.model_says "misc"))
            (Sample.request "How many Cat jokes are there?") "How many Cat jokes are there?"
            "connection refused" Sample.fresh _ _ _)).
  - apply reaches_branches_intro; [reflexivity|discriminate|reflexivity|discriminate].
  - reflexivity.
  - reflexivity.
Defined.

Lemma drop_prefix_app (p s rest : string) :
  PyStr.drop_prefix p s = Some rest <-> s = (p ++ rest)%string.
Proof.
  revert s. induction p as [|a p IH]; intros s; cbn.
  - split; [now intros [= ->]|now intros ->].
  - destruct s as [|b s]; [split; discriminate|].
    destruct (Ascii.eqb_spec a b) as [->|Hab].
    + rewrite IH. split; [now intros ->|now intros [= ->]].
    + split; [discriminate|]. intros [= E _]. congruence.
Qed.

Lemma how_many_here_spec (s : string) :
  match PyStr.how_many_here s with
  | Some word =>
      exists rest, s = ("how many " ++ rest)%string /\ word = PyStr.word_run rest /\
                   word <> EmptyString
  | None => forall rest, s = ("how many " ++ rest)%string -> PyStr.word_run rest = EmptyString
  end.
Proof.
  unfold PyStr.how_many_here.
  destruct (PyStr.drop_prefix "how many " s) as [rest|] eqn:E.
  - apply drop_prefix_app in E.
    destruct (PyStr.word_run rest) as [|c r] eqn:Hw.
    + intros rest' Hs. rewrite E in Hs.
      assert (rest' = rest) as -> by (cbn in Hs; congruence). exact Hw.
    + exists rest. split; [exact E|]. split; [now rewrite Hw|discriminate].
  - intros rest Hs. apply drop_prefix_app in Hs. congruence.
Qed.

Lemma word_run_split (rest : string) :
  exists after,
    rest = (PyStr.word_run rest ++ after)%string /\
    all_word (PyStr.word_run rest) = true /\
    no_word_ahead after = true.
Proof.
  induction rest as [|c r (after & Hs & Hw & Ha)].
  - now exists EmptyString.
  - cbn [PyStr.word_run]. destruct (PyStr.is_word c) eqn:Hc.
    + exists after. cbn [String.append all_word]. rewrite Hc, Hw. now rewrite <- Hs.
    + exists (String c r). cbn [String.append all_word no_word_ahead]. now rewrite Hc.
Qed.

Lemma word_run_empty (rest : string) :
  PyStr.word_run rest = EmptyString -> no_word_ahead rest = true.
Proof.
  destruct rest as [|c r]; [reflexivity|].
  cbn [PyStr.word_run no_word_ahead]. now destruct (PyStr.is_word c).
Qed.

(** X24. On a message of ASCII text, the topic the fallback extracts is
    read at the first place of the lower-cased message where "how many "
    is followed by a letter, a digit or an underscore: it is the text
    from there up to the first character that is none of those, or up to
    the end, and it has no capital letter.  When there is no such place,
    in particular in a message that has the cue "count" only, the topic
    is "unknown". *)
Theorem fallback_topic_is_first_word_after_how_many (env : Env) (user_message : string) :
  PyStr.is_ascii user_message = true ->
  let text := PyStr.lower user_message in
  str_lower env user_message = text /\
  ((fallback_topic env user_message = "unknown" /\
    forall before rest,
      text = (before ++ "how many " ++ rest)%string -> no_word_ahead rest = true) \/
   (exists before topic after,
      text = (before ++ "how many " ++ topic ++ after)%string /\
      fallback_topic env user_message = topic /\
      topic <> EmptyString /\
      all_word topic = true /\
      lower_fixed topic /\
      no_word_ahead after = true /\
      forall before' rest',
        text = (before' ++ "how many " ++ rest')%string ->
        String.length before' < String.length before ->
        no_word_ahead rest' = true)).
Proof.
  intros Hascii. cbv zeta. split; [now apply str_lower_ascii|].
  rewrite (fallback_topic_ascii env user_message Hascii).
  pose proof (lower_idem user_message) as Hfix. revert Hfix.
  generalize (PyStr.lower user_message) as text. intros text Hfix.
  assert (match PyStr.re_search_how_many text with
          | Some word =>
              exists before rest,
                text = (before ++ "how many " ++ rest)%string /\
                word = PyStr.word_run rest /\ word <> EmptyString /\
                forall before' rest',
                  text = (before' ++ "how many " ++ rest')%string ->
                  String.length before' < String.length before ->
                  PyStr.word_run rest' = EmptyString
          | None =>
              forall before rest,
                text = (before ++ "how many " ++ rest)%string ->
                PyStr.word_run rest = EmptyString
          end) as H.
  { clear Hfix. induction text as [|c r IH]; rewrite re_search_how_many_eq.
    - pose proof (how_many_here_spec EmptyString) as Hh.
      destruct (PyStr.how_many_here EmptyString) as [word|].
      + destruct Hh as (rest & Hs & _). discriminate Hs.
      + intros before rest Hs. destruct before; discriminate Hs.
    - pose proof (how_many_here_spec (String c r)) as Hh.
      destruct (PyStr.how_many_here (String c r)) as [word|].
      + destruct Hh as (rest & Hs & Hw & Hne).
        exists EmptyString, rest. split; [exact Hs|]. split; [exact Hw|]. split; [exact Hne|].
        intros before' rest' _ Hlen. cbn in Hlen. lia.
      + destruct (PyStr.re_search_how_many r) as [word|].
        * destruct IH as (before & rest & Hs & Hw & Hne & Hfirst).
          exists (String c before), rest. split; [cbn; now rewrite Hs|].
          split; [exact Hw|]. split; [exact Hne|].
          intros before' rest' Hs' Hlen.
          destruct before' as [|c' b'].
          -- now apply Hh.
          -- cbn in Hs'. injection Hs' as _ Hr. apply (Hfirst b' rest' Hr).
             cbn in Hlen. lia.
        * intros before rest Hs. destruct before as [|c' b'].
          -- now apply Hh.
          -- cbn in Hs. injection Hs as _ Hr. now apply (IH b' rest). }
  destruct (PyStr.re_search_how_many text) as [word|] eqn:E.
  - right. destruct H as (before & rest & Hs & Hw & Hne & Hfirst).
    destruct (word_run_split rest) as (after & Hrest & Hall & Hafter).
    pose proof (lower_fixed_re_search text word E Hfix) as Hlow.
    exists before, word, after. rewrite Hw in Hlow |- *.
    split; [now rewrite <- Hrest|]. split; [reflexivity|].
    split; [now rewrite <- Hw|]. split; [exact Hall|]. split; [exact Hlow|].
    split; [exact Hafter|].
    intros before' rest' Hs' Hlen. now apply word_run_empty, (Hfirst before' rest').
  - left. split; [reflexivity|].
    intros before rest Hs. now apply word_run_empty, (H before rest).
Qed.

Lemma fallback_topic_is_first_word_after_how_many_witness :
  str_lower (Sample.mk None Sample.index_down Sample.model_timeout)
    "So, How MANY Cat_1 jokes?" = "so, how many cat_1 jokes?".
Proof.
  exact (proj1 (fallback_topic_is_first_word_after_how_many
                  (Sample.mk None Sample.index_down Sample.model_timeout)
                  "So, How MANY Cat_1 jokes?" eq_refl)).
Defined.

Lemma contains_empty (s : string) : PyStr.contains EmptyString s = true.
Proof. destruct s; reflexivity. Qed.

Lemma filter_all {A : Type} (f : A -> bool) (l : list A) :
  (forall x, f x = true) -> filter f l = l.
Proof.
  intros H. induction l as [|x rest IH]; [reflexivity|].
  cbn [filter]. now rewrite H, IH.
Qed.

(** X25. In the counting branch the answer of the model is checked for
    emptiness before it is stripped: an answer made of blanks only
    passes the check and gives the empty topic, which every joke
    contains, so the reply counts the whole corpus and shows its first
    three records. *)
Theorem blank_topic_counts_every_joke (env : Env) (data : Dict) (user_message : string)
    (documents : list string) (content : string) (more_choices : list (option string))
    (w : World) :
  reaches_branches env data user_message ->
  is_counting user_message = true ->
  collection_query env user_message (length (load_jokes env)) = SearchOk documents ->
  chat_completions_create env (prompt_count user_message) = ChatOk (Some content :: more_choices) ->
  content <> EmptyString ->
  PyStr.strip content = EmptyString ->
  let corpus := load_jokes env in
  ask_ai env data w =
  (Ok (AnswerBody
         ("I have " ++ PyStr.str_nat (length corpus) ++ " " ++ joke_word (length corpus) ++
          " in my collection.")
         (firstn 3 corpus), 200),
   mkWorld (logs w ++
            [Analytics.query_entry (now_isoformat env (length (logs w)))
               user_message "success" (length (firstn 3 corpus)) (elapsed_ms env) None])
           (calls w ++ [CallQuery user_message (length corpus);
                        CallChat (prompt_count user_message)])).
Proof.
  intros Hr Hc Hq Hchat Hne Hblank corpus.
  assert (extract_topic env user_message corpus w =
          (Ok EmptyString,
           mkWorld (logs w)
             ((calls w ++ [CallQuery user_message (length corpus)]) ++
              [CallChat (prompt_count user_message)]))) as Ht.
  { unfold extract_topic, try_except, bind, search_jokes_by_query, chat_create, checked_content.
    unfold corpus. rewrite Hq. cbn [logs calls]. rewrite Hchat.
    rewrite (is_empty_false content Hne). unfold ret. now rewrite Hblank. }
  pose proof (counting_branch_run env user_message EmptyString corpus w _ Ht eq_refl) as Hrun.
  cbv zeta in Hrun.
  rewrite (filter_all (topic_in_joke env EmptyString) corpus) in Hrun.
  2:{ intros j. unfold topic_in_joke. now rewrite contains_empty. }
  assert ((0 <? length corpus) = true) as Hpos.
  { destruct Hr as (_ & _ & Hcorpus). apply Nat.ltb_lt.
    fold corpus in Hcorpus. destruct corpus; [congruence|cbn; lia]. }
  rewrite Hpos in Hrun. cbn [calls] in Hrun. rewrite <- app_assoc in Hrun.
  rewrite (ask_ai_branch env data user_message w Hr), Hc.
  apply try_except_ok. fold corpus. rewrite Hrun.
  change (EmptyString ++ " joke" ++ plural_s (length corpus) ++ " in my collection.")%string
    with (" joke" ++ plural_s (length corpus) ++ " in my collection.")%string.
  now rewrite joke_word_plural.
Qed.

Lemma blank_topic_counts_every_joke_witness :
  ask_ai (Sample.mk (Some Sample.corpus) (Sample.index_ok []) (Sample.model_says " "))
         (Sample.request "count the jokes") Sample.fresh =
  (Ok (AnswerBody "I have 4  jokes in my collection." [Sample.bug; Sample.cat; Sample.atom],
       200),
   mkWorld [Analytics.query_entry "2024-01-01T00:00:00" "count the jokes" "success" 3 12 None]
           [CallQuery "count the jokes" 4; CallChat (prompt_count "count the jokes")]).
Proof.
  refine (blank_topic_counts_every_joke
            (Sample.mk (Some Sample.corpus) (Sample.index_ok []) (Sample.model_says " "))
            (Sample.request "count the jokes") "count the jokes" [] " " [] Sample.fresh
            _ _ _ _ _ _).
  - apply reaches_branches_intro; [reflexivity|discriminate|reflexivity|discriminate].
  - reflexivity.
  - reflexivity.
  - reflexivity.
  - discriminate.
  - reflexivity.
Defined.
